(** * Noviam CV generator: the document composer and its upstream check

    A shallow embedding of
      - [scripts/generate_cv.js]  (createSectionHeading, createJobHeader,
        createBulletPoint, generateCV),
      - [lib/aligner.js]          (the validation that ends alignCV),
      - [lib/generator.js]        (src/unnamed/part_003: the wrapper that
        derives the output file name and runs the script),
      - [server.js]               (src/unnamed/part_002: the /api/align
        handler that chains them),
    followed by the properties of the composed document.

    The input is the JSON structure of the header comment of the script:
    every field holds a value of its documented type or is missing. *)

From Stdlib Require Import Strings.String Strings.Ascii Numbers.DecimalString.
From Stdlib Require Import List ZArith NArith Bool Lia.
From Stdlib Require DecimalN QArith.
Import ListNotations.

Set Implicit Arguments.

(* ------------------------------------------------------------------ *)
(** * JavaScript strings *)

(** A JavaScript string is a sequence of UTF-16 code units.  The regular
    expression of the file-name derivation (no [u] flag) and [join] both
    work on code units, so that is what a string is here. *)
Definition jsstring := list N.

(** An ASCII source literal as code units. *)
Definition lit (s : string) : jsstring :=
  map N_of_ascii (list_ascii_of_string s).
Arguments lit s%_string.

(** [`${x}`] for a field that holds a string or is missing. *)
Definition template (x : option jsstring) : jsstring :=
  match x with
  | Some s => s
  | None => lit "undefined"
  end.

(** [String.prototype.toUpperCase] on the ASCII letters; the script only
    calls it on its own ASCII section labels. *)
Definition upper_unit (c : N) : N :=
  if ((97 <=? c) && (c <=? 122))%N then (c - 32)%N else c.

Definition toUpperCase (s : jsstring) : jsstring := map upper_unit s.

(** [Array.prototype.join]: the accumulator [R] starts empty; from the
    second element on the separator is appended before the element. *)
Definition join (sep : jsstring) (l : list jsstring) : jsstring :=
  snd (fold_left
         (fun (st : bool * jsstring) (x : jsstring) =>
            let (started, R) := st in
            (true, (if started then R ++ sep else R) ++ x))
         l (false, [])).

(** Decimal rendering of a non-negative integer in a template literal. *)
Definition decimal (n : N) : jsstring :=
  lit (NilZero.string_of_uint (N.to_uint n)).

(** ToBoolean of a string-valued field: missing and [""] are falsy. *)
Definition truthy (x : option jsstring) : bool :=
  match x with
  | Some (_ :: _) => true
  | _ => false
  end.

(** [x && x.length > 0] for an array-valued field. *)
Definition hasItems {A : Type} (x : option (list A)) : bool :=
  match x with
  | Some l => (0 <? Z.of_nat (length l))%Z
  | None => false
  end.

(** The elements of an array-valued field that passed [hasItems]. *)
Definition items {A : Type} (x : option (list A)) : list A :=
  match x with
  | Some l => l
  | None => []
  end.

(* ------------------------------------------------------------------ *)
(** * The input: the JSON structure read by the script *)

Module JobEntry.
Record t := mk {
  role : option jsstring;
  company : option jsstring;
  location : option jsstring;
  dates : option jsstring;
  achievements : option (list jsstring)
}.
End JobEntry.

Module EducationEntry.
Record t := mk {
  degree : option jsstring;
  institution : option jsstring;
  location : option jsstring;
  date : option jsstring;
  details : option jsstring
}.
End EducationEntry.

Module CertEntry.
Record t := mk {
  name : option jsstring;
  details : option jsstring
}.
End CertEntry.

Module LeadershipEntry.
Record t := mk {
  role : option jsstring;
  organization : option jsstring;
  dates : option jsstring;
  achievements : option (list jsstring)
}.
End LeadershipEntry.

Module TechnicalSkills.
Record t := mk {
  technical : option jsstring;
  languages : option jsstring
}.
End TechnicalSkills.

Module ResumeDocument.
Record t := mk {
  name : option jsstring;
  professionalSummary : option jsstring;
  coreCompetencies : option (list jsstring);
  professionalExperience : option (list JobEntry.t);
  education : option (list EducationEntry.t);
  certifications : option (list CertEntry.t);
  leadership : option (list LeadershipEntry.t);
  technicalSkills : option TechnicalSkills.t
}.
End ResumeDocument.

(* ------------------------------------------------------------------ *)
(** * The output: the docx object tree the script builds *)

Inductive PageNumber := CURRENT | TOTAL_PAGES.

Inductive AlignmentType := LEFT.

Inductive BorderStyle := SINGLE.

Inductive TabStopType := RIGHT.

Inductive LevelFormat := BULLET.

Record TextRunOptions := mkTextRun {
  text : option jsstring;
  fieldChildren : list PageNumber;
  bold : bool;
  italics : bool;
  font : option jsstring;
  size : option Z;
  color : option jsstring
}.

Record ImageRunOptions := mkImageRun {
  imageType : jsstring;
  imageData : list N;
  transformation : Z * Z;
  altTitle : jsstring;
  altDescription : jsstring;
  altName : jsstring
}.

Inductive Run :=
| TextRun (o : TextRunOptions)
| ImageRun (o : ImageRunOptions).

Record Spacing := mkSpacing {
  before : option Z;
  after : option Z
}.

Record Border := mkBorder {
  borderColor : jsstring;
  borderSpace : Z;
  borderSize : Z;
  borderStyle : BorderStyle
}.

Record Numbering := mkNumbering {
  reference : jsstring;
  level : Z
}.

Record TabStop := mkTabStop {
  tabType : TabStopType;
  position : Z
}.

Record Paragraph := mkParagraph {
  alignment : option AlignmentType;
  spacing : Spacing;
  keepNext : bool;
  keepLines : bool;
  borderBottom : option Border;
  numbering : option Numbering;
  tabStops : list TabStop;
  children : list Run
}.

Record NumberingConfig := mkNumberingConfig {
  configReference : jsstring;
  configLevel : Z;
  configFormat : LevelFormat;
  configText : jsstring;
  configAlignment : AlignmentType;
  configIndent : Z * Z
}.

Record PageProperties := mkPage {
  pageSize : Z * Z;
  marginTop : Z;
  marginRight : Z;
  marginBottom : Z;
  marginLeft : Z;
  marginHeader : Z;
  marginFooter : Z
}.

(** A [Header] or [Footer] is the list of its paragraphs. *)
Record HeaderFooterGroup := mkGroup {
  default : list Paragraph;
  first : list Paragraph
}.

Record Section := mkSection {
  titlePage : bool;
  page : PageProperties;
  headers : HeaderFooterGroup;
  footers : HeaderFooterGroup;
  sectionChildren : list Paragraph
}.

Record Document := mkDocument {
  defaultFont : jsstring;
  defaultSize : Z;
  numberingConfig : list NumberingConfig;
  sections : list Section
}.

(* ------------------------------------------------------------------ *)
(** * scripts/generate_cv.js *)

Module COLORS.
Definition noviamBlue : jsstring := lit "004796".
Definition noviamMidBlue : jsstring := lit "006BFF".
Definition noviamLightBlue : jsstring := lit "00c3f5".
Definition darkGrey : jsstring := lit "626366".
Definition black : jsstring := lit "000000".
Definition white : jsstring := lit "FFFFFF".
End COLORS.

Definition Montserrat : jsstring := lit "Montserrat".

(** [new TextRun({ text, bold, italics, font: "Montserrat", size, color })];
    an option that the script leaves out is [false]. *)
Definition styledRun (t : option jsstring) (b i : bool) (sz : Z)
    (c : jsstring) : Run :=
  TextRun {| text := t; fieldChildren := []; bold := b; italics := i;
             font := Some Montserrat; size := Some sz; color := Some c |}.

(** [new TextRun({ children: [field], font: "Montserrat", size, color })]. *)
Definition fieldRun (f : PageNumber) (sz : Z) (c : jsstring) : Run :=
  TextRun {| text := None; fieldChildren := [f]; bold := false;
             italics := false; font := Some Montserrat; size := Some sz;
             color := Some c |}.

(** [new TextRun({ text: "\t" })]. *)
Definition tabRun : Run :=
  TextRun {| text := Some [9%N]; fieldChildren := []; bold := false;
             italics := false; font := None; size := None; color := None |}.

Definition createSectionHeading (t : jsstring) : Paragraph :=
  {| alignment := None;
     spacing := {| before := Some 300%Z; after := Some 120%Z |};
     keepNext := true;
     keepLines := true;
     borderBottom := Some {| borderColor := COLORS.noviamMidBlue;
                             borderSpace := 1; borderSize := 12;
                             borderStyle := SINGLE |};
     numbering := None;
     tabStops := [];
     children :=
       [ styledRun (Some (toUpperCase t)) true false 22 COLORS.noviamBlue ] |}.

Definition createJobHeader (role company location dates : option jsstring)
    : Paragraph :=
  {| alignment := None;
     spacing := {| before := Some 200%Z; after := Some 60%Z |};
     keepNext := true;
     keepLines := true;
     borderBottom := None;
     numbering := None;
     tabStops := [];
     children :=
       [ styledRun role true false 20 COLORS.noviamMidBlue;
         styledRun (Some (lit " | ")) false false 20 COLORS.noviamMidBlue;
         styledRun (Some (template company ++ lit ", " ++ template location))
                   false false 20 COLORS.noviamMidBlue;
         styledRun (Some (lit " | ")) false false 20 COLORS.noviamMidBlue;
         styledRun dates false true 20 COLORS.noviamMidBlue ] |}.

Definition createBulletPoint (t : jsstring) (ref : jsstring)
    (keepWithNext : bool) : Paragraph :=
  {| alignment := None;
     spacing := {| before := Some 40%Z; after := Some 40%Z |};
     keepNext := keepWithNext;
     keepLines := true;
     borderBottom := None;
     numbering := Some {| reference := ref; level := 0 |};
     tabStops := [];
     children := [ styledRun (Some t) false false 20 COLORS.black ] |}.

(** [children.push(p)]: the array the script fills is threaded through. *)
Definition push (acc : list Paragraph) (p : Paragraph) : list Paragraph :=
  acc ++ [p].

(** [array.forEach((x, index) => ...)] with a body that pushes onto the
    array: the index counts from 0, the array is the state. *)
Definition forEach {A : Type} (l : list A)
    (callback : list Paragraph -> A -> Z -> list Paragraph)
    (acc : list Paragraph) : list Paragraph :=
  snd (fold_left
         (fun (st : Z * list Paragraph) (x : A) =>
            ((fst st + 1)%Z, callback (snd st) x (fst st)))
         l (0%Z, acc)).

Definition logoParagraph (logoImage : list N) : Paragraph :=
  {| alignment := Some LEFT;
     spacing := {| before := None; after := Some 300%Z |};
     keepNext := false;
     keepLines := false;
     borderBottom := None;
     numbering := None;
     tabStops := [];
     children :=
       [ ImageRun {| imageType := lit "png";
                     imageData := logoImage;
                     transformation := (180, 45)%Z;
                     altTitle := lit "Noviam Logo";
                     altDescription := lit "Noviam company logo";
                     altName := lit "noviam-logo" |} ] |}.

Definition nameParagraph (name : option jsstring) : Paragraph :=
  {| alignment := None;
     spacing := {| before := Some 200%Z; after := Some 300%Z |};
     keepNext := false;
     keepLines := false;
     borderBottom := None;
     numbering := None;
     tabStops := [];
     children := [ styledRun name true false 40 COLORS.darkGrey ] |}.

(** The body paragraph of Professional Summary and of Core Competencies. *)
Definition bodyParagraph (t : option jsstring) : Paragraph :=
  {| alignment := None;
     spacing := {| before := Some 80%Z; after := Some 120%Z |};
     keepNext := false;
     keepLines := true;
     borderBottom := None;
     numbering := None;
     tabStops := [];
     children := [ styledRun t false false 20 COLORS.black ] |}.

(** The delimiter of the Core Competencies line: two spaces, U+2022, two
    spaces. *)
Definition competencyDelimiter : jsstring := [32; 32; 8226; 32; 32]%N.

Definition degreeParagraph (edu : EducationEntry.t) : Paragraph :=
  {| alignment := None;
     spacing := {| before := Some 120%Z; after := Some 40%Z |};
     keepNext := true;
     keepLines := true;
     borderBottom := None;
     numbering := None;
     tabStops := [];
     children :=
       [ styledRun (EducationEntry.degree edu) true false 20
                   COLORS.noviamMidBlue ] |}.

Definition institutionParagraph (edu : EducationEntry.t) : Paragraph :=
  {| alignment := None;
     spacing := {| before := Some 0%Z; after := Some 40%Z |};
     keepNext := if truthy (EducationEntry.details edu) then true else false;
     keepLines := true;
     borderBottom := None;
     numbering := None;
     tabStops := [];
     children :=
       [ styledRun
           (Some (template (EducationEntry.institution edu) ++ lit ", "
                  ++ template (EducationEntry.location edu) ++ lit " | "
                  ++ template (EducationEntry.date edu)))
           false false 20 COLORS.darkGrey ] |}.

Definition educationDetailsParagraph (edu : EducationEntry.t) : Paragraph :=
  {| alignment := None;
     spacing := {| before := Some 0%Z; after := Some 80%Z |};
     keepNext := false;
     keepLines := true;
     borderBottom := None;
     numbering := None;
     tabStops := [];
     children :=
       [ styledRun (EducationEntry.details edu) false false 20
                   COLORS.black ] |}.

(** [[name run, details ? details run : null].filter(Boolean)]. *)
Definition certificationParagraph (cert : CertEntry.t) : Paragraph :=
  {| alignment := None;
     spacing := {| before := Some 120%Z; after := Some 80%Z |};
     keepNext := false;
     keepLines := true;
     borderBottom := None;
     numbering := None;
     tabStops := [];
     children :=
       styledRun (CertEntry.name cert) true false 20 COLORS.darkGrey
       :: (if truthy (CertEntry.details cert)
           then [ styledRun
                    (Some (lit " | " ++ template (CertEntry.details cert)))
                    false false 20 COLORS.darkGrey ]
           else []) |}.

Definition leadershipHeader (lead : LeadershipEntry.t) : Paragraph :=
  {| alignment := None;
     spacing := {| before := Some 120%Z; after := Some 60%Z |};
     keepNext := true;
     keepLines := true;
     borderBottom := None;
     numbering := None;
     tabStops := [];
     children :=
       [ styledRun (LeadershipEntry.role lead) true false 20
                   COLORS.noviamMidBlue;
         styledRun
           (Some (lit " | " ++ template (LeadershipEntry.organization lead)
                  ++ lit " | " ++ template (LeadershipEntry.dates lead)))
           false false 20 COLORS.noviamMidBlue ] |}.

Definition technicalParagraph (ts : TechnicalSkills.t) : Paragraph :=
  {| alignment := None;
     spacing := {| before := Some 80%Z; after := Some 40%Z |};
     keepNext := if truthy (TechnicalSkills.languages ts) then true else false;
     keepLines := true;
     borderBottom := None;
     numbering := None;
     tabStops := [];
     children :=
       [ styledRun (Some (lit "Technical: ")) true false 20 COLORS.darkGrey;
         styledRun (TechnicalSkills.technical ts) false false 20
                   COLORS.black ] |}.

Definition languagesParagraph (ts : TechnicalSkills.t) : Paragraph :=
  {| alignment := None;
     spacing := {| before := Some 40%Z; after := Some 80%Z |};
     keepNext := false;
     keepLines := true;
     borderBottom := None;
     numbering := None;
     tabStops := [];
     children :=
       [ styledRun (Some (lit "Languages: ")) true false 20 COLORS.darkGrey;
         styledRun (TechnicalSkills.languages ts) false false 20
                   COLORS.black ] |}.

(** ** generateCV: the block list, section by section

    Each step is one commented block of [generateCV]; it receives the
    [children] array built so far and returns it with its pushes done. *)

(** [// Logo]: [logo] is [Some bytes] when the asset file exists. *)
Definition pushLogo (logo : option (list N)) (acc : list Paragraph)
    : list Paragraph :=
  match logo with
  | Some logoImage => push acc (logoParagraph logoImage)
  | None => acc
  end.

(** [// Candidate Name]: pushed without any test. *)
Definition pushName (data : ResumeDocument.t) (acc : list Paragraph)
    : list Paragraph :=
  push acc (nameParagraph (ResumeDocument.name data)).

(** [// Professional Summary]. *)
Definition pushProfessionalSummary (data : ResumeDocument.t)
    (acc : list Paragraph) : list Paragraph :=
  if truthy (ResumeDocument.professionalSummary data) then
    let acc := push acc (createSectionHeading (lit "Professional Summary")) in
    push acc (bodyParagraph (ResumeDocument.professionalSummary data))
  else acc.

(** [// Core Competencies]. *)
Definition pushCoreCompetencies (data : ResumeDocument.t)
    (acc : list Paragraph) : list Paragraph :=
  if hasItems (ResumeDocument.coreCompetencies data) then
    let acc := push acc (createSectionHeading (lit "Core Competencies")) in
    push acc
      (bodyParagraph
         (Some (join competencyDelimiter
                  (items (ResumeDocument.coreCompetencies data)))))
  else acc.

(** The bullets of one entry: [keepWithNext] is [!isLastBullet]. *)
Definition pushAchievements (achievements : option (list jsstring))
    (ref : jsstring) (acc : list Paragraph) : list Paragraph :=
  if hasItems achievements then
    forEach (items achievements)
      (fun acc achievement index =>
         let isLastBullet :=
           (index =? Z.of_nat (length (items achievements)) - 1)%Z in
         push acc (createBulletPoint achievement ref (negb isLastBullet)))
      acc
  else acc.

(** [// Professional Experience]. *)
Definition pushProfessionalExperience (data : ResumeDocument.t)
    (acc : list Paragraph) : list Paragraph :=
  if hasItems (ResumeDocument.professionalExperience data) then
    let acc :=
      push acc (createSectionHeading (lit "Professional Experience")) in
    forEach (items (ResumeDocument.professionalExperience data))
      (fun acc job _ =>
         let acc :=
           push acc
             (createJobHeader (JobEntry.role job) (JobEntry.company job)
                (JobEntry.location job) (JobEntry.dates job)) in
         pushAchievements (JobEntry.achievements job)
           (lit "experience-bullets") acc)
      acc
  else acc.

(** [// Education & Certification]. *)
Definition pushEducationCertification (data : ResumeDocument.t)
    (acc : list Paragraph) : list Paragraph :=
  let hasEducation := hasItems (ResumeDocument.education data) in
  let hasCertifications := hasItems (ResumeDocument.certifications data) in
  if hasEducation || hasCertifications then
    let acc :=
      push acc (createSectionHeading (lit "Education & Certification")) in
    let acc :=
      if hasEducation then
        forEach (items (ResumeDocument.education data))
          (fun acc edu _ =>
             let acc := push acc (degreeParagraph edu) in
             let acc := push acc (institutionParagraph edu) in
             if truthy (EducationEntry.details edu)
             then push acc (educationDetailsParagraph edu)
             else acc)
          acc
      else acc in
    if hasCertifications then
      forEach (items (ResumeDocument.certifications data))
        (fun acc cert _ => push acc (certificationParagraph cert))
        acc
    else acc
  else acc.

(** [// Leadership]. *)
Definition pushLeadership (data : ResumeDocument.t) (acc : list Paragraph)
    : list Paragraph :=
  if hasItems (ResumeDocument.leadership data) then
    let acc := push acc (createSectionHeading (lit "Leadership")) in
    forEach (items (ResumeDocument.leadership data))
      (fun acc lead _ =>
         let acc := push acc (leadershipHeader lead) in
         pushAchievements (LeadershipEntry.achievements lead)
           (lit "leadership-bullets") acc)
      acc
  else acc.

(** [// Technical Skills & Languages]: the heading is pushed as soon as
    the [technicalSkills] object is there. *)
Definition pushTechnicalSkills (data : ResumeDocument.t)
    (acc : list Paragraph) : list Paragraph :=
  match ResumeDocument.technicalSkills data with
  | Some ts =>
      let acc :=
        push acc (createSectionHeading (lit "Technical Skills & Languages")) in
      let acc :=
        if truthy (TechnicalSkills.technical ts)
        then push acc (technicalParagraph ts)
        else acc in
      if truthy (TechnicalSkills.languages ts)
      then push acc (languagesParagraph ts)
      else acc
  | None => acc
  end.

(** The [children] array when the document is created. *)
Definition buildChildren (logo : option (list N)) (data : ResumeDocument.t)
    : list Paragraph :=
  let acc := [] in
  let acc := pushLogo logo acc in
  let acc := pushName data acc in
  let acc := pushProfessionalSummary data acc in
  let acc := pushCoreCompetencies data acc in
  let acc := pushProfessionalExperience data acc in
  let acc := pushEducationCertification data acc in
  let acc := pushLeadership data acc in
  pushTechnicalSkills data acc.

(** ** generateCV: numbering, section properties, headers and footers *)

Definition bulletConfig (ref : jsstring) : NumberingConfig :=
  {| configReference := ref;
     configLevel := 0;
     configFormat := BULLET;
     configText := [8226%N];
     configAlignment := LEFT;
     configIndent := (720, 360)%Z |}.

Definition rightTab : list TabStop :=
  [ {| tabType := RIGHT; position := 10080 |} ].

Definition headerParagraph (name : option jsstring) : Paragraph :=
  {| alignment := None;
     spacing := {| before := None; after := Some 360%Z |};
     keepNext := false;
     keepLines := false;
     borderBottom := None;
     numbering := None;
     tabStops := rightTab;
     children :=
       [ styledRun (Some (lit "Noviam Analyst: ")) true false 18
                   COLORS.darkGrey;
         styledRun name true false 18 COLORS.darkGrey;
         tabRun;
         styledRun (Some (lit "Private and Confidential")) true false 18
                   COLORS.darkGrey ] |}.

(** U+00A9 followed by the rest of the copyright line. *)
Definition copyrightLine : jsstring :=
  169%N :: lit " 2026, Noviam Inc. All Rights Reserved.".

Definition footerParagraph : Paragraph :=
  {| alignment := None;
     spacing := {| before := None; after := None |};
     keepNext := false;
     keepLines := false;
     borderBottom := None;
     numbering := None;
     tabStops := rightTab;
     children :=
       [ styledRun (Some copyrightLine) false false 18 COLORS.darkGrey;
         tabRun;
         styledRun (Some (lit "Page ")) false false 18 COLORS.darkGrey;
         fieldRun CURRENT 18 COLORS.darkGrey;
         styledRun (Some (lit " of ")) false false 18 COLORS.darkGrey;
         fieldRun TOTAL_PAGES 18 COLORS.darkGrey ] |}.

(** The [Document] handed to [Packer.toBuffer]. *)
Definition generateCV (logo : option (list N)) (data : ResumeDocument.t)
    : Document :=
  let children := buildChildren logo data in
  {| defaultFont := Montserrat;
     defaultSize := 20;
     numberingConfig :=
       [ bulletConfig (lit "experience-bullets");
         bulletConfig (lit "leadership-bullets") ];
     sections :=
       [ {| titlePage := true;
            page := {| pageSize := (12240, 15840)%Z;
                       marginTop := 1080; marginRight := 1080;
                       marginBottom := 1080; marginLeft := 1080;
                       marginHeader := 720; marginFooter := 720 |};
            headers := {| default :=
                            [ headerParagraph (ResumeDocument.name data) ];
                          first := [] |};
            footers := {| default := [ footerParagraph ];
                          first := [ footerParagraph ] |};
            sectionChildren := children |} ] |}.

(** The body blocks of a composed document, in emission order. *)
Definition blocks (doc : Document) : list Paragraph :=
  flat_map sectionChildren (sections doc).




(* ------------------------------------------------------------------ *)
(** * lib/aligner.js: the end of alignCV *)

Record Error := mkError { message : jsstring }.

(** [// Basic validation], on the object [JSON.parse] returned. *)
Definition basicValidation (cvData : ResumeDocument.t)
    : Error + ResumeDocument.t :=
  if negb (truthy (ResumeDocument.name cvData))
     || negb (truthy (ResumeDocument.professionalSummary cvData))
  then inl (mkError
              (lit "Missing required fields: name or professionalSummary"))
  else inr cvData.

(** [alignCV] from the parsed response on.  The [try]/[catch] around the
    validation throws again, with a prefixed message, whatever is thrown
    inside. *)
Definition alignCV (cvData : ResumeDocument.t) : Error + ResumeDocument.t :=
  match basicValidation cvData with
  | inr d => inr d
  | inl parseError =>
      inl (mkError (lit "Failed to parse Claude response as JSON: "
                    ++ message parseError))
  end.

(* ------------------------------------------------------------------ *)
(** * lib/generator.js (src/unnamed/part_003): the wrapper around the script *)

(** An exception of [fs]: its [message], and what [console.error]
    prints for it. *)
Record FsError := mkFsError {
  fsMessage : jsstring;
  fsInspect : jsstring
}.

(** What the wrapper and the script read from their surroundings:
    [Date.now()], [crypto.randomBytes(4).toString('hex')] and the logo
    asset; the exception [fs.writeFileSync] throws for a path of the
    output directory, when the file system refuses it; whether
    [fs.unlinkSync] throws for a path; the message of the [error] event
    when [node] cannot be started; and what [node] prints for an
    exception that no handler takes. *)
Record Env := mkEnv {
  now : N;
  randomHex : jsstring;
  logoAsset : option (list N);
  writeFailure : jsstring -> option FsError;
  unlinkFailure : jsstring -> bool;
  spawnFailure : option jsstring;
  uncaughtException : jsstring
}.

(** A file of the output directory; a path is the name inside it. *)
Inductive File :=
| JsonFile (cvData : ResumeDocument.t)
| DocxFile (doc : Document).

Definition FS := list (jsstring * File).

Definition jsstring_eqb (a b : jsstring) : bool :=
  if list_eq_dec N.eq_dec a b then true else false.

Definition unlinkSync (path : jsstring) (fs : FS) : FS :=
  filter (fun f => negb (jsstring_eqb (fst f) path)) fs.

Definition writeFileSync (path : jsstring) (f : File) (fs : FS) : FS :=
  (path, f) :: unlinkSync path fs.

(** [JSON.parse(fs.readFileSync(jsonPath, "utf8"))]: the data of a JSON
    file, nothing when the file is not there or is no JSON file (the
    call throws). *)
Definition readJson (jsonPath : jsstring) (fs : FS)
    : option ResumeDocument.t :=
  match find (fun f => jsstring_eqb (fst f) jsonPath) fs with
  | Some (_, JsonFile data) => Some data
  | _ => None
  end.

(** The end of the script's [generateCV(data, outputPath)]: the promise
    [Packer.toBuffer(doc).then(...)] writes the buffer under the output
    path, and is rejected with the exception of [fs.writeFileSync] when
    that throws.  [Packer.toBuffer] is taken to succeed: the file holds
    the document tree it serialises. *)
Definition writeDocument (env : Env) (doc : Document) (outputPath : jsstring)
    (fs : FS) : FS * option FsError :=
  match writeFailure env outputPath with
  | Some err => (fs, Some err)
  | None => (writeFileSync outputPath (DocxFile doc) fs, None)
  end.

(** [// CLI execution] of the script, run as
    [node generate_cv.js outputPath jsonPath]: the directory afterwards,
    the exit code and what was printed on the error stream.  Reading the
    data is outside any handler: when it throws, [node] prints the
    exception and exits with code 1.  A rejected [generateCV] is caught:
    the error is printed and the script exits with code 1. *)
Definition cliExecution (env : Env) (outputPath jsonPath : jsstring)
    (fs : FS) : FS * N * jsstring :=
  match readJson jsonPath fs with
  | None => (fs, 1%N, uncaughtException env)
  | Some data =>
      match
        writeDocument env (generateCV (logoAsset env) data) outputPath fs
      with
      | (fs, None) => (fs, 0%N, [])
      | (fs, Some err) =>
          (fs, 1%N, lit "Error generating CV: " ++ fsInspect err ++ [10%N])
      end
  end.

Module Generator.

(** The class [a-zA-Z0-9] of the regular expression. *)
Definition alnum (c : N) : bool :=
  ((97 <=? c) && (c <=? 122) || (65 <=? c) && (c <=? 90)
   || (48 <=? c) && (c <=? 57))%N.

(** [candidateName.replace(/[^a-zA-Z0-9]/g, '_')]: every code unit
    outside the class is a match of length one. *)
Definition safeName (candidateName : jsstring) : jsstring :=
  map (fun c => if alnum c then c else 95%N) candidateName.

Definition jsonPath (hash : jsstring) : jsstring :=
  lit "cv_data_" ++ hash ++ lit ".json".

Definition outputPath (candidateName : jsstring) (timestamp : N)
    : jsstring :=
  safeName candidateName ++ lit "_CV_Aligned_" ++ decimal timestamp
  ++ lit ".docx".

(** [// Clean up temp JSON file]: the exception of [fs.unlinkSync] is
    ignored. *)
Definition cleanUp (env : Env) (jsonPath : jsstring) (fs : FS) : FS :=
  if unlinkFailure env jsonPath then fs else unlinkSync jsonPath fs.

(** [generateCV(cvData, candidateName = 'Candidate')], with the output
    directory there: write the JSON file (an exception of the write
    rejects the call), start the script on it, and when it is done
    remove the JSON file and resolve with the output path if the exit
    code is 0, reject else; reject as well when the script cannot be
    started.  [JSON.stringify] followed by [JSON.parse] gives back the
    same fields. *)
Definition generateCV (env : Env) (cvData : ResumeDocument.t)
    (candidateName : option jsstring) (fs : FS)
    : FS * (Error + jsstring) :=
  let candidateName :=
    match candidateName with
    | Some n => n
    | None => lit "Candidate"
    end in
  let jsonPath := jsonPath (randomHex env) in
  let outputPath := outputPath candidateName (now env) in
  match writeFailure env jsonPath with
  | Some err => (fs, inl (mkError (fsMessage err)))
  | None =>
      let fs := writeFileSync jsonPath (JsonFile cvData) fs in
      match spawnFailure env with
      | Some msg =>
          let fs := cleanUp env jsonPath fs in
          (fs, inl (mkError (lit "Failed to spawn generator: " ++ msg)))
      | None =>
          let '(fs, code, stderr) :=
            cliExecution env outputPath jsonPath fs in
          let fs := cleanUp env jsonPath fs in
          if (code =? 0)%N then (fs, inr outputPath)
          else
            (fs,
             inl (mkError (lit "CV generation failed with code "
                           ++ decimal code ++ lit ": " ++ stderr)))
      end
  end.

End Generator.

(* ------------------------------------------------------------------ *)
(** * server.js (src/unnamed/part_002): the /api/align handler, from the
    call of alignCV on *)

Inductive Response :=
| Json200 (candidateName : option jsstring) (downloadUrl filename : jsstring)
| Json500 (error msg : jsstring).

Definition alignHandler (env : Env) (cvData : ResumeDocument.t) (fs : FS)
    : FS * Response :=
  match alignCV cvData with
  | inl e => (fs, Json500 (lit "Processing failed") (message e))
  | inr alignedData =>
      match
        Generator.generateCV env alignedData
          (ResumeDocument.name alignedData) fs
      with
      | (fs, inr outputPath) =>
          let filename := outputPath in
          (fs, Json200 (ResumeDocument.name alignedData)
                 (lit "/download/" ++ filename) filename)
      | (fs, inl error) =>
          (fs, Json500 (lit "Processing failed") (message error))
      end
  end.

(* ------------------------------------------------------------------ *)
(** * Reading the block list *)

(** A section heading is the only paragraph with a bottom border rule. *)
Definition isSectionHeading (p : Paragraph) : bool :=
  match borderBottom p with
  | Some _ => true
  | None => false
  end.

(** A bullet is a paragraph that refers to a numbering definition. *)
Definition isBullet (p : Paragraph) : bool :=
  match numbering p with
  | Some _ => true
  | None => false
  end.

(** The text a paragraph shows: its runs' texts, one after the other. *)
Definition runText (r : Run) : jsstring :=
  match r with
  | TextRun o => match text o with Some s => s | None => [] end
  | ImageRun _ => []
  end.

Definition paragraphText (p : Paragraph) : jsstring :=
  flat_map runText (children p).

(** The labels of the section headings of a block list, in order. *)
Definition sectionHeadings (bl : list Paragraph) : list jsstring :=
  map paragraphText (filter isSectionHeading bl).

(** The blocks one job entry, education entry and leadership entry
    contribute, written as lists. *)
Fixpoint bulletList (ref : jsstring) (l : list jsstring) : list Paragraph :=
  match l with
  | [] => []
  | a :: rest =>
      createBulletPoint a ref (match rest with [] => false | _ => true end)
      :: bulletList ref rest
  end.

Definition jobHeaderOf (job : JobEntry.t) : Paragraph :=
  createJobHeader (JobEntry.role job) (JobEntry.company job)
    (JobEntry.location job) (JobEntry.dates job).

Definition jobBlocks (job : JobEntry.t) : list Paragraph :=
  jobHeaderOf job
  :: bulletList (lit "experience-bullets") (items (JobEntry.achievements job)).

Definition educationBlocks (edu : EducationEntry.t) : list Paragraph :=
  degreeParagraph edu :: institutionParagraph edu
  :: (if truthy (EducationEntry.details edu)
      then [educationDetailsParagraph edu] else []).

Definition leadershipBlocks (lead : LeadershipEntry.t) : list Paragraph :=
  leadershipHeader lead
  :: bulletList (lit "leadership-bullets")
       (items (LeadershipEntry.achievements lead)).

(** The blocks of each section of the document, written as lists. *)
Definition logoSection (logo : option (list N)) : list Paragraph :=
  match logo with
  | Some logoImage => [logoParagraph logoImage]
  | None => []
  end.

Definition summarySection (data : ResumeDocument.t) : list Paragraph :=
  if truthy (ResumeDocument.professionalSummary data)
  then [ createSectionHeading (lit "Professional Summary");
         bodyParagraph (ResumeDocument.professionalSummary data) ]
  else [].

Definition competenciesSection (data : ResumeDocument.t) : list Paragraph :=
  if hasItems (ResumeDocument.coreCompetencies data)
  then [ createSectionHeading (lit "Core Competencies");
         bodyParagraph
           (Some (join competencyDelimiter
                    (items (ResumeDocument.coreCompetencies data)))) ]
  else [].

Definition experienceSection (data : ResumeDocument.t) : list Paragraph :=
  if hasItems (ResumeDocument.professionalExperience data)
  then createSectionHeading (lit "Professional Experience")
       :: flat_map jobBlocks
            (items (ResumeDocument.professionalExperience data))
  else [].

Definition educationSection (data : ResumeDocument.t) : list Paragraph :=
  if hasItems (ResumeDocument.education data)
     || hasItems (ResumeDocument.certifications data)
  then createSectionHeading (lit "Education & Certification")
       :: flat_map educationBlocks (items (ResumeDocument.education data))
       ++ map certificationParagraph
            (items (ResumeDocument.certifications data))
  else [].

Definition leadershipSection (data : ResumeDocument.t) : list Paragraph :=
  if hasItems (ResumeDocument.leadership data)
  then createSectionHeading (lit "Leadership")
       :: flat_map leadershipBlocks (items (ResumeDocument.leadership data))
  else [].

Definition skillsSection (data : ResumeDocument.t) : list Paragraph :=
  match ResumeDocument.technicalSkills data with
  | Some ts =>
      createSectionHeading (lit "Technical Skills & Languages")
      :: (if truthy (TechnicalSkills.technical ts)
          then [technicalParagraph ts] else [])
      ++ (if truthy (TechnicalSkills.languages ts)
          then [languagesParagraph ts] else [])
  | None => []
  end.

(** What a loop whose body only pushes [emit x index] adds, from index
    [i] on. *)
Fixpoint emitted {A : Type} (emit : A -> Z -> list Paragraph) (i : Z)
    (l : list A) : list Paragraph :=
  match l with
  | [] => []
  | x :: rest => emit x i ++ emitted emit (i + 1) rest
  end.




(* ------------------------------------------------------------------ *)
(** * Documents used as examples *)

(** Only [name] and [professionalSummary]. *)
Definition minimalDocument : ResumeDocument.t :=
  ResumeDocument.mk (Some (lit "A")) (Some (lit "S"))
    None None None None None None.

(** [name] without [professionalSummary]. *)
Definition noSummaryDocument : ResumeDocument.t :=
  ResumeDocument.mk (Some (lit "A")) None None None None None None None.

(** [{ name: "A", professionalSummary: "S", technicalSkills: {} }]. *)
Definition emptySkillsDocument : ResumeDocument.t :=
  ResumeDocument.mk (Some (lit "A")) (Some (lit "S"))
    None None None None None (Some (TechnicalSkills.mk None None)).

(** A job entry with two achievements. *)
Definition twoBulletJob : JobEntry.t :=
  JobEntry.mk (Some (lit "Analyst")) (Some (lit "Noviam"))
    (Some (lit "Boston, MA")) (Some (lit "2020 - 2024"))
    (Some [lit "First"; lit "Second"]).

(** A job entry with no achievements. *)
Definition plainJob : JobEntry.t :=
  JobEntry.mk (Some (lit "Intern")) (Some (lit "Noviam"))
    (Some (lit "Boston, MA")) (Some (lit "2019")) (Some []).

Definition bachelor : EducationEntry.t :=
  EducationEntry.mk (Some (lit "BSc")) (Some (lit "MIT"))
    (Some (lit "Cambridge, MA")) (Some (lit "May 2019")) None.

Definition cfa : CertEntry.t :=
  CertEntry.mk (Some (lit "CFA Level I")) (Some (lit "2021")).

(** A document with every section. *)
Definition fullDocument : ResumeDocument.t :=
  ResumeDocument.mk (Some (lit "Jane O'Brien-Smith")) (Some (lit "S"))
    (Some [lit "B"; lit "A"; lit "C"])
    (Some [twoBulletJob; plainJob])
    (Some [bachelor])
    (Some [cfa])
    (Some [LeadershipEntry.mk (Some (lit "Captain")) (Some (lit "Club"))
             (Some (lit "2018")) (Some [lit "Led"])])
    (Some (TechnicalSkills.mk (Some (lit "Excel")) (Some (lit "English")))).

(** An environment: no logo asset, the clock at 1700000000000. *)
Definition plainEnv : Env :=
  {| now := 1700000000000; randomHex := lit "0a1b2c3d"; logoAsset := None;
     writeFailure := fun _ => None; unlinkFailure := fun _ => false;
     spawnFailure := None; uncaughtException := [] |}.

(** The first bytes of a PNG file, standing for the logo asset. *)
Definition pngBytes : list N := [137; 80; 78; 71]%N.

(* ------------------------------------------------------------------ *)
(** * Properties of a block list *)

(** Every section heading is followed by a block that is not a heading. *)
Fixpoint headingsHaveBody (bl : list Paragraph) : bool :=
  match bl with
  | [] => true
  | p :: rest =>
      (if isSectionHeading p
       then match rest with
            | q :: _ => negb (isSectionHeading q)
            | [] => false
            end
       else true)
      && headingsHaveBody rest
  end.

(** The block list is nothing but the Name block and the Professional
    Summary heading and body. *)
Definition onlyNameAndSummary (data : ResumeDocument.t)
    (bl : list Paragraph) : Prop :=
  forall p, In p bl ->
    p = nameParagraph (ResumeDocument.name data)
    \/ p = createSectionHeading (lit "Professional Summary")
    \/ p = bodyParagraph (ResumeDocument.professionalSummary data).

(** Within a group of bullets, the hint is on every bullet except the one
    before the final one. *)
Definition hintExceptBeforeFinal (bullets : list Paragraph) : Prop :=
  forall i b, nth_error bullets i = Some b ->
    (keepNext b = true <-> i + 2 <> length bullets).

(** Within a group of bullets, the hint is on every bullet except the
    final one. *)
Definition hintExceptFinal (bullets : list Paragraph) : Prop :=
  forall i b, nth_error bullets i = Some b ->
    (keepNext b = true <-> i + 1 <> length bullets).


(** A block list is empty or begins with a section heading. *)
Definition startsWithHeading (bl : list Paragraph) : Prop :=
  match bl with
  | [] => True
  | p :: _ => exists h, p = createSectionHeading h
  end.

(** The characters of the class [a-zA-Z0-9], written out. *)
Definition alnumCharacters : jsstring :=
  lit "ABCDEFGHIJKLMNOPQRSTUVWXYZabcdefghijklmnopqrstuvwxyz0123456789".

(** The message the handler answers with when validation fails. *)
Definition missingFieldsMessage : jsstring :=
  lit "Failed to parse Claude response as JSON: Missing required fields: name or professionalSummary".

(* ------------------------------------------------------------------ *)
(** * lib/aligner.js and api/align.js: alignCV from the API response on *)

(** WhiteSpace and LineTerminator code units, which [trim] strips. *)
Definition isWhiteSpace (c : N) : bool :=
  existsb (N.eqb c)
    [9; 10; 11; 12; 13; 32; 160; 5760; 8232; 8233; 8239; 8287; 12288; 65279]%N
  || ((8192 <=? c) && (c <=? 8202))%N.

Fixpoint trimStart (s : jsstring) : jsstring :=
  match s with
  | [] => []
  | c :: rest => if isWhiteSpace c then trimStart rest else s
  end.

Definition trimEnd (s : jsstring) : jsstring := rev (trimStart (rev s)).

(** [String.prototype.trim]. *)
Definition trim (s : jsstring) : jsstring := trimEnd (trimStart s).

(** [s.startsWith(prefix)]. *)
Fixpoint startsWith (s prefix : jsstring) {struct prefix} : bool :=
  match prefix, s with
  | [], _ => true
  | _ :: _, [] => false
  | p :: prefix', c :: s' => (c =? p)%N && startsWith s' prefix'
  end.

(** [s.endsWith(suffix)]: the last [suffix.length] code units of [s]
    are compared with [suffix]. *)
Definition endsWith (s suffix : jsstring) : bool :=
  if (length s <? length suffix)%nat then false
  else jsstring_eqb (skipn (length s - length suffix) s) suffix.

(** [s.slice(start, end)]: a negative index counts from the end, both
    are clamped to the string; [end] left out is the length. *)
Definition slice (s : jsstring) (start : Z) (end_ : option Z) : jsstring :=
  let len := Z.of_nat (length s) in
  let from := if (start <? 0)%Z then Z.max (len + start) 0
              else Z.min start len in
  let e := match end_ with Some e => e | None => len end in
  let to := if (e <? 0)%Z then Z.max (len + e) 0 else Z.min e len in
  let span := Z.max (to - from) 0 in
  firstn (Z.to_nat span) (skipn (Z.to_nat from) s).

(** Three backticks, and three backticks followed by [json]. *)
Definition fence : jsstring := [96; 96; 96]%N.

Definition jsonFence : jsstring := fence ++ lit "json".

(** [// Remove markdown code blocks if present], between the two trims. *)
Definition removeCodeBlock (text : jsstring) : jsstring :=
  let jsonText := trim text in
  let jsonText :=
    if startsWith jsonText jsonFence then slice jsonText 7 None
    else if startsWith jsonText fence then slice jsonText 3 None
    else jsonText in
  let jsonText :=
    if endsWith jsonText fence then slice jsonText 0 (Some (-3)%Z)
    else jsonText in
  trim jsonText.

(** A block of [response.content]: its [type] and its [text]. *)
Record ContentBlock := mkBlock {
  blockType : option jsstring;
  blockText : jsstring
}.

(** [block.type === 'text']. *)
Definition isTextBlock (block : ContentBlock) : bool :=
  match blockType block with
  | Some t => jsstring_eqb t (lit "text")
  | None => false
  end.

Section AlignCV.

(** [JSON.parse] on the text of the model: a SyntaxError, or the object
    read as the JSON structure of the script. *)
Variable JSON_parse : jsstring -> Error + ResumeDocument.t.

(** lib/aligner.js, [alignCV] from [response.content] on: the first text
    block, the code block removed, and inside the [try] the parse and
    the basic validation ([alignCV] above). *)
Definition alignCVResponse (content : option (list ContentBlock))
    : Error + ResumeDocument.t :=
  match match content with
        | Some blocks => find isTextBlock blocks
        | None => None
        end with
  | None => inl (mkError (lit "No text content in Claude response"))
  | Some textContent =>
      let jsonText := removeCodeBlock (blockText textContent) in
      match JSON_parse jsonText with
      | inl parseError =>
          inl (mkError (lit "Failed to parse Claude response as JSON: "
                        ++ message parseError))
      | inr cvData => alignCV cvData
      end
  end.

(** api/align.js, the copy of [alignCV] of the serverless function: the
    same steps without the [try]/[catch]. *)
Definition apiAlignCVResponse (content : option (list ContentBlock))
    : Error + ResumeDocument.t :=
  match match content with
        | Some blocks => find isTextBlock blocks
        | None => None
        end with
  | None => inl (mkError (lit "No text content in Claude response"))
  | Some textContent =>
      let jsonText := removeCodeBlock (blockText textContent) in
      match JSON_parse jsonText with
      | inl syntaxError => inl syntaxError
      | inr cvData => basicValidation cvData
      end
  end.

End AlignCV.

(* ------------------------------------------------------------------ *)
(** * lib/generator.js (src/unnamed/part_003): cleanupOldFiles *)

(** The output directory as [readdirSync] and [statSync] show it: each
    file name with its [mtimeMs], a number of milliseconds that need not
    be whole. *)
Definition Listing := list (jsstring * QArith_base.Q).

Inductive LogLine :=
| CleanedUp (file : jsstring)
| CleanupFailed (file : jsstring).

(** [stats.mtimeMs < oneHourAgo]. *)
Definition olderThan (oneHourAgo : Z) (mtimeMs : QArith_base.Q) : bool :=
  negb (QArith_base.Qle_bool (QArith_base.inject_Z oneHourAgo) mtimeMs).

(** [fs.unlinkSync(filePath)] on the listing. *)
Definition unlinkListed (file : jsstring) (dir : Listing) : Listing :=
  filter (fun f => negb (jsstring_eqb (fst f) file)) dir.

Section Cleanup.

(** Whether [fs.unlinkSync] throws for a file (it is caught and
    logged). *)
Variable unlinkThrows : jsstring -> bool.

(** One turn of the [for] loop, on the directory and the log so far. *)
Definition cleanupStep (oneHourAgo : Z) (st : Listing * list LogLine)
    (entry : jsstring * QArith_base.Q) : Listing * list LogLine :=
  let (dir, log) := st in
  let (file, mtimeMs) := entry in
  if olderThan oneHourAgo mtimeMs then
    if unlinkThrows file then (dir, log ++ [CleanupFailed file])
    else (unlinkListed file dir, log ++ [CleanedUp file])
  else (dir, log).

(** [cleanupOldFiles()]: nothing when the directory does not exist;
    otherwise the loop over the files read at the start. *)
Definition cleanupOldFiles (dateNow : Z) (outputDir : option Listing)
    : option Listing * list LogLine :=
  match outputDir with
  | None => (None, [])
  | Some dir =>
      let oneHourAgo := (dateNow - 60 * 60 * 1000)%Z in
      let files := dir in
      let (dir', log) := fold_left (cleanupStep oneHourAgo) files (dir, []) in
      (Some dir', log)
  end.

End Cleanup.

(** The files [cleanupOldFiles] is to keep: modified within the last
    hour, or not removable. *)
Definition kept (unlinkThrows : jsstring -> bool) (dateNow : Z)
    (f : jsstring * QArith_base.Q) : bool :=
  negb (olderThan (dateNow - 3600000) (snd f)) || unlinkThrows (fst f).

(* ------------------------------------------------------------------ *)
(** * public/app.js (src/unnamed/part_000): generateAndDownloadDocx, the
    composer that runs in the browser *)

Record ClientBorder := mkClientBorder {
  ruleStyle : BorderStyle;
  ruleSize : Z;
  ruleColor : jsstring
}.

(** The paragraph options the browser composer uses. *)
Record ClientParagraph := mkClientParagraph {
  runs : list Run;
  clientSpacing : Spacing;
  bottomRule : option ClientBorder;
  indentLeft : option Z
}.

Module Client.

Definition NOVIAM_BLUE : jsstring := lit "004796".
Definition MID_BLUE : jsstring := lit "006BFF".
Definition DARK_GREY : jsstring := lit "626366".

(** [new TextRun({ text, bold, italics, font: 'Calibri', size, color })]. *)
Definition calibriRun (t : option jsstring) (b i : bool) (sz : Z)
    (c : option jsstring) : Run :=
  TextRun {| text := t; fieldChildren := []; bold := b; italics := i;
             font := Some (lit "Calibri"); size := Some sz; color := c |}.

Definition createSectionHeading (t : jsstring) : ClientParagraph :=
  {| runs := [ calibriRun (Some (toUpperCase t)) true false 22
                 (Some NOVIAM_BLUE) ];
     clientSpacing := {| before := Some 300%Z; after := Some 120%Z |};
     bottomRule := Some {| ruleStyle := SINGLE; ruleSize := 6;
                           ruleColor := MID_BLUE |};
     indentLeft := None |}.

Definition createJobHeader (role company location dates : option jsstring)
    : ClientParagraph :=
  {| runs :=
       [ calibriRun role true false 20 (Some MID_BLUE);
         calibriRun (Some (lit " | ")) false false 20 (Some MID_BLUE);
         calibriRun (Some (template company ++ lit ", " ++ template location))
           false false 20 (Some MID_BLUE);
         calibriRun (Some (lit " | ")) false false 20 (Some MID_BLUE);
         calibriRun dates false true 20 (Some MID_BLUE) ];
     clientSpacing := {| before := Some 200%Z; after := Some 60%Z |};
     bottomRule := None;
     indentLeft := None |}.

(** The bullet is a literal: U+2022 and a space in front of the text. *)
Definition createBullet (t : jsstring) : ClientParagraph :=
  {| runs := [ calibriRun (Some ([8226; 32]%N ++ t)) false false 20 None ];
     clientSpacing := {| before := Some 40%Z; after := Some 40%Z |};
     bottomRule := None;
     indentLeft := Some 720%Z |}.

(** A paragraph with spacing only. *)
Definition plain (rs : list Run) (b a : Z) : ClientParagraph :=
  {| runs := rs;
     clientSpacing := {| before := Some b; after := Some a |};
     bottomRule := None;
     indentLeft := None |}.

Definition push (acc : list ClientParagraph) (p : ClientParagraph)
    : list ClientParagraph :=
  acc ++ [p].

(** [for (const x of l) { ... }] with a body that pushes. *)
Definition forOf {A : Type} (l : list A)
    (body : list ClientParagraph -> A -> list ClientParagraph)
    (acc : list ClientParagraph) : list ClientParagraph :=
  fold_left body l acc.

(** [for (const achievement of entry.achievements || [])]. *)
Definition pushBullets (achievements : option (list jsstring))
    (acc : list ClientParagraph) : list ClientParagraph :=
  forOf (match achievements with Some l => l | None => [] end)
    (fun acc achievement => push acc (createBullet achievement)) acc.

Definition nameParagraph (cvData : ResumeDocument.t) : ClientParagraph :=
  plain [ calibriRun (ResumeDocument.name cvData) true false 40
            (Some DARK_GREY) ] 200 300.

(** The delimiter of the browser composer: space, U+2022, space. *)
Definition competencyDelimiter : jsstring := [32; 8226; 32]%N.

Definition degreeParagraph (edu : EducationEntry.t) : ClientParagraph :=
  plain [ calibriRun (EducationEntry.degree edu) true false 20
            (Some MID_BLUE) ] 120 40.

Definition institutionParagraph (edu : EducationEntry.t) : ClientParagraph :=
  plain [ calibriRun
            (Some (template (EducationEntry.institution edu) ++ lit ", "
                   ++ template (EducationEntry.location edu) ++ lit " | "
                   ++ template (EducationEntry.date edu)))
            false false 20 (Some DARK_GREY) ] 0 40.

Definition detailsParagraph (edu : EducationEntry.t) : ClientParagraph :=
  plain [ calibriRun (EducationEntry.details edu) false false 20 None ] 0 80.

Definition certificationParagraph (cert : CertEntry.t) : ClientParagraph :=
  plain
    (calibriRun (CertEntry.name cert) true false 20 (Some DARK_GREY)
     :: (if truthy (CertEntry.details cert)
         then [ calibriRun
                  (Some (lit " | " ++ template (CertEntry.details cert)))
                  false false 20 (Some DARK_GREY) ]
         else []))
    120 80.

Definition leadershipHeader (lead : LeadershipEntry.t) : ClientParagraph :=
  plain
    [ calibriRun (LeadershipEntry.role lead) true false 20 (Some MID_BLUE);
      calibriRun
        (Some (lit " | " ++ template (LeadershipEntry.organization lead)
               ++ lit " | " ++ template (LeadershipEntry.dates lead)))
        false false 20 (Some MID_BLUE) ]
    120 60.

Definition technicalParagraph (ts : TechnicalSkills.t) : ClientParagraph :=
  plain
    [ calibriRun (Some (lit "Technical: ")) true false 20 (Some DARK_GREY);
      calibriRun (TechnicalSkills.technical ts) false false 20 None ]
    80 40.

Definition languagesParagraph (ts : TechnicalSkills.t) : ClientParagraph :=
  plain
    [ calibriRun (Some (lit "Languages: ")) true false 20 (Some DARK_GREY);
      calibriRun (TechnicalSkills.languages ts) false false 20 None ]
    40 80.

(** [// Build document children]: the [children] array at the end. *)
Definition buildChildren (cvData : ResumeDocument.t) : list ClientParagraph :=
  let acc := [] in
  (* Name *)
  let acc := push acc (nameParagraph cvData) in
  (* Professional Summary: no test *)
  let acc := push acc (createSectionHeading (lit "Professional Summary")) in
  let acc :=
    push acc
      (plain [ calibriRun (ResumeDocument.professionalSummary cvData)
                 false false 20 None ] 80 120) in
  (* Core Competencies *)
  let acc :=
    if hasItems (ResumeDocument.coreCompetencies cvData) then
      let acc := push acc (createSectionHeading (lit "Core Competencies")) in
      push acc
        (plain [ calibriRun
                   (Some (join competencyDelimiter
                            (items (ResumeDocument.coreCompetencies cvData))))
                   false false 20 None ] 80 120)
    else acc in
  (* Professional Experience *)
  let acc :=
    if hasItems (ResumeDocument.professionalExperience cvData) then
      let acc :=
        push acc (createSectionHeading (lit "Professional Experience")) in
      forOf (items (ResumeDocument.professionalExperience cvData))
        (fun acc job =>
           let acc :=
             push acc
               (createJobHeader (JobEntry.role job) (JobEntry.company job)
                  (JobEntry.location job) (JobEntry.dates job)) in
           pushBullets (JobEntry.achievements job) acc)
        acc
    else acc in
  (* Education *)
  let acc :=
    if hasItems (ResumeDocument.education cvData) then
      let acc :=
        push acc (createSectionHeading (lit "Education & Certification")) in
      forOf (items (ResumeDocument.education cvData))
        (fun acc edu =>
           let acc := push acc (degreeParagraph edu) in
           let acc := push acc (institutionParagraph edu) in
           if truthy (EducationEntry.details edu)
           then push acc (detailsParagraph edu)
           else acc)
        acc
    else acc in
  (* Certifications: no heading of their own *)
  let acc :=
    if hasItems (ResumeDocument.certifications cvData) then
      forOf (items (ResumeDocument.certifications cvData))
        (fun acc cert => push acc (certificationParagraph cert))
        acc
    else acc in
  (* Leadership *)
  let acc :=
    if hasItems (ResumeDocument.leadership cvData) then
      let acc := push acc (createSectionHeading (lit "Leadership")) in
      forOf (items (ResumeDocument.leadership cvData))
        (fun acc lead =>
           let acc := push acc (leadershipHeader lead) in
           pushBullets (LeadershipEntry.achievements lead) acc)
        acc
    else acc in
  (* Technical Skills *)
  match ResumeDocument.technicalSkills cvData with
  | Some ts =>
      let acc :=
        push acc (createSectionHeading (lit "Technical Skills & Languages")) in
      let acc :=
        if truthy (TechnicalSkills.technical ts)
        then push acc (technicalParagraph ts)
        else acc in
      if truthy (TechnicalSkills.languages ts)
      then push acc (languagesParagraph ts)
      else acc
  | None => acc
  end.

(** [a.download]: the sanitised name and the marker, no token. *)
Definition downloadName (name : jsstring) : jsstring :=
  Generator.safeName name ++ lit "_CV_Aligned.docx".

(** The text a paragraph shows and the headings of a block list, as for
    the script. *)
Definition paragraphText (p : ClientParagraph) : jsstring :=
  flat_map runText (runs p).

Definition isSectionHeading (p : ClientParagraph) : bool :=
  match bottomRule p with
  | Some _ => true
  | None => false
  end.

Definition sectionHeadings (bl : list ClientParagraph) : list jsstring :=
  map paragraphText (filter isSectionHeading bl).

(** A literal bullet: indented, the text behind U+2022 and a space. *)
Definition isBullet (p : ClientParagraph) : bool :=
  match indentLeft p with
  | Some _ => true
  | None => false
  end.

End Client.

(** The blocks the browser composer gives one entry, written as lists. *)
Definition clientJobBlocks (job : JobEntry.t) : list ClientParagraph :=
  Client.createJobHeader (JobEntry.role job) (JobEntry.company job)
    (JobEntry.location job) (JobEntry.dates job)
  :: map Client.createBullet (items (JobEntry.achievements job)).

Definition clientEducationBlocks (edu : EducationEntry.t)
    : list ClientParagraph :=
  Client.degreeParagraph edu :: Client.institutionParagraph edu
  :: (if truthy (EducationEntry.details edu)
      then [Client.detailsParagraph edu] else []).

Definition clientLeadershipBlocks (lead : LeadershipEntry.t)
    : list ClientParagraph :=
  Client.leadershipHeader lead
  :: map Client.createBullet (items (LeadershipEntry.achievements lead)).

Definition clientSkillsBlocks (cvData : ResumeDocument.t)
    : list ClientParagraph :=
  match ResumeDocument.technicalSkills cvData with
  | Some ts =>
      Client.createSectionHeading (lit "Technical Skills & Languages")
      :: (if truthy (TechnicalSkills.technical ts)
          then [Client.technicalParagraph ts] else [])
      ++ (if truthy (TechnicalSkills.languages ts)
          then [Client.languagesParagraph ts] else [])
  | None => []
  end.

(* ------------------------------------------------------------------ *)
(** * More readings of a composed document *)

(** The section labels in the order the script emits them. *)
Definition sectionOrder : list jsstring :=
  [ lit "PROFESSIONAL SUMMARY"; lit "CORE COMPETENCIES";
    lit "PROFESSIONAL EXPERIENCE"; lit "EDUCATION & CERTIFICATION";
    lit "LEADERSHIP"; lit "TECHNICAL SKILLS & LANGUAGES" ].

(** A numbering reference of a paragraph is defined by the document. *)
Definition numberingDefined (doc : Document) (p : Paragraph) : Prop :=
  match numbering p with
  | None => True
  | Some r =>
      exists c, In c (numberingConfig doc)
                /\ configReference c = reference r
                /\ configLevel c = level r
  end.

(** The numbering reference of a bullet, if it is one. *)
Definition bulletReference (p : Paragraph) : option jsstring :=
  option_map reference (numbering p).

(** The achievements of a list of entries, one after the other. *)
Definition allAchievements {A : Type}
    (achievements : A -> option (list jsstring)) (entries : option (list A))
    : list jsstring :=
  flat_map (fun e => items (achievements e)) (items entries).

(** [p] is a bullet of the numbering definition [ref]. *)
Definition hasReference (ref : jsstring) (p : Paragraph) : bool :=
  match numbering p with
  | Some r => jsstring_eqb (reference r) ref
  | None => false
  end.

(** The texts of the bullets of one numbering definition, in order. *)
Definition bulletTexts (ref : jsstring) (bl : list Paragraph)
    : list jsstring :=
  map paragraphText (filter (hasReference ref) bl).

(* ------------------------------------------------------------------ *)
(** * server.js (src/unnamed/part_002): the whole /api/align handler *)

(** What the handler reads of the request: the pasted text and the paths
    multer stored the two uploads under. *)
Record AlignRequest := mkAlignRequest {
  bodyJobDescriptionText : option jsstring;
  jobDescriptionUpload : option jsstring;
  cvUpload : option jsstring
}.

Inductive EndpointResponse :=
| StatusJson (status : Z) (error msg : jsstring)
| SuccessJson (candidateName : option jsstring)
    (downloadUrl filename : jsstring).

(** The uploads directory: the paths of the files in it. *)
Definition Uploads := list jsstring.

(** [fs.unlinkSync(filePath)] in the uploads directory. *)
Definition unlinkUpload (filePath : jsstring) (uploads : Uploads) : Uploads :=
  filter (fun p => negb (jsstring_eqb p filePath)) uploads.

Section Endpoint.

(** [process.env.ANTHROPIC_API_KEY] is set. *)
Variable apiKeyConfigured : bool.

(** lib/extractor.js [extractText] on an uploaded file: the text, or the
    error it throws. *)
Variable extractText : jsstring -> Error + jsstring.

(** [callClaudeAPI] on the prompt built from the two texts: the
    [content] of the response, or the error it rejects with. *)
Variable callClaudeAPI :
  jsstring -> jsstring -> Error + option (list ContentBlock).

Variable JSON_parse : jsstring -> Error + ResumeDocument.t.

Variable env : Env.

(** lib/aligner.js [alignCV(jobDescription, cvText)], whole. *)
Definition alignCVCall (jobDescription cvText : jsstring)
    : Error + ResumeDocument.t :=
  match callClaudeAPI jobDescription cvText with
  | inl e => inl e
  | inr content => alignCVResponse JSON_parse content
  end.

(** [// Extract job description text]: the files registered for
    clean-up so far, and the text or the error thrown. *)
Definition jobDescriptionOf (req : AlignRequest)
    : list jsstring * (Error + jsstring) :=
  let uploadedFiles := [] in
  let jobDescriptionText :=
    match bodyJobDescriptionText req with
    | Some t => t
    | None => []
    end in
  match jobDescriptionUpload req with
  | Some path =>
      let uploadedFiles := uploadedFiles ++ [path] in
      (uploadedFiles, extractText path)
  | None => (uploadedFiles, inr jobDescriptionText)
  end.

(** The [try] block with its [catch]: the files registered for clean-up,
    the output directory and the answer. *)
Definition alignTry (req : AlignRequest) (fs : FS)
    : list jsstring * FS * EndpointResponse :=
  if negb apiKeyConfigured then
    ([], fs,
     StatusJson 500 (lit "Server configuration error")
       (lit "ANTHROPIC_API_KEY is not configured"))
  else
    let (uploadedFiles, extracted) := jobDescriptionOf req in
    match extracted with
    | inl error =>
        (uploadedFiles, fs,
         StatusJson 500 (lit "Processing failed") (message error))
    | inr jobDescriptionText =>
        match trim jobDescriptionText with
        | [] =>
            (uploadedFiles, fs,
             StatusJson 400 (lit "Missing job description")
               (lit "Please provide a job description file or paste the text"))
        | _ :: _ =>
            match cvUpload req with
            | None =>
                (uploadedFiles, fs,
                 StatusJson 400 (lit "Missing CV")
                   (lit "Please upload a CV file (PDF or DOCX)"))
            | Some cvPath =>
                let uploadedFiles := uploadedFiles ++ [cvPath] in
                match extractText cvPath with
                | inl error =>
                    (uploadedFiles, fs,
                     StatusJson 500 (lit "Processing failed")
                       (message error))
                | inr cvText =>
                    match trim cvText with
                    | [] =>
                        (uploadedFiles, fs,
                         StatusJson 400 (lit "Empty CV")
                           (lit "Could not extract text from the CV file"))
                    | _ :: _ =>
                        match alignCVCall jobDescriptionText cvText with
                        | inl error =>
                            (uploadedFiles, fs,
                             StatusJson 500 (lit "Processing failed")
                               (message error))
                        | inr alignedData =>
                            match
                              Generator.generateCV env alignedData
                                (ResumeDocument.name alignedData) fs
                            with
                            | (fs, inr outputPath) =>
                                let filename := outputPath in
                                (uploadedFiles, fs,
                                 SuccessJson
                                   (ResumeDocument.name alignedData)
                                   (lit "/download/" ++ filename) filename)
                            | (fs, inl error) =>
                                (uploadedFiles, fs,
                                 StatusJson 500 (lit "Processing failed")
                                   (message error))
                            end
                        end
                    end
                end
            end
        end
    end.

(** The handler: the [try] block, then [finally] unlinks the registered
    files. *)
Definition alignEndpoint (req : AlignRequest) (uploads : Uploads) (fs : FS)
    : Uploads * FS * EndpointResponse :=
  let '(uploadedFiles, fs, response) := alignTry req fs in
  (fold_left (fun u filePath => unlinkUpload filePath u) uploadedFiles
     uploads,
   fs, response).

End Endpoint.

(* ------------------------------------------------------------------ *)
(** * server.js (src/unnamed/part_002) fileFilter and lib/extractor.js
    (src/unnamed/part_004) extractText *)

Definition allowedTypes : list jsstring := [lit ".pdf"; lit ".docx"; lit ".txt"].

Section Extractor.

(** Node's [path.extname] and [String.prototype.toLowerCase]. *)
Variable extname : jsstring -> jsstring.
Variable toLowerCase : jsstring -> jsstring.

(** What [pdfParse] of the file gives as [data.text], what mammoth gives
    as [result.value], what [readFileSync(_, 'utf-8')] gives; or the
    error thrown. *)
Variable pdfText : jsstring -> Error + jsstring.
Variable docxText : jsstring -> Error + jsstring.
Variable fileText : jsstring -> Error + jsstring.

(** multer's [fileFilter]: [cb(null, true)] is [inr tt], [cb(error)] is
    [inl error]. *)
Definition fileFilter (originalname : jsstring) : Error + unit :=
  let ext := toLowerCase (extname originalname) in
  if existsb (jsstring_eqb ext) allowedTypes then inr tt
  else inl (mkError (lit "Unsupported file type: " ++ ext
                     ++ lit ". Allowed: " ++ join (lit ", ") allowedTypes)).

(** [.trim()] on what an extraction returned. *)
Definition trimmed (r : Error + jsstring) : Error + jsstring :=
  match r with
  | inl e => inl e
  | inr t => inr (trim t)
  end.

Definition extractFromPDF (filePath : jsstring) : Error + jsstring :=
  trimmed (pdfText filePath).

Definition extractFromDOCX (filePath : jsstring) : Error + jsstring :=
  trimmed (docxText filePath).

Definition extractFromTXT (filePath : jsstring) : Error + jsstring :=
  trimmed (fileText filePath).

Definition extractText (filePath : jsstring) : Error + jsstring :=
  let ext := toLowerCase (extname filePath) in
  if jsstring_eqb ext (lit ".pdf") then extractFromPDF filePath
  else if jsstring_eqb ext (lit ".docx") then extractFromDOCX filePath
  else if jsstring_eqb ext (lit ".txt") then extractFromTXT filePath
  else inl (mkError (lit "Unsupported file type: " ++ ext)).

End Extractor.

(* ------------------------------------------------------------------ *)
(** * api/align.js: parseMultipart *)

(** [s.indexOf(pat)] from position 0: the first index at which [pat]
    occurs, or -1. *)
Fixpoint indexOfFrom (s pat : jsstring) (i : Z) : Z :=
  match s with
  | [] => match pat with [] => i | _ :: _ => (-1)%Z end
  | _ :: s' => if startsWith s pat then i else indexOfFrom s' pat (i + 1)
  end.

Definition indexOf (s pat : jsstring) : Z := indexOfFrom s pat 0.

(** [s.includes(pat)]. *)
Definition includes (s pat : jsstring) : bool :=
  negb (indexOf s pat =? -1)%Z.

(** [s.split(sep)] for a non-empty separator: the pieces between the
    occurrences of [sep] found from left to right, without overlap.
    [skip] counts the code units of a separator still to pass over,
    [cur] holds the piece being read, last code unit first. *)
Fixpoint splitFrom (sep s : jsstring) (skip : nat) (cur : jsstring)
    : list jsstring :=
  match s with
  | [] => [rev cur]
  | c :: s' =>
      match skip with
      | S k => splitFrom sep s' k cur
      | O =>
          if startsWith s sep
          then rev cur :: splitFrom sep s' (length sep - 1) []
          else splitFrom sep s' 0 (c :: cur)
      end
  end.

Definition split (s sep : jsstring) : list jsstring := splitFrom sep s 0 [].

Definition CRLF : jsstring := [13; 10]%N.

Definition blankLine : jsstring := [13; 10; 13; 10]%N.

(** The maximal run of code units other than the double quote at the
    start of [s], and what follows it. *)
Fixpoint nonQuoteRun (s : jsstring) : jsstring * jsstring :=
  match s with
  | [] => ([], [])
  | c :: s' =>
      if (c =? 34)%N then ([], s)
      else let (run, rest) := nonQuoteRun s' in (c :: run, rest)
  end.

(** The regular expressions of parseMultipart have the form: a literal
    ending in a double quote, a group of one or more non-quotes, a
    double quote.  Tried at the start of [s]: the literal, then the
    greedy run of non-quotes, which must not be empty and must be
    followed by a quote; the capture is the run.  A shorter run cannot
    help, since it is followed by a non-quote. *)
Definition matchAttribute (literal s : jsstring) : option jsstring :=
  if startsWith s literal then
    match nonQuoteRun (skipn (length literal) s) with
    | (c :: run, _ :: _) => Some (c :: run)
    | _ => None
    end
  else None.

(** [s.match(regexp)] for such an expression: the capture of the
    leftmost match. *)
Fixpoint firstAttribute (literal s : jsstring) : option jsstring :=
  match matchAttribute literal s with
  | Some capture => Some capture
  | None =>
      match s with
      | [] => None
      | _ :: s' => firstAttribute literal s'
      end
  end.

(** The literals of the two expressions: [name=] and [filename=], each
    with a double quote behind. *)
Definition nameAttribute : jsstring :=
  Eval vm_compute in lit "name=" ++ [34%N].

Definition filenameAttribute : jsstring :=
  Eval vm_compute in lit "filename=" ++ [34%N].

Definition contentDisposition : jsstring :=
  Eval vm_compute in lit "Content-Disposition".

(** An entry of [parts]: [{ filename, content }]. *)
Record Part := mkPart {
  partFilename : option jsstring;
  partContent : jsstring
}.

(** The object [parts]: its own properties, in the order they were
    created, and its prototype: [None] for [Object.prototype], which the
    literal gives it, [Some p] once an assignment to [__proto__] has put
    the part [p] in its place. *)
Record Parts := mkParts {
  ownParts : list (jsstring * Part);
  partsPrototype : option Part
}.

Definition emptyParts : Parts :=
  {| ownParts := []; partsPrototype := None |}.

Definition protoName : jsstring := Eval vm_compute in lit "__proto__".

(** An own data property is written where it is, or created after the
    others. *)
Fixpoint assignOwn (name : jsstring) (value : Part)
    (own : list (jsstring * Part)) : list (jsstring * Part) :=
  match own with
  | [] => [(name, value)]
  | (n, v) :: own' =>
      if jsstring_eqb n name then (n, value) :: own'
      else (n, v) :: assignOwn name value own'
  end.

(** [parts[name] = value] for an object [value].  The name [__proto__]
    reaches the setter that [Object.prototype] has for it: the value
    becomes the prototype and no property is created.  Every other name
    is an own data property, or is not found or found as a writable data
    property on the prototype chain: an own data property is written or
    created. *)
Definition setPart (name : jsstring) (value : Part) (parts : Parts)
    : Parts :=
  if jsstring_eqb name protoName
  then {| ownParts := ownParts parts; partsPrototype := Some value |}
  else {| ownParts := assignOwn name value (ownParts parts);
          partsPrototype := partsPrototype parts |}.

(** What reading a property gives: [undefined], a part, the string or
    [null] that is the [content] or [filename] of a part, a method of
    [Object.prototype], or [Object.prototype] itself. *)
Inductive PropertyValue :=
| Undefined
| PartObject (part : Part)
| Text (text : jsstring)
| Null
| Builtin (name : jsstring)
| ObjectPrototype.

(** The data properties of [Object.prototype]. *)
Definition objectPrototypeNames : list jsstring :=
  Eval vm_compute in
    map lit
      ["constructor"; "__defineGetter__"; "__defineSetter__";
       "hasOwnProperty"; "__lookupGetter__"; "__lookupSetter__";
       "isPrototypeOf"; "propertyIsEnumerable"; "toString"; "valueOf";
       "toLocaleString"]%string.

Definition filenameName : jsstring := Eval vm_compute in lit "filename".

Definition contentName : jsstring := Eval vm_compute in lit "content".

(** A name read on [Object.prototype]. *)
Definition objectPrototypeValue (name : jsstring) : PropertyValue :=
  if existsb (jsstring_eqb name) objectPrototypeNames then Builtin name
  else Undefined.

(** A name that is no own property, read along the prototype chain:
    [__proto__] is the getter of [Object.prototype], which gives the
    prototype of [parts]; a part in the chain has the properties
    [filename] and [content]; then [Object.prototype]. *)
Definition inheritedValue (name : jsstring) (prototype : option Part)
    : PropertyValue :=
  if jsstring_eqb name protoName then
    match prototype with
    | Some p => PartObject p
    | None => ObjectPrototype
    end
  else
    match prototype with
    | Some p =>
        if jsstring_eqb name filenameName then
          match partFilename p with
          | Some f => Text f
          | None => Null
          end
        else if jsstring_eqb name contentName then Text (partContent p)
        else objectPrototypeValue name
    | None => objectPrototypeValue name
    end.

Definition getOwn (name : jsstring) (own : list (jsstring * Part))
    : option Part :=
  option_map snd (find (fun p => jsstring_eqb (fst p) name) own).

(** [parts[name]]. *)
Definition getPart (name : jsstring) (parts : Parts) : PropertyValue :=
  match getOwn name (ownParts parts) with
  | Some part => PartObject part
  | None => inheritedValue name (partsPrototype parts)
  end.

(** The body of the loop for one segment: the name and the part it
    assigns, if it assigns one. *)
Definition parseSegment (segment : jsstring) : option (jsstring * Part) :=
  if includes segment contentDisposition then
    let nameMatch := firstAttribute nameAttribute segment in
    let filenameMatch := firstAttribute filenameAttribute segment in
    match nameMatch with
    | Some name =>
        let contentStart := (indexOf segment blankLine + 4)%Z in
        let content := slice segment contentStart None in
        let content :=
          if endsWith content CRLF then slice content 0 (Some (-2)%Z)
          else content in
        Some (name, {| partFilename := filenameMatch;
                       partContent := content |})
    | None => None
    end
  else None.

Definition parseMultipart (body boundary : jsstring) : Parts :=
  let segments := split body (lit "--" ++ boundary) in
  fold_left
    (fun parts segment =>
       match parseSegment segment with
       | Some (name, value) => setPart name value parts
       | None => parts
       end)
    segments emptyParts.

(** The segments a browser sends for a text field and for a file: the
    disposition line with the field name (and the file name and the
    content-type line for a file), a blank line, the content, a line
    break. *)
Definition dispositionPrefix : jsstring :=
  Eval vm_compute in
    CRLF ++ lit "Content-Disposition: form-data; name=" ++ [34%N].

Definition filenamePrefix : jsstring :=
  Eval vm_compute in [34%N] ++ lit "; filename=" ++ [34%N].

Definition contentTypePrefix : jsstring :=
  Eval vm_compute in [34%N] ++ CRLF ++ lit "Content-Type: ".

Definition fieldSegment (name content : jsstring) : jsstring :=
  dispositionPrefix ++ name ++ [34%N] ++ blankLine ++ content ++ CRLF.

Definition fileSegment (name filename contentType content : jsstring)
    : jsstring :=
  dispositionPrefix ++ name ++ filenamePrefix ++ filename
  ++ contentTypePrefix ++ contentType ++ blankLine ++ content ++ CRLF.

(** A disposition line that gives the file name before the field
    name. *)
Definition filenameFirstPrefix : jsstring :=
  Eval vm_compute in
    CRLF ++ lit "Content-Disposition: form-data; filename=" ++ [34%N].

(** [x] and [pat] agree as far as both go: one is a prefix of the
    other. *)
Definition compatible (x pat : jsstring) : bool :=
  startsWith x pat || startsWith pat x.

(** No occurrence of [pat] can begin inside [pre], whatever follows. *)
Fixpoint noStart (pat pre : jsstring) : bool :=
  match pre with
  | [] => true
  | _ :: pre' => negb (compatible pre pat) && noStart pat pre'
  end.

(** The start of the disposition line, up to its first attribute. *)
Definition dispositionLine : jsstring :=
  Eval vm_compute in CRLF ++ lit "Content-Disposition: form-data; ".

(** The separator of the split, the closing piece after the last
    separator, and a body assembled from segments. *)
Definition delimiter (boundary : jsstring) : jsstring :=
  lit "--" ++ boundary.

Definition closing : jsstring := Eval vm_compute in lit "--" ++ CRLF.

Definition multipartBody (boundary : jsstring) (segments : list jsstring)
    : jsstring :=
  flat_map (fun segment => delimiter boundary ++ segment) segments
  ++ delimiter boundary ++ closing.

(** No occurrence of [sep] begins inside [segment] when [sep] follows
    it. *)
Definition freeOf (sep segment : jsstring) : bool :=
  negb (includes (segment ++ removelast sep) sep).

(** The names and parts the segments give, in the order of the
    segments, and the part of the last segment that gives a name. *)
Definition parsedSegments (segments : list jsstring)
    : list (jsstring * Part) :=
  flat_map
    (fun segment =>
       match parseSegment segment with Some p => [p] | None => [] end)
    segments.

Definition lastNamed (name : jsstring) (segments : list jsstring)
    : option Part :=
  getOwn name (rev (parsedSegments segments)).

(* ------------------------------------------------------------------ *)
(** * The loops as lists *)

Section ForEach.

Context {A : Type}.
Variable callback : list Paragraph -> A -> Z -> list Paragraph.
Variable emit : A -> Z -> list Paragraph.
Hypothesis callback_pushes :
  forall acc x i, callback acc x i = acc ++ emit x i.

Lemma fold_pushes (l : list A) :
  forall i acc,
    fold_left
      (fun (st : Z * list Paragraph) (x : A) =>
         ((fst st + 1)%Z, callback (snd st) x (fst st)))
      l (i, acc)
    = ((i + Z.of_nat (length l))%Z, acc ++ emitted emit i l).
Proof.
  induction l as [|x rest IH]; intros i acc; simpl.
  - now rewrite Z.add_0_r, app_nil_r.
  - rewrite IH, callback_pushes, <- app_assoc.
    f_equal. lia.
Qed.

Lemma forEach_pushes (l : list A) (acc : list Paragraph) :
  forEach l callback acc = acc ++ emitted emit 0 l.
Proof.
  unfold forEach. now rewrite fold_pushes.
Qed.

End ForEach.

(** A body that ignores the index adds [flat_map] of its blocks. *)
Lemma emitted_flat_map {A : Type} (f : A -> list Paragraph) (l : list A) :
  forall i, emitted (fun x _ => f x) i l = flat_map f l.
Proof.
  induction l as [|x rest IH]; intros i; simpl; [reflexivity|].
  now rewrite IH.
Qed.

Lemma emitted_bullets (ref : jsstring) (l : list jsstring) :
  forall (i n : Z),
    n = (i + Z.of_nat (length l))%Z ->
    emitted
      (fun a index => [createBulletPoint a ref (negb (index =? n - 1)%Z)])
      i l
    = bulletList ref l.
Proof.
  induction l as [|a rest IH]; intros i n Hn; simpl; [reflexivity|].
  rewrite (IH (i + 1)%Z n) by (simpl length in Hn; lia).
  f_equal. f_equal.
  destruct rest as [|b rest'].
  - simpl in Hn. replace (n - 1)%Z with i by lia.
    now rewrite Z.eqb_refl.
  - simpl length in Hn.
    destruct (Z.eqb_spec i (n - 1)); [lia | reflexivity].
Qed.

Lemma pushAchievements_eq (ach : option (list jsstring)) (ref : jsstring)
    (acc : list Paragraph) :
  pushAchievements ach ref acc = acc ++ bulletList ref (items ach).
Proof.
  unfold pushAchievements.
  destruct (hasItems ach) eqn:Hh.
  - rewrite forEach_pushes
      with (emit := fun a index =>
                      [createBulletPoint a ref
                         (negb (index =? Z.of_nat (length (items ach)) - 1)%Z)])
      by reflexivity.
    now rewrite emitted_bullets.
  - destruct ach as [[|a l]|]; simpl in *;
      try discriminate; now rewrite app_nil_r.
Qed.


(* ------------------------------------------------------------------ *)
(** * Each step of generateCV appends its section *)

Lemma pushLogo_eq (logo : option (list N)) (acc : list Paragraph) :
  pushLogo logo acc = acc ++ logoSection logo.
Proof.
  destruct logo; simpl; [reflexivity | now rewrite app_nil_r].
Qed.

Lemma pushProfessionalSummary_eq (data : ResumeDocument.t)
    (acc : list Paragraph) :
  pushProfessionalSummary data acc = acc ++ summarySection data.
Proof.
  unfold pushProfessionalSummary, summarySection, push.
  destruct (truthy _); [now rewrite <- app_assoc | now rewrite app_nil_r].
Qed.

Lemma pushCoreCompetencies_eq (data : ResumeDocument.t)
    (acc : list Paragraph) :
  pushCoreCompetencies data acc = acc ++ competenciesSection data.
Proof.
  unfold pushCoreCompetencies, competenciesSection, push.
  destruct (hasItems _); [now rewrite <- app_assoc | now rewrite app_nil_r].
Qed.

Lemma forEach_flat_map {A : Type} (l : list A)
    (callback : list Paragraph -> A -> Z -> list Paragraph)
    (f : A -> list Paragraph) :
  (forall acc x i, callback acc x i = acc ++ f x) ->
  forall acc, forEach l callback acc = acc ++ flat_map f l.
Proof.
  intros H acc.
  rewrite (forEach_pushes callback (fun x _ => f x) H).
  now rewrite emitted_flat_map.
Qed.

Lemma flat_map_singleton {A B : Type} (f : A -> B) (l : list A) :
  flat_map (fun x => [f x]) l = map f l.
Proof.
  induction l as [|x rest IH]; simpl; [reflexivity | now rewrite IH].
Qed.

Lemma hasItems_false {A : Type} (x : option (list A)) :
  hasItems x = false -> items x = [].
Proof.
  destruct x as [[|a l]|]; simpl; intros H; try reflexivity; discriminate.
Qed.

Lemma hasItems_true {A : Type} (x : option (list A)) :
  hasItems x = true <-> items x <> [].
Proof.
  destruct x as [[|a l]|]; simpl; split; intros H;
    try discriminate; try reflexivity; try congruence.
Qed.

Lemma pushProfessionalExperience_eq (data : ResumeDocument.t)
    (acc : list Paragraph) :
  pushProfessionalExperience data acc = acc ++ experienceSection data.
Proof.
  unfold pushProfessionalExperience, experienceSection, push.
  destruct (hasItems _); [|now rewrite app_nil_r].
  rewrite (forEach_flat_map _ _ jobBlocks).
  - now rewrite <- app_assoc.
  - intros a job i. rewrite pushAchievements_eq.
    unfold push, jobBlocks, jobHeaderOf. now rewrite <- app_assoc.
Qed.

Lemma education_callback (acc : list Paragraph) (edu : EducationEntry.t) :
  (if truthy (EducationEntry.details edu)
   then push (push (push acc (degreeParagraph edu)) (institutionParagraph edu))
          (educationDetailsParagraph edu)
   else push (push acc (degreeParagraph edu)) (institutionParagraph edu))
  = acc ++ educationBlocks edu.
Proof.
  unfold educationBlocks, push.
  destruct (truthy _); now rewrite <- !app_assoc.
Qed.

Lemma pushEducationCertification_eq (data : ResumeDocument.t)
    (acc : list Paragraph) :
  pushEducationCertification data acc = acc ++ educationSection data.
Proof.
  unfold pushEducationCertification, educationSection.
  destruct (hasItems (ResumeDocument.education data)) eqn:He;
    destruct (hasItems (ResumeDocument.certifications data)) eqn:Hc;
    cbn [orb];
    try rewrite (forEach_flat_map _ _ (fun cert => [certificationParagraph cert]))
      by reflexivity;
    try rewrite (forEach_flat_map _ _ educationBlocks)
      by (intros; apply education_callback);
    try rewrite (hasItems_false _ He); try rewrite (hasItems_false _ Hc);
    rewrite ?flat_map_singleton; unfold push; simpl;
    rewrite <- ?app_assoc, ?app_nil_r; reflexivity.
Qed.

Lemma pushLeadership_eq (data : ResumeDocument.t) (acc : list Paragraph) :
  pushLeadership data acc = acc ++ leadershipSection data.
Proof.
  unfold pushLeadership, leadershipSection, push.
  destruct (hasItems _); [|now rewrite app_nil_r].
  rewrite (forEach_flat_map _ _ leadershipBlocks).
  - now rewrite <- app_assoc.
  - intros a lead i. rewrite pushAchievements_eq.
    unfold push, leadershipBlocks. now rewrite <- app_assoc.
Qed.

Lemma pushTechnicalSkills_eq (data : ResumeDocument.t)
    (acc : list Paragraph) :
  pushTechnicalSkills data acc = acc ++ skillsSection data.
Proof.
  unfold pushTechnicalSkills, skillsSection, push.
  destruct (ResumeDocument.technicalSkills data) as [ts|];
    [|now rewrite app_nil_r].
  destruct (truthy (TechnicalSkills.technical ts));
    destruct (truthy (TechnicalSkills.languages ts));
    simpl; rewrite <- ?app_assoc; reflexivity.
Qed.

(** The block list of a composed document is its sections in the fixed
    order of the script. *)
Lemma blocks_generateCV (logo : option (list N)) (data : ResumeDocument.t) :
  blocks (generateCV logo data)
  = logoSection logo
    ++ [nameParagraph (ResumeDocument.name data)]
    ++ summarySection data
    ++ competenciesSection data
    ++ experienceSection data
    ++ educationSection data
    ++ leadershipSection data
    ++ skillsSection data.
Proof.
  unfold blocks, generateCV; cbn [sections flat_map sectionChildren].
  rewrite app_nil_r. unfold buildChildren.
  rewrite pushTechnicalSkills_eq, pushLeadership_eq,
    pushEducationCertification_eq, pushProfessionalExperience_eq,
    pushCoreCompetencies_eq, pushProfessionalSummary_eq.
  unfold pushName, push. rewrite pushLogo_eq.
  cbn [app]. now rewrite <- !app_assoc.
Qed.

(* ------------------------------------------------------------------ *)
(** * The section headings of a composed document *)

Lemma sectionHeadings_app (l1 l2 : list Paragraph) :
  sectionHeadings (l1 ++ l2) = sectionHeadings l1 ++ sectionHeadings l2.
Proof.
  unfold sectionHeadings. now rewrite filter_app, map_app.
Qed.

Lemma sectionHeadings_flat_map {A : Type} (f : A -> list Paragraph)
    (l : list A) :
  (forall x, sectionHeadings (f x) = []) ->
  sectionHeadings (flat_map f l) = [].
Proof.
  intros H. induction l as [|x rest IH]; simpl; [reflexivity|].
  now rewrite sectionHeadings_app, H, IH.
Qed.

Lemma sectionHeadings_bullets (ref : jsstring) (l : list jsstring) :
  sectionHeadings (bulletList ref l) = [].
Proof.
  induction l as [|a rest IH]; [reflexivity | exact IH].
Qed.

Lemma sectionHeadings_jobBlocks (job : JobEntry.t) :
  sectionHeadings (jobBlocks job) = [].
Proof.
  unfold jobBlocks. apply sectionHeadings_bullets.
Qed.

Lemma sectionHeadings_educationBlocks (edu : EducationEntry.t) :
  sectionHeadings (educationBlocks edu) = [].
Proof.
  unfold educationBlocks. now destruct (truthy _).
Qed.

Lemma sectionHeadings_leadershipBlocks (lead : LeadershipEntry.t) :
  sectionHeadings (leadershipBlocks lead) = [].
Proof.
  unfold leadershipBlocks. apply sectionHeadings_bullets.
Qed.

Lemma sectionHeadings_certifications (l : list CertEntry.t) :
  sectionHeadings (map certificationParagraph l) = [].
Proof.
  induction l as [|c rest IH]; [reflexivity | exact IH].
Qed.

Lemma sectionHeadings_logo (logo : option (list N)) :
  sectionHeadings (logoSection logo) = [].
Proof. now destruct logo. Qed.

Lemma sectionHeadings_summary (data : ResumeDocument.t) :
  sectionHeadings (summarySection data)
  = if truthy (ResumeDocument.professionalSummary data)
    then [lit "PROFESSIONAL SUMMARY"] else [].
Proof. unfold summarySection. now destruct (truthy _). Qed.

Lemma sectionHeadings_competencies (data : ResumeDocument.t) :
  sectionHeadings (competenciesSection data)
  = if hasItems (ResumeDocument.coreCompetencies data)
    then [lit "CORE COMPETENCIES"] else [].
Proof. unfold competenciesSection. now destruct (hasItems _). Qed.

Lemma sectionHeadings_experience (data : ResumeDocument.t) :
  sectionHeadings (experienceSection data)
  = if hasItems (ResumeDocument.professionalExperience data)
    then [lit "PROFESSIONAL EXPERIENCE"] else [].
Proof.
  unfold experienceSection. destruct (hasItems _); [|reflexivity].
  change (createSectionHeading ?h :: ?l) with ([createSectionHeading h] ++ l).
  rewrite sectionHeadings_app,
    (sectionHeadings_flat_map _ _ sectionHeadings_jobBlocks).
  reflexivity.
Qed.

Lemma sectionHeadings_education (data : ResumeDocument.t) :
  sectionHeadings (educationSection data)
  = if hasItems (ResumeDocument.education data)
       || hasItems (ResumeDocument.certifications data)
    then [lit "EDUCATION & CERTIFICATION"] else [].
Proof.
  unfold educationSection. destruct (_ || _); [|reflexivity].
  change (createSectionHeading ?h :: ?l) with ([createSectionHeading h] ++ l).
  rewrite !sectionHeadings_app,
    (sectionHeadings_flat_map _ _ sectionHeadings_educationBlocks),
    sectionHeadings_certifications.
  reflexivity.
Qed.

Lemma sectionHeadings_leadership (data : ResumeDocument.t) :
  sectionHeadings (leadershipSection data)
  = if hasItems (ResumeDocument.leadership data)
    then [lit "LEADERSHIP"] else [].
Proof.
  unfold leadershipSection. destruct (hasItems _); [|reflexivity].
  change (createSectionHeading ?h :: ?l) with ([createSectionHeading h] ++ l).
  rewrite sectionHeadings_app,
    (sectionHeadings_flat_map _ _ sectionHeadings_leadershipBlocks).
  reflexivity.
Qed.

Lemma sectionHeadings_skills (data : ResumeDocument.t) :
  sectionHeadings (skillsSection data)
  = match ResumeDocument.technicalSkills data with
    | Some _ => [lit "TECHNICAL SKILLS & LANGUAGES"]
    | None => []
    end.
Proof.
  unfold skillsSection.
  destruct (ResumeDocument.technicalSkills data) as [ts|]; [|reflexivity].
  now destruct (truthy (TechnicalSkills.technical ts)),
    (truthy (TechnicalSkills.languages ts)).
Qed.

(** The headings a document shows, in order: one per section that is
    emitted, and nothing else has the look of a heading. *)
Lemma sectionHeadings_generateCV (logo : option (list N))
    (data : ResumeDocument.t) :
  sectionHeadings (blocks (generateCV logo data))
  = (if truthy (ResumeDocument.professionalSummary data)
     then [lit "PROFESSIONAL SUMMARY"] else [])
    ++ (if hasItems (ResumeDocument.coreCompetencies data)
        then [lit "CORE COMPETENCIES"] else [])
    ++ (if hasItems (ResumeDocument.professionalExperience data)
        then [lit "PROFESSIONAL EXPERIENCE"] else [])
    ++ (if hasItems (ResumeDocument.education data)
           || hasItems (ResumeDocument.certifications data)
        then [lit "EDUCATION & CERTIFICATION"] else [])
    ++ (if hasItems (ResumeDocument.leadership data)
        then [lit "LEADERSHIP"] else [])
    ++ (match ResumeDocument.technicalSkills data with
        | Some _ => [lit "TECHNICAL SKILLS & LANGUAGES"]
        | None => []
        end).
Proof.
  rewrite blocks_generateCV, !sectionHeadings_app.
  rewrite sectionHeadings_logo, sectionHeadings_summary,
    sectionHeadings_competencies, sectionHeadings_experience,
    sectionHeadings_education, sectionHeadings_leadership,
    sectionHeadings_skills.
  reflexivity.
Qed.

(* ------------------------------------------------------------------ *)
(** * Validation and the handler (C1) *)

Lemma jsstring_eqb_eq (a b : jsstring) : jsstring_eqb a b = true <-> a = b.
Proof.
  unfold jsstring_eqb. destruct (list_eq_dec N.eq_dec a b); split;
    intros H; try reflexivity; try assumption; try discriminate; contradiction.
Qed.

(** The document ends in [.docx], the JSON file in [.json]. *)
Lemma outputPath_not_jsonPath (n : jsstring) (ts : N) (h : jsstring) :
  Generator.outputPath n ts <> Generator.jsonPath h.
Proof.
  unfold Generator.outputPath, Generator.jsonPath. intros H.
  change (lit ".docx") with (lit ".doc" ++ [120%N]) in H.
  change (lit ".json") with (lit ".jso" ++ [110%N]) in H.
  rewrite !app_assoc in H.
  apply app_inj_tail in H. destruct H as [_ H]. discriminate.
Qed.

Lemma in_unlinkSync (path p : jsstring) (f : File) (fs : FS) :
  In (p, f) (unlinkSync path fs) <-> In (p, f) fs /\ p <> path.
Proof.
  unfold unlinkSync. rewrite filter_In. cbn [fst].
  destruct (jsstring_eqb p path) eqn:E.
  - apply jsstring_eqb_eq in E. cbn [negb]. split.
    + intros [_ H]. discriminate.
    + intros [_ H]. contradiction.
  - cbn [negb]. split; intros [H _]; split; auto.
    intros Hp. apply jsstring_eqb_eq in Hp. congruence.
Qed.

Lemma in_writeFileSync (path p : jsstring) (f g : File) (fs : FS) :
  In (p, f) (writeFileSync path g fs)
  <-> (p = path /\ f = g) \/ (In (p, f) fs /\ p <> path).
Proof.
  unfold writeFileSync. cbn [In]. rewrite in_unlinkSync.
  split; intros [H|H]; auto.
  - injection H as <- <-. now left.
  - destruct H as [-> ->]. now left.
Qed.

Lemma in_cleanUp (env : Env) (path p : jsstring) (f : File) (fs : FS) :
  In (p, f) (Generator.cleanUp env path fs) ->
  In (p, f) fs /\ (unlinkFailure env path = false -> p <> path).
Proof.
  unfold Generator.cleanUp. destruct (unlinkFailure env path).
  - intros H. split; [exact H | discriminate].
  - rewrite in_unlinkSync. intros [H Hp]. now split.
Qed.

Lemma in_cleanUp_other (env : Env) (path p : jsstring) (f : File)
    (fs : FS) :
  p <> path -> (In (p, f) (Generator.cleanUp env path fs) <-> In (p, f) fs).
Proof.
  intros Hp. unfold Generator.cleanUp. destruct (unlinkFailure env path).
  - reflexivity.
  - rewrite in_unlinkSync. tauto.
Qed.

Lemma readJson_written (path : jsstring) (data : ResumeDocument.t)
    (fs : FS) :
  readJson path (writeFileSync path (JsonFile data) fs) = Some data.
Proof.
  unfold readJson, writeFileSync. cbn [find fst].
  now rewrite (proj2 (jsstring_eqb_eq path path) eq_refl).
Qed.

(** The wrapper and the script together: the four ways the call ends. *)
Lemma generateCV_outcomes (env : Env) (cvData : ResumeDocument.t)
    (candidateName : option jsstring) (fs : FS) :
  Generator.generateCV env cvData candidateName fs
  = let name :=
      match candidateName with
      | Some n => n
      | None => lit "Candidate"
      end in
    let jsonPath := Generator.jsonPath (randomHex env) in
    let outputPath := Generator.outputPath name (now env) in
    match writeFailure env jsonPath with
    | Some err => (fs, inl (mkError (fsMessage err)))
    | None =>
        let written := writeFileSync jsonPath (JsonFile cvData) fs in
        match spawnFailure env with
        | Some msg =>
            (Generator.cleanUp env jsonPath written,
             inl (mkError (lit "Failed to spawn generator: " ++ msg)))
        | None =>
            match writeFailure env outputPath with
            | Some err =>
                (Generator.cleanUp env jsonPath written,
                 inl (mkError
                        (lit "CV generation failed with code 1: "
                         ++ lit "Error generating CV: " ++ fsInspect err
                         ++ [10%N])))
            | None =>
                (Generator.cleanUp env jsonPath
                   (writeFileSync outputPath
                      (DocxFile (generateCV (logoAsset env) cvData))
                      written),
                 inr outputPath)
            end
        end
    end.
Proof.
  unfold Generator.generateCV. cbv zeta.
  destruct (writeFailure env (Generator.jsonPath (randomHex env)));
    [reflexivity|].
  destruct (spawnFailure env); [reflexivity|].
  unfold cliExecution, writeDocument. rewrite readJson_written.
  destruct (writeFailure env _); reflexivity.
Qed.

(** When nothing refuses, the wrapper leaves the document under its
    output path and resolves with that path. *)
Lemma generator_writes_document (env : Env) (cvData : ResumeDocument.t)
    (n : jsstring) (fs : FS) :
  writeFailure env (Generator.jsonPath (randomHex env)) = None ->
  spawnFailure env = None ->
  writeFailure env (Generator.outputPath n (now env)) = None ->
  In (Generator.outputPath n (now env),
      DocxFile (generateCV (logoAsset env) cvData))
     (fst (Generator.generateCV env cvData (Some n) fs))
  /\ snd (Generator.generateCV env cvData (Some n) fs)
     = inr (Generator.outputPath n (now env)).
Proof.
  intros Hj Hs Ho. rewrite generateCV_outcomes. cbv zeta.
  rewrite Hj, Hs, Ho. cbn [fst snd]. split; [|reflexivity].
  apply in_cleanUp_other; [apply outputPath_not_jsonPath|].
  apply in_writeFileSync. now left.
Qed.

(** When the wrapper rejects, it has written no document: outside the
    path of the temporary JSON file the directory is as it was. *)
Lemma generator_rejected (env : Env) (cvData : ResumeDocument.t)
    (candidateName : option jsstring) (fs : FS) (e : Error) :
  snd (Generator.generateCV env cvData candidateName fs) = inl e ->
  forall p f,
    p <> Generator.jsonPath (randomHex env) ->
    (In (p, f) (fst (Generator.generateCV env cvData candidateName fs))
     <-> In (p, f) fs).
Proof.
  rewrite generateCV_outcomes. cbv zeta. intros H p f Hp.
  destruct (writeFailure env (Generator.jsonPath (randomHex env)));
    [reflexivity|].
  destruct (spawnFailure env).
  - cbn [fst]. rewrite (in_cleanUp_other env f _ Hp), in_writeFileSync.
    tauto.
  - destruct (writeFailure env _); [|discriminate H].
    cbn [fst]. rewrite (in_cleanUp_other env f _ Hp), in_writeFileSync.
    tauto.
Qed.

(** C1 (as amended).  The composer makes no test and cannot fail: it is
    a function of the data that always emits the Name block, directly
    after the logo if there is one, followed by the Professional
    Summary heading and body when [professionalSummary] is there and
    non-empty, and by the later sections directly, with no such heading
    anywhere, when it is missing or empty.  The test for [name] and
    [professionalSummary] is the basic validation that ends alignCV,
    upstream of the composer.  When either is missing or empty, alignCV
    throws, the handler answers 500 with that message and the output
    directory is left as it was: the generator is not run and no file
    is written.  When both are there, validation passes whatever else
    is missing and the generator runs: when neither the file system nor
    the start of the script fails, the composed document is written
    under the derived file name and the answer names it; else the
    answer is 500 and no file is written or changed but under the path
    of the temporary JSON file. *)
Theorem alignHandler_validates_upstream (env : Env)
    (logo : option (list N)) (cvData : ResumeDocument.t) (fs : FS) :
  (exists rest,
     blocks (generateCV logo cvData)
     = logoSection logo
       ++ nameParagraph (ResumeDocument.name cvData) :: rest
     /\ if truthy (ResumeDocument.professionalSummary cvData)
        then
          exists rest',
            rest
            = createSectionHeading (lit "Professional Summary")
              :: bodyParagraph (ResumeDocument.professionalSummary cvData)
              :: rest'
        else
          rest
          = competenciesSection cvData ++ experienceSection cvData
            ++ educationSection cvData ++ leadershipSection cvData
            ++ skillsSection cvData
          /\ ~ In (lit "PROFESSIONAL SUMMARY")
                 (sectionHeadings (blocks (generateCV logo cvData))))
  /\ if truthy (ResumeDocument.name cvData)
        && truthy (ResumeDocument.professionalSummary cvData)
     then
       alignCV cvData = inr cvData
       /\ exists n,
            ResumeDocument.name cvData = Some n
            /\ let outputPath := Generator.outputPath n (now env) in
               match
                 writeFailure env (Generator.jsonPath (randomHex env)),
                 spawnFailure env, writeFailure env outputPath
               with
               | None, None, None =>
                   exists fs',
                     alignHandler env cvData fs
                     = (fs', Json200 (Some n)
                               (lit "/download/" ++ outputPath) outputPath)
                     /\ In (outputPath,
                            DocxFile (generateCV (logoAsset env) cvData))
                           fs'
               | _, _, _ =>
                   exists fs' msg,
                     alignHandler env cvData fs
                     = (fs', Json500 (lit "Processing failed") msg)
                     /\ forall p f,
                          p <> Generator.jsonPath (randomHex env) ->
                          (In (p, f) fs' <-> In (p, f) fs)
               end
     else
       alignCV cvData = inl (mkError missingFieldsMessage)
       /\ alignHandler env cvData fs
          = (fs, Json500 (lit "Processing failed") missingFieldsMessage).
Proof.
  split.
  - exists (summarySection cvData ++ competenciesSection cvData
            ++ experienceSection cvData ++ educationSection cvData
            ++ leadershipSection cvData ++ skillsSection cvData).
    split; [apply blocks_generateCV|].
    pose proof (sectionHeadings_generateCV logo cvData) as Hh.
    unfold summarySection.
    destruct (truthy (ResumeDocument.professionalSummary cvData)).
    + eexists. reflexivity.
    + split; [reflexivity|]. rewrite Hh. rewrite !in_app_iff.
      destruct (hasItems (ResumeDocument.coreCompetencies cvData)),
        (hasItems (ResumeDocument.professionalExperience cvData)),
        (hasItems (ResumeDocument.education cvData)
         || hasItems (ResumeDocument.certifications cvData)),
        (hasItems (ResumeDocument.leadership cvData)),
        (ResumeDocument.technicalSkills cvData);
        cbn [In]; intros H;
        repeat (destruct H as [H|H]; try discriminate H;
                try contradiction).
  - unfold alignHandler, alignCV, basicValidation.
    destruct (truthy (ResumeDocument.name cvData)) eqn:Hn;
      destruct (truthy (ResumeDocument.professionalSummary cvData)) eqn:Hs;
      cbn [negb orb andb]; try (split; reflexivity).
    split; [reflexivity|].
    destruct (ResumeDocument.name cvData) as [n|] eqn:En; [|discriminate].
    exists n. split; [reflexivity|]. cbv zeta.
    pose proof (generator_writes_document env cvData n fs) as Hok.
    pose proof (@generator_rejected env cvData (Some n) fs) as Hrej.
    assert (Hfail :
              forall e,
                snd (Generator.generateCV env cvData (Some n) fs) = inl e ->
                exists fs' msg,
                  (let (fs0, r) :=
                     Generator.generateCV env cvData (Some n) fs in
                   match r with
                   | inl error =>
                       (fs0, Json500 (lit "Processing failed")
                               (message error))
                   | inr outputPath =>
                       (fs0, Json200 (Some n)
                               (lit "/download/" ++ outputPath) outputPath)
                   end)
                  = (fs', Json500 (lit "Processing failed") msg)
                  /\ forall p f,
                       p <> Generator.jsonPath (randomHex env) ->
                       (In (p, f) fs' <-> In (p, f) fs)).
    { intros e He. specialize (Hrej e He).
      destruct (Generator.generateCV env cvData (Some n) fs) as [fs0 r].
      cbn [fst snd] in *. subst r.
      exists fs0, (message e). split; [reflexivity | exact Hrej]. }
    pose proof (generateCV_outcomes env cvData (Some n) fs) as Hout.
    cbv zeta in Hout.
    destruct (writeFailure env (Generator.jsonPath (randomHex env)))
      as [e1|].
    { apply (Hfail (mkError (fsMessage e1))). now rewrite Hout. }
    destruct (spawnFailure env) as [msg|].
    { apply (Hfail (mkError (lit "Failed to spawn generator: " ++ msg))).
      now rewrite Hout. }
    destruct (writeFailure env (Generator.outputPath n (now env)))
      as [e2|].
    { eapply Hfail. rewrite Hout. reflexivity. }
    destruct (Hok eq_refl eq_refl eq_refl) as [Hin Hres].
    destruct (Generator.generateCV env cvData (Some n) fs) as [fs0 r].
    cbn [fst snd] in *. subst r.
    exists fs0. now split.
Qed.

(** C1 (as stated) fails on the composer: for a document without
    [professionalSummary] the script composes and the wrapper writes a
    document, made of the Name block alone. *)
Lemma composer_accepts_missing_summary :
  truthy (ResumeDocument.professionalSummary noSummaryDocument) = false
  /\ exists path doc,
       In (path, DocxFile doc)
          (fst (Generator.generateCV plainEnv noSummaryDocument
                  (ResumeDocument.name noSummaryDocument) []))
       /\ blocks doc = [nameParagraph (Some (lit "A"))].
Proof.
  split; [reflexivity|].
  exists (Generator.outputPath (lit "A") (now plainEnv)),
         (generateCV None noSummaryDocument).
  split; [|reflexivity].
  apply (@generator_writes_document plainEnv noSummaryDocument (lit "A") []
           eq_refl eq_refl eq_refl).
Qed.

(* ------------------------------------------------------------------ *)
(** * Headings and their bodies (C2, C3, C4) *)

Lemma headingsHaveBody_app (l1 l2 : list Paragraph) :
  headingsHaveBody l1 = true -> headingsHaveBody l2 = true ->
  headingsHaveBody (l1 ++ l2) = true.
Proof.
  intros H1 H2. induction l1 as [|p rest IH]; [exact H2|].
  cbn [headingsHaveBody app] in *.
  apply andb_true_iff in H1. destruct H1 as [Hp Hrest].
  rewrite (IH Hrest), andb_true_r.
  destruct (isSectionHeading p); [|reflexivity].
  destruct rest as [|q rest']; [discriminate | exact Hp].
Qed.

Lemma headingsHaveBody_plain (l : list Paragraph) :
  forallb (fun p => negb (isSectionHeading p)) l = true ->
  headingsHaveBody l = true.
Proof.
  induction l as [|p rest IH]; [reflexivity|].
  cbn [forallb headingsHaveBody]. intros H.
  apply andb_true_iff in H. destruct H as [Hp Hrest].
  rewrite (IH Hrest), andb_true_r.
  now destruct (isSectionHeading p).
Qed.

Lemma plain_flat_map {A : Type} (f : A -> list Paragraph) (l : list A) :
  (forall x, forallb (fun p => negb (isSectionHeading p)) (f x) = true) ->
  forallb (fun p => negb (isSectionHeading p)) (flat_map f l) = true.
Proof.
  intros H. induction l as [|x rest IH]; [reflexivity|].
  cbn [flat_map]. now rewrite forallb_app, H, IH.
Qed.

Lemma plain_bullets (ref : jsstring) (l : list jsstring) :
  forallb (fun p => negb (isSectionHeading p)) (bulletList ref l) = true.
Proof.
  induction l as [|a rest IH]; [reflexivity | exact IH].
Qed.

Lemma plain_jobBlocks (job : JobEntry.t) :
  forallb (fun p => negb (isSectionHeading p)) (jobBlocks job) = true.
Proof. apply plain_bullets. Qed.

Lemma plain_leadershipBlocks (lead : LeadershipEntry.t) :
  forallb (fun p => negb (isSectionHeading p)) (leadershipBlocks lead) = true.
Proof. apply plain_bullets. Qed.

Lemma plain_educationBlocks (edu : EducationEntry.t) :
  forallb (fun p => negb (isSectionHeading p)) (educationBlocks edu) = true.
Proof. unfold educationBlocks. now destruct (truthy _). Qed.

Lemma plain_certifications (l : list CertEntry.t) :
  forallb (fun p => negb (isSectionHeading p)) (map certificationParagraph l)
  = true.
Proof.
  induction l as [|c rest IH]; [reflexivity | exact IH].
Qed.

(** A heading in front of a non-empty list of plain blocks. *)
Lemma headingsHaveBody_section (h : jsstring) (body : list Paragraph) :
  body <> [] ->
  forallb (fun p => negb (isSectionHeading p)) body = true ->
  headingsHaveBody (createSectionHeading h :: body) = true.
Proof.
  intros Hne Hplain. cbn [headingsHaveBody].
  rewrite (headingsHaveBody_plain _ Hplain), andb_true_r.
  destruct body as [|q rest]; [contradiction|].
  cbn [forallb] in Hplain. apply andb_true_iff in Hplain.
  now destruct Hplain.
Qed.

Lemma flat_map_nonempty {A : Type} (f : A -> list Paragraph) (l : list A) :
  l <> [] -> (forall x, f x <> []) -> flat_map f l <> [].
Proof.
  intros Hl Hf. destruct l as [|x rest]; [contradiction|].
  cbn [flat_map]. intros H. apply app_eq_nil in H. destruct H as [H _].
  now apply Hf in H.
Qed.

(** Except for Technical Skills & Languages, every section that emits
    its heading emits a body under it: as long as [technicalSkills] is
    missing or has one of its two strings, no heading is left bare. *)
Lemma headings_have_bodies (logo : option (list N))
    (data : ResumeDocument.t) :
  match ResumeDocument.technicalSkills data with
  | Some ts =>
      truthy (TechnicalSkills.technical ts)
      || truthy (TechnicalSkills.languages ts) = true
  | None => True
  end ->
  headingsHaveBody (blocks (generateCV logo data)) = true.
Proof.
  intros Hts. rewrite blocks_generateCV.
  repeat apply headingsHaveBody_app.
  - now destruct logo.
  - reflexivity.
  - unfold summarySection. now destruct (truthy _).
  - unfold competenciesSection. now destruct (hasItems _).
  - unfold experienceSection. destruct (hasItems _) eqn:H; [|reflexivity].
    apply headingsHaveBody_section.
    + apply flat_map_nonempty; [now apply hasItems_true | discriminate].
    + apply plain_flat_map, plain_jobBlocks.
  - unfold educationSection.
    destruct (hasItems (ResumeDocument.education data)) eqn:He;
      [|destruct (hasItems (ResumeDocument.certifications data)) eqn:Hc];
      cbn [orb]; try reflexivity.
    + apply headingsHaveBody_section.
      * intros H. apply app_eq_nil in H. destruct H as [H _]. revert H.
        apply flat_map_nonempty; [now apply hasItems_true | discriminate].
      * rewrite forallb_app, plain_certifications, andb_true_r.
        apply plain_flat_map, plain_educationBlocks.
    + apply headingsHaveBody_section.
      * rewrite (hasItems_false _ He). cbn [flat_map app].
        apply hasItems_true in Hc.
        destruct (items (ResumeDocument.certifications data));
          [contradiction | discriminate].
      * rewrite forallb_app, plain_certifications, andb_true_r.
        apply plain_flat_map, plain_educationBlocks.
  - unfold leadershipSection. destruct (hasItems _) eqn:H; [|reflexivity].
    apply headingsHaveBody_section.
    + apply flat_map_nonempty; [now apply hasItems_true | discriminate].
    + apply plain_flat_map, plain_leadershipBlocks.
  - unfold skillsSection.
    destruct (ResumeDocument.technicalSkills data) as [ts|]; [|reflexivity].
    destruct (truthy (TechnicalSkills.technical ts)),
      (truthy (TechnicalSkills.languages ts));
      try reflexivity; discriminate.
Qed.

(** C2: with [technicalSkills: {}] the composer emits the heading
    TECHNICAL SKILLS & LANGUAGES as the last block, with no body under
    it: the invariant of the claim is broken on this input. *)
Theorem empty_skills_heading_without_body :
  blocks (generateCV None emptySkillsDocument)
  = [ nameParagraph (Some (lit "A"));
      createSectionHeading (lit "Professional Summary");
      bodyParagraph (Some (lit "S"));
      createSectionHeading (lit "Technical Skills & Languages") ]
  /\ headingsHaveBody (blocks (generateCV None emptySkillsDocument)) = false.
Proof.
  split; reflexivity.
Qed.

(** C3 (as amended): with [name] and [professionalSummary] set and every
    other field left out, validation passes and the block list is the
    Name block, the PROFESSIONAL SUMMARY heading and the summary body,
    after the Logo block when the logo asset exists and nothing else; the
    only section heading is PROFESSIONAL SUMMARY. *)
Theorem minimal_document_blocks (logo : option (list N)) (n s : jsstring) :
  n <> [] -> s <> [] ->
  let data :=
    ResumeDocument.mk (Some n) (Some s) None None None None None None in
  alignCV data = inr data
  /\ blocks (generateCV logo data)
     = logoSection logo
       ++ [ nameParagraph (Some n);
            createSectionHeading (lit "Professional Summary");
            bodyParagraph (Some s) ]
  /\ sectionHeadings (blocks (generateCV logo data))
     = [lit "PROFESSIONAL SUMMARY"]
  /\ (logo = None -> onlyNameAndSummary data (blocks (generateCV logo data))).
Proof.
  intros Hn Hs data.
  destruct n as [|c n]; [contradiction|].
  destruct s as [|c' s]; [contradiction|].
  assert (Hb : blocks (generateCV logo data)
               = logoSection logo
                 ++ [ nameParagraph (Some (c :: n));
                      createSectionHeading (lit "Professional Summary");
                      bodyParagraph (Some (c' :: s)) ]).
  { rewrite blocks_generateCV. reflexivity. }
  split; [reflexivity|]. split; [exact Hb|]. split.
  - rewrite sectionHeadings_generateCV. reflexivity.
  - intros ->. rewrite Hb. intros p Hp. cbn in Hp.
    destruct Hp as [<-|[<-|[<-|[]]]]; auto.
Qed.

(** The minimal document without a logo asset: three blocks. *)
Lemma minimal_document_blocks_witness :
  blocks (generateCV None minimalDocument)
  = [ nameParagraph (Some (lit "A"));
      createSectionHeading (lit "Professional Summary");
      bodyParagraph (Some (lit "S")) ].
Proof.
  apply (minimal_document_blocks None (n := lit "A") (s := lit "S"));
    discriminate.
Defined.

(** C3 (as stated) fails when the logo asset exists: the block list then
    begins with the Logo block, which is neither the Name block nor part
    of Professional Summary. *)
Lemma logo_block_besides_name_and_summary :
  ~ onlyNameAndSummary minimalDocument
      (blocks (generateCV (Some pngBytes) minimalDocument)).
Proof.
  intros H.
  destruct (H (logoParagraph pngBytes)) as [E|[E|E]];
    [now left | discriminate E ..].
Qed.

(** C4: the heading EDUCATION & CERTIFICATION is among the section
    headings of the output exactly when [education] or [certifications]
    is a non-empty sequence. *)
Theorem education_heading_iff (logo : option (list N))
    (data : ResumeDocument.t) :
  In (lit "EDUCATION & CERTIFICATION")
     (sectionHeadings (blocks (generateCV logo data)))
  <-> items (ResumeDocument.education data) <> []
      \/ items (ResumeDocument.certifications data) <> [].
Proof.
  rewrite sectionHeadings_generateCV, <- !hasItems_true, <- orb_true_iff.
  rewrite !in_app_iff.
  destruct (truthy _), (hasItems (ResumeDocument.coreCompetencies data)),
    (hasItems (ResumeDocument.professionalExperience data)),
    (hasItems (ResumeDocument.education data)
     || hasItems (ResumeDocument.certifications data)),
    (hasItems (ResumeDocument.leadership data)),
    (ResumeDocument.technicalSkills data);
    cbn [In]; split; intros H; try reflexivity; try discriminate;
    try (right; right; right; left; left; reflexivity);
    repeat (destruct H as [H|H]; try discriminate H; try contradiction).
Qed.

(* ------------------------------------------------------------------ *)
(** * Core Competencies (C5) *)

Lemma join_fold_started (sep : jsstring) (l : list jsstring) :
  forall R,
    fold_left
      (fun (st : bool * jsstring) (x : jsstring) =>
         let (started, R) := st in
         (true, (if started then R ++ sep else R) ++ x))
      l (true, R)
    = (true, R ++ flat_map (fun y => sep ++ y) l).
Proof.
  induction l as [|x rest IH]; intros R; cbn [fold_left flat_map].
  - now rewrite app_nil_r.
  - rewrite IH. now rewrite <- !app_assoc.
Qed.

(** [join]: the first element, then each further element behind a
    separator, in the order of the array. *)
Lemma join_cons (sep x : jsstring) (rest : list jsstring) :
  join sep (x :: rest) = x ++ flat_map (fun y => sep ++ y) rest.
Proof.
  unfold join. cbn [fold_left app].
  now rewrite join_fold_started.
Qed.

(** C5: for a non-empty [coreCompetencies] the CORE COMPETENCIES heading
    is followed by one body paragraph whose text is the elements in
    input order, each after the first preceded by the fixed delimiter
    (two spaces, U+2022, two spaces); for ["B","A","C"] the line is
    B, delimiter, A, delimiter, C. *)
Theorem core_competencies_joined_in_order (logo : option (list N))
    (data : ResumeDocument.t) (x : jsstring) (rest : list jsstring) :
  ResumeDocument.coreCompetencies data = Some (x :: rest) ->
  (exists pre post body,
     blocks (generateCV logo data)
     = pre ++ createSectionHeading (lit "Core Competencies") :: body :: post
     /\ body = bodyParagraph (Some (join competencyDelimiter (x :: rest)))
     /\ paragraphText body
        = x ++ flat_map (fun y => competencyDelimiter ++ y) rest)
  /\ join competencyDelimiter [lit "B"; lit "A"; lit "C"]
     = lit "B  " ++ 8226%N :: lit "  A  " ++ 8226%N :: lit "  C".
Proof.
  intros Hcc. split; [|reflexivity].
  exists (logoSection logo ++ [nameParagraph (ResumeDocument.name data)]
          ++ summarySection data),
         (experienceSection data ++ educationSection data
          ++ leadershipSection data ++ skillsSection data),
         (bodyParagraph (Some (join competencyDelimiter (x :: rest)))).
  split; [|split; [reflexivity|]].
  - rewrite blocks_generateCV. unfold competenciesSection.
    rewrite Hcc. cbn [hasItems items length Z.of_nat Z.ltb Z.compare].
    now rewrite <- !app_assoc.
  - rewrite join_cons. unfold paragraphText; cbn. now rewrite app_nil_r.
Qed.

(** The competencies B, A, C of the full example document. *)
Lemma core_competencies_joined_in_order_witness :
  exists pre post body,
    blocks (generateCV None fullDocument)
    = pre ++ createSectionHeading (lit "Core Competencies") :: body :: post
    /\ body = bodyParagraph
                (Some (join competencyDelimiter [lit "B"; lit "A"; lit "C"]))
    /\ paragraphText body
       = lit "B"
         ++ flat_map (fun y => competencyDelimiter ++ y) [lit "A"; lit "C"].
Proof.
  apply (core_competencies_joined_in_order None fullDocument
           (x := lit "B") (rest := [lit "A"; lit "C"])).
  reflexivity.
Defined.

(* ------------------------------------------------------------------ *)
(** * Job entries and their bullets (C6, C8) *)

Lemma startsWithHeading_app (l1 l2 : list Paragraph) :
  startsWithHeading l1 -> startsWithHeading l2 ->
  startsWithHeading (l1 ++ l2).
Proof.
  destruct l1; intros H1 H2; [exact H2 | exact H1].
Qed.

(** What follows Professional Experience is empty or begins with the
    heading of the next section. *)
Lemma after_experience_startsWithHeading (data : ResumeDocument.t) :
  startsWithHeading
    (educationSection data ++ leadershipSection data ++ skillsSection data).
Proof.
  repeat apply startsWithHeading_app.
  - unfold educationSection. destruct (_ || _); [|exact I].
    now eexists.
  - unfold leadershipSection. destruct (hasItems _); [|exact I].
    now eexists.
  - unfold skillsSection.
    destruct (ResumeDocument.technicalSkills data); [|exact I].
    now eexists.
Qed.

(** The blocks of Professional Experience around one of its entries. *)
Lemma blocks_around_job (logo : option (list N)) (data : ResumeDocument.t)
    (pre post : list JobEntry.t) (job : JobEntry.t) :
  ResumeDocument.professionalExperience data = Some (pre ++ job :: post) ->
  blocks (generateCV logo data)
  = (logoSection logo ++ [nameParagraph (ResumeDocument.name data)]
     ++ summarySection data ++ competenciesSection data
     ++ createSectionHeading (lit "Professional Experience")
        :: flat_map jobBlocks pre)
    ++ jobBlocks job
    ++ flat_map jobBlocks post
    ++ educationSection data ++ leadershipSection data ++ skillsSection data.
Proof.
  intros Hpe. rewrite blocks_generateCV. unfold experienceSection.
  rewrite Hpe.
  replace (hasItems (Some (pre ++ job :: post))) with true
    by (symmetry; apply hasItems_true; cbn [items]; now destruct pre).
  cbn [items]. rewrite flat_map_app. cbn [flat_map].
  rewrite <- !app_assoc. cbn [app]. now rewrite <- !app_assoc.
Qed.

(** C6: a job entry whose [achievements] is empty or missing contributes
    its header paragraph and no bullet: the block after the header, if
    there is one, is the header of the next entry or, after the last
    entry, the heading of the next section. *)
Theorem job_without_achievements (logo : option (list N))
    (data : ResumeDocument.t) (pre post : list JobEntry.t)
    (job : JobEntry.t) :
  ResumeDocument.professionalExperience data = Some (pre ++ job :: post) ->
  items (JobEntry.achievements job) = [] ->
  jobBlocks job = [jobHeaderOf job]
  /\ exists start after,
       blocks (generateCV logo data)
       = (start ++ createSectionHeading (lit "Professional Experience")
                   :: flat_map jobBlocks pre)
         ++ jobHeaderOf job :: after
       /\ match after with
          | [] => post = []
          | p :: _ =>
              isBullet p = false
              /\ match post with
                 | next :: _ => p = jobHeaderOf next
                 | [] => exists h, p = createSectionHeading h
                 end
          end.
Proof.
  intros Hpe Hach.
  assert (Hjob : jobBlocks job = [jobHeaderOf job])
    by (unfold jobBlocks; now rewrite Hach).
  split; [exact Hjob|].
  exists (logoSection logo ++ [nameParagraph (ResumeDocument.name data)]
          ++ summarySection data ++ competenciesSection data),
         (flat_map jobBlocks post
          ++ educationSection data ++ leadershipSection data
          ++ skillsSection data).
  split.
  - rewrite (blocks_around_job logo data pre post job Hpe), Hjob.
    rewrite <- !app_assoc. reflexivity.
  - destruct post as [|next post']; cbn [flat_map app].
    + pose proof (after_experience_startsWithHeading data) as Hs.
      destruct (educationSection data ++ leadershipSection data
                ++ skillsSection data) as [|p rest]; [reflexivity|].
      cbn [startsWithHeading] in Hs. destruct Hs as [h ->].
      split; [reflexivity | now exists h].
    + unfold jobBlocks at 1. cbn [app]. split; reflexivity.
Qed.

(** The second job of the full example document has no achievements and
    is the last entry: a section heading comes right after its header. *)
Lemma job_without_achievements_witness :
  exists start after,
    blocks (generateCV None fullDocument)
    = (start ++ createSectionHeading (lit "Professional Experience")
                :: flat_map jobBlocks [twoBulletJob])
      ++ jobHeaderOf plainJob :: after
    /\ match after with
       | [] => @nil JobEntry.t = []
       | p :: _ => isBullet p = false
                   /\ exists h, p = createSectionHeading h
       end.
Proof.
  apply (job_without_achievements None fullDocument [twoBulletJob] []
           plainJob); reflexivity.
Defined.

Lemma length_bulletList (ref : jsstring) (l : list jsstring) :
  length (bulletList ref l) = length l.
Proof.
  induction l as [|a rest IH]; [reflexivity|].
  cbn [bulletList length]. now rewrite IH.
Qed.

Lemma text_bulletList (ref : jsstring) (l : list jsstring) :
  map paragraphText (bulletList ref l) = l.
Proof.
  induction l as [|a rest IH]; [reflexivity|].
  cbn [bulletList map]. rewrite IH. f_equal.
  unfold paragraphText; cbn. apply app_nil_r.
Qed.

Lemma reference_bulletList (ref : jsstring) (l : list jsstring) :
  Forall (fun b => numbering b = Some {| reference := ref; level := 0 |})
    (bulletList ref l).
Proof.
  induction l as [|a rest IH]; constructor; [reflexivity | exact IH].
Qed.

(** In a group of bullets only the final one lacks the hint. *)
Lemma hintExceptFinal_bulletList (ref : jsstring) (l : list jsstring) :
  hintExceptFinal (bulletList ref l).
Proof.
  unfold hintExceptFinal.
  induction l as [|a rest IH]; intros i b Hnth.
  - destruct i; discriminate.
  - cbn [bulletList length]. rewrite length_bulletList.
    destruct i as [|i'].
    + injection Hnth as <-. cbn [keepNext createBulletPoint].
      destruct rest; cbn [length]; split; intros H;
        try reflexivity; try discriminate; lia.
    + cbn [nth_error bulletList] in Hnth.
      rewrite (IH i' b Hnth), length_bulletList. lia.
Qed.

Lemma blocks_around_education (logo : option (list N))
    (data : ResumeDocument.t) (pre post : list EducationEntry.t)
    (edu : EducationEntry.t) :
  ResumeDocument.education data = Some (pre ++ edu :: post) ->
  blocks (generateCV logo data)
  = (logoSection logo ++ [nameParagraph (ResumeDocument.name data)]
     ++ summarySection data ++ competenciesSection data
     ++ experienceSection data
     ++ createSectionHeading (lit "Education & Certification")
        :: flat_map educationBlocks pre)
    ++ educationBlocks edu
    ++ flat_map educationBlocks post
    ++ map certificationParagraph
         (items (ResumeDocument.certifications data))
    ++ leadershipSection data ++ skillsSection data.
Proof.
  intros Hed. rewrite blocks_generateCV. unfold educationSection.
  rewrite Hed.
  replace (hasItems (Some (pre ++ edu :: post))) with true
    by (symmetry; apply hasItems_true; cbn [items]; now destruct pre).
  cbn [items orb]. rewrite flat_map_app. cbn [flat_map].
  rewrite <- !app_assoc. cbn [app]. now rewrite <- !app_assoc.
Qed.

(** C8 (as amended): every job header carries the keep-with-next hint;
    in the group of bullets under it, one per achievement and in their
    order, the hint is on every bullet except the final one; a degree
    title carries the hint and the institution line is the block right
    after it. *)
Theorem keep_with_next_hints (logo : option (list N))
    (data : ResumeDocument.t) :
  (forall pre job post,
     ResumeDocument.professionalExperience data = Some (pre ++ job :: post) ->
     exists start bullets after,
       blocks (generateCV logo data)
       = start ++ jobHeaderOf job :: bullets ++ after
       /\ keepNext (jobHeaderOf job) = true
       /\ map paragraphText bullets = items (JobEntry.achievements job)
       /\ Forall (fun b => isBullet b = true) bullets
       /\ hintExceptFinal bullets)
  /\ (forall pre edu post,
        ResumeDocument.education data = Some (pre ++ edu :: post) ->
        exists start after,
          blocks (generateCV logo data)
          = start ++ degreeParagraph edu :: institutionParagraph edu :: after
          /\ keepNext (degreeParagraph edu) = true).
Proof.
  split.
  - intros pre job post Hpe.
    exists (logoSection logo ++ [nameParagraph (ResumeDocument.name data)]
            ++ summarySection data ++ competenciesSection data
            ++ createSectionHeading (lit "Professional Experience")
               :: flat_map jobBlocks pre),
           (bulletList (lit "experience-bullets")
              (items (JobEntry.achievements job))),
           (flat_map jobBlocks post
            ++ educationSection data ++ leadershipSection data
            ++ skillsSection data).
    split; [|split; [reflexivity|split; [|split]]].
    + rewrite (blocks_around_job logo data pre post job Hpe).
      unfold jobBlocks at 2. cbn [app]. reflexivity.
    + apply text_bulletList.
    + eapply Forall_impl; [|apply reference_bulletList].
      intros b Hb. unfold isBullet. now rewrite Hb.
    + apply hintExceptFinal_bulletList.
  - intros pre edu post Hed.
    exists (logoSection logo ++ [nameParagraph (ResumeDocument.name data)]
            ++ summarySection data ++ competenciesSection data
            ++ experienceSection data
            ++ createSectionHeading (lit "Education & Certification")
               :: flat_map educationBlocks pre),
           ((if truthy (EducationEntry.details edu)
             then [educationDetailsParagraph edu] else [])
            ++ flat_map educationBlocks post
            ++ map certificationParagraph
                 (items (ResumeDocument.certifications data))
            ++ leadershipSection data ++ skillsSection data).
    split; [|reflexivity].
    rewrite (blocks_around_education logo data pre post edu Hed).
    unfold educationBlocks at 2. cbn [app]. reflexivity.
Qed.

(** The first job and the degree of the full example document. *)
Lemma keep_with_next_hints_witness :
  (exists start bullets after,
     blocks (generateCV None fullDocument)
     = start ++ jobHeaderOf twoBulletJob :: bullets ++ after
     /\ keepNext (jobHeaderOf twoBulletJob) = true
     /\ map paragraphText bullets = [lit "First"; lit "Second"]
     /\ Forall (fun b => isBullet b = true) bullets
     /\ hintExceptFinal bullets)
  /\ (exists start after,
        blocks (generateCV None fullDocument)
        = start ++ degreeParagraph bachelor
                :: institutionParagraph bachelor :: after
        /\ keepNext (degreeParagraph bachelor) = true).
Proof.
  split.
  - apply (proj1 (keep_with_next_hints None fullDocument)
             [] twoBulletJob [plainJob]).
    reflexivity.
  - apply (proj2 (keep_with_next_hints None fullDocument)
             [] bachelor []).
    reflexivity.
Defined.

(** C8 (as stated) fails: under a job with two achievements the script
    puts the hint on the first bullet, which is the one before the final
    one, and leaves it off the final one. *)
Lemma hint_is_on_bullet_before_final :
  pushAchievements (JobEntry.achievements twoBulletJob)
    (lit "experience-bullets") []
  = [ createBulletPoint (lit "First") (lit "experience-bullets") true;
      createBulletPoint (lit "Second") (lit "experience-bullets") false ]
  /\ ~ hintExceptBeforeFinal
         (pushAchievements (JobEntry.achievements twoBulletJob)
            (lit "experience-bullets") []).
Proof.
  split; [reflexivity|].
  intros H.
  specialize (H 0%nat
    (createBulletPoint (lit "First") (lit "experience-bullets") true)
    eq_refl).
  destruct H as [H _]. now apply H.
Qed.

(* ------------------------------------------------------------------ *)
(** * The output file name (C7) *)

Lemma alnum_small :
  forallb
    (fun n => Bool.eqb (Generator.alnum (N.of_nat n))
                (existsb (N.eqb (N.of_nat n)) alnumCharacters))
    (seq 0 123)
  = true.
Proof. vm_compute. reflexivity. Qed.

Lemma alnumCharacters_bound :
  forallb (fun k => (k <=? 122)%N) alnumCharacters = true.
Proof. vm_compute. reflexivity. Qed.

(** The three ranges of [alnum] are the letters and digits, no more and
    no less. *)
Lemma alnum_spec (c : N) :
  Generator.alnum c = true <-> In c alnumCharacters.
Proof.
  assert (Hex : existsb (N.eqb c) alnumCharacters = true
                <-> In c alnumCharacters).
  { rewrite existsb_exists. split.
    - intros [k [Hk E]]. apply N.eqb_eq in E. now subst k.
    - intros H. exists c. split; [exact H | apply N.eqb_refl]. }
  rewrite <- Hex. clear Hex.
  destruct (N.lt_ge_cases c 123) as [Hlt|Hge].
  - pose proof alnum_small as Hall.
    rewrite forallb_forall in Hall.
    specialize (Hall (N.to_nat c)).
    rewrite N2Nat.id in Hall.
    assert (Hin : In (N.to_nat c) (seq 0 123)) by (apply in_seq; lia).
    apply Hall, eqb_prop in Hin. now rewrite Hin.
  - assert (Ha : Generator.alnum c = false).
    { unfold Generator.alnum.
      replace (c <=? 122)%N with false by (symmetry; apply N.leb_gt; lia).
      replace (c <=? 90)%N with false by (symmetry; apply N.leb_gt; lia).
      replace (c <=? 57)%N with false by (symmetry; apply N.leb_gt; lia).
      now rewrite !andb_false_r. }
    rewrite Ha. split; [discriminate|].
    rewrite existsb_exists. intros [k [Hk E]].
    apply N.eqb_eq in E. subst k.
    pose proof alnumCharacters_bound as Hb.
    rewrite forallb_forall in Hb. apply Hb, N.leb_le in Hk. lia.
Qed.

Lemma lit_injective (a b : string) : lit a = lit b -> a = b.
Proof.
  unfold lit. intros H.
  rewrite <- (string_of_list_ascii_of_string a),
    <- (string_of_list_ascii_of_string b).
  f_equal. revert H.
  generalize (list_ascii_of_string a) (list_ascii_of_string b).
  induction l as [|x l IH]; intros [|y l'] H; try discriminate;
    [reflexivity|].
  cbn [map] in H. injection H as Hxy Hl. f_equal; [|now apply IH].
  rewrite <- (ascii_N_embedding x), <- (ascii_N_embedding y).
  now rewrite Hxy.
Qed.

Lemma to_uint_not_nil (n : N) : N.to_uint n <> Decimal.Nil.
Proof.
  intros H. pose proof (DecimalN.Unsigned.of_to n) as E.
  rewrite H in E. cbn in E. subst n. discriminate H.
Qed.

Lemma decimal_injective (n m : N) : decimal n = decimal m -> n = m.
Proof.
  unfold decimal. intros H. apply lit_injective in H.
  apply DecimalN.Unsigned.to_uint_inj.
  pose proof (NilZero.usu _ (to_uint_not_nil n)) as Hn.
  pose proof (NilZero.usu _ (to_uint_not_nil m)) as Hm.
  rewrite H in Hn. congruence.
Qed.

Lemma digits_string_of_uint (d : Decimal.uint) :
  Forall (fun c => (48 <= c <= 57)%N) (lit (NilEmpty.string_of_uint d)).
Proof.
  induction d; cbn [NilEmpty.string_of_uint];
    try (constructor; [cbn; lia | exact IHd]).
  constructor.
Qed.

Lemma digits_decimal (n : N) :
  Forall (fun c => (48 <= c <= 57)%N) (decimal n).
Proof.
  unfold decimal, NilZero.string_of_uint.
  destruct (N.to_uint n) eqn:E;
    try (rewrite <- E at 1; rewrite E; apply digits_string_of_uint).
  now apply to_uint_not_nil in E.
Qed.

(** C7: the file name the wrapper derives, hands to the script and
    resolves with is the candidate name with every code unit outside
    [A-Za-z0-9] replaced by an underscore and the others kept, followed
    by the marker [_CV_Aligned_], the uniqueness token and [.docx]; the
    name Jane O'Brien-Smith gives the base Jane_O_Brien_Smith.  The
    token is the clock reading of the generation in decimal: a
    non-empty string of digits that is another string for another
    reading.  The call can only end otherwise when the file system or
    the start of the script fails. *)
Theorem output_file_name (env : Env) (cvData : ResumeDocument.t)
    (name : jsstring) (fs : FS) :
  let fileName :=
    Generator.safeName name ++ lit "_CV_Aligned_" ++ decimal (now env)
    ++ lit ".docx" in
  match snd (Generator.generateCV env cvData (Some name) fs) with
  | inr path => path = fileName
  | inl _ =>
      writeFailure env (Generator.jsonPath (randomHex env)) <> None
      \/ spawnFailure env <> None
      \/ writeFailure env fileName <> None
  end
  /\ Generator.safeName name
     = map (fun c => if in_dec N.eq_dec c alnumCharacters then c else 95%N)
         name
  /\ length (Generator.safeName name) = length name
  /\ Generator.safeName (lit "Jane O'Brien-Smith") = lit "Jane_O_Brien_Smith"
  /\ decimal (now env) <> []
  /\ Forall (fun c => (48 <= c <= 57)%N) (decimal (now env))
  /\ (forall other : Env,
        decimal (now other) = decimal (now env) -> now other = now env).
Proof.
  cbv zeta. split; [|split; [|split; [apply length_map|split;
    [reflexivity|split; [|split; [apply digits_decimal|]]]]]].
  - rewrite generateCV_outcomes. cbv zeta.
    fold (Generator.outputPath name (now env)).
    destruct (writeFailure env (Generator.jsonPath (randomHex env)));
      [left; discriminate|].
    destruct (spawnFailure env); [right; left; discriminate|].
    destruct (writeFailure env (Generator.outputPath name (now env)));
      [right; right; discriminate | reflexivity].
  - unfold Generator.safeName. apply map_ext. intros c.
    destruct (in_dec N.eq_dec c alnumCharacters) as [Hin|Hout].
    + apply alnum_spec in Hin. now rewrite Hin.
    + destruct (Generator.alnum c) eqn:Ha; [|reflexivity].
      apply alnum_spec in Ha. contradiction.
  - unfold decimal, NilZero.string_of_uint.
    destruct (N.to_uint (now env)); discriminate.
  - intros other H. now apply decimal_injective.
Qed.

(* ------------------------------------------------------------------ *)
(** * Page header and footer (C9) *)


(* ------------------------------------------------------------------ *)
(** * Education before certifications (C10) *)

Lemma not_in_headings_before_education (logo : option (list N))
    (data : ResumeDocument.t) :
  ~ In (lit "EDUCATION & CERTIFICATION")
      (sectionHeadings
         (logoSection logo ++ [nameParagraph (ResumeDocument.name data)]
          ++ summarySection data ++ competenciesSection data
          ++ experienceSection data)).
Proof.
  rewrite !sectionHeadings_app, sectionHeadings_logo,
    sectionHeadings_summary, sectionHeadings_competencies,
    sectionHeadings_experience.
  rewrite !in_app_iff.
  destruct (truthy _), (hasItems (ResumeDocument.coreCompetencies data)),
    (hasItems (ResumeDocument.professionalExperience data));
    cbn [In sectionHeadings filter map isSectionHeading];
    intros H;
    repeat (destruct H as [H|H]; try discriminate H; try contradiction).
Qed.

Lemma not_in_headings_after_education (data : ResumeDocument.t) :
  ~ In (lit "EDUCATION & CERTIFICATION")
      (sectionHeadings (leadershipSection data ++ skillsSection data)).
Proof.
  rewrite sectionHeadings_app, sectionHeadings_leadership,
    sectionHeadings_skills, in_app_iff.
  destruct (hasItems _), (ResumeDocument.technicalSkills data);
    cbn [In]; intros H;
    repeat (destruct H as [H|H]; try discriminate H; try contradiction).
Qed.

(** C10: when [education] and [certifications] are both non-empty, the
    single EDUCATION & CERTIFICATION heading is followed by the blocks of
    the education entries, entry by entry in input order, then by one
    block per certification in input order; no section heading stands
    between them, and the heading occurs nowhere else. *)
Theorem education_before_certifications (logo : option (list N))
    (data : ResumeDocument.t) :
  items (ResumeDocument.education data) <> [] ->
  items (ResumeDocument.certifications data) <> [] ->
  exists start after,
    blocks (generateCV logo data)
    = start
      ++ createSectionHeading (lit "Education & Certification")
         :: flat_map educationBlocks (items (ResumeDocument.education data))
         ++ map certificationParagraph
              (items (ResumeDocument.certifications data))
         ++ after
    /\ sectionHeadings
         (flat_map educationBlocks (items (ResumeDocument.education data))
          ++ map certificationParagraph
               (items (ResumeDocument.certifications data))) = []
    /\ ~ In (lit "EDUCATION & CERTIFICATION") (sectionHeadings start)
    /\ ~ In (lit "EDUCATION & CERTIFICATION") (sectionHeadings after).
Proof.
  intros He Hc.
  exists (logoSection logo ++ [nameParagraph (ResumeDocument.name data)]
          ++ summarySection data ++ competenciesSection data
          ++ experienceSection data),
         (leadershipSection data ++ skillsSection data).
  split; [|split; [|split]].
  - rewrite blocks_generateCV. unfold educationSection.
    apply hasItems_true in He. rewrite He. cbn [orb].
    rewrite <- !app_assoc. cbn [app]. now rewrite <- !app_assoc.
  - rewrite sectionHeadings_app,
      (sectionHeadings_flat_map _ _ sectionHeadings_educationBlocks),
      sectionHeadings_certifications.
    reflexivity.
  - apply not_in_headings_before_education.
  - apply not_in_headings_after_education.
Qed.

(** The degree and the certification of the full example document. *)
Lemma education_before_certifications_witness :
  exists start after,
    blocks (generateCV None fullDocument)
    = start
      ++ createSectionHeading (lit "Education & Certification")
         :: flat_map educationBlocks [bachelor]
         ++ map certificationParagraph [cfa]
         ++ after
    /\ sectionHeadings
         (flat_map educationBlocks [bachelor]
          ++ map certificationParagraph [cfa]) = []
    /\ ~ In (lit "EDUCATION & CERTIFICATION") (sectionHeadings start)
    /\ ~ In (lit "EDUCATION & CERTIFICATION") (sectionHeadings after).
Proof.
  apply (education_before_certifications None fullDocument); discriminate.
Defined.

(* ------------------------------------------------------------------ *)
(** * alignCV: the code block around the JSON text *)

Lemma trimStart_whitespace (w s : jsstring) :
  forallb isWhiteSpace w = true -> trimStart (w ++ s) = trimStart s.
Proof.
  induction w as [|c w IH]; intros H; [reflexivity|].
  cbn [forallb] in H. apply andb_true_iff in H. destruct H as [Hc Hw].
  cbn [app trimStart]. rewrite Hc. now apply IH.
Qed.

Lemma trimStart_fixed (c : N) (s : jsstring) :
  isWhiteSpace c = false -> trimStart (c :: s) = c :: s.
Proof.
  intros H. cbn [trimStart]. now rewrite H.
Qed.

Lemma trimEnd_whitespace (w s : jsstring) :
  forallb isWhiteSpace w = true -> trimEnd (s ++ w) = trimEnd s.
Proof.
  intros H. unfold trimEnd. rewrite rev_app_distr, trimStart_whitespace;
    [reflexivity|].
  rewrite forallb_forall in *. intros x Hx. apply H. now apply in_rev.
Qed.

Lemma trimEnd_fixed (c : N) (s : jsstring) :
  isWhiteSpace c = false -> trimEnd (s ++ [c]) = s ++ [c].
Proof.
  intros H. unfold trimEnd. rewrite rev_app_distr. cbn [rev app].
  rewrite trimStart_fixed by exact H.
  cbn [rev]. now rewrite rev_involutive.
Qed.

(** What [trimStart] drops is whitespace and what it leaves does not
    begin with whitespace. *)
Lemma trimStart_split (s : jsstring) :
  exists w, s = w ++ trimStart s /\ forallb isWhiteSpace w = true
            /\ match trimStart s with
               | [] => True
               | c :: _ => isWhiteSpace c = false
               end.
Proof.
  induction s as [|c s IH].
  - exists []. repeat split.
  - cbn [trimStart]. destruct (isWhiteSpace c) eqn:Hc.
    + destruct IH as [w [E [Hw Hh]]]. exists (c :: w).
      cbn [app forallb]. rewrite Hc, <- E. repeat split; assumption.
    + exists []. repeat split. exact Hc.
Qed.

Lemma trimStart_idempotent (s : jsstring) :
  trimStart (trimStart s) = trimStart s.
Proof.
  destruct (trimStart_split s) as [w [_ [_ H]]].
  destruct (trimStart s) as [|c r]; [reflexivity|].
  now apply trimStart_fixed.
Qed.

Lemma trimStart_suffix (s t : jsstring) (c : N) :
  isWhiteSpace c = false ->
  trimStart (s ++ c :: t) = trimStart s ++ c :: t.
Proof.
  intros Hc. induction s as [|d s IH].
  - cbn [app]. now rewrite trimStart_fixed.
  - cbn [app trimStart]. destruct (isWhiteSpace d); [exact IH | reflexivity].
Qed.

(** [trim] leaves a string that neither begins nor ends with whitespace
    as it is. *)
Lemma trim_fixed (c d : N) (s : jsstring) :
  isWhiteSpace c = false -> isWhiteSpace d = false ->
  trim (c :: s ++ [d]) = c :: s ++ [d].
Proof.
  intros Hc Hd. unfold trim. rewrite trimStart_fixed by exact Hc.
  change (c :: s ++ [d]) with ((c :: s) ++ [d]).
  now apply trimEnd_fixed.
Qed.

Lemma trimEnd_idempotent (s : jsstring) : trimEnd (trimEnd s) = trimEnd s.
Proof.
  unfold trimEnd. now rewrite rev_involutive, trimStart_idempotent.
Qed.

(** What [trimEnd] drops is whitespace. *)
Lemma trimEnd_split (s : jsstring) :
  exists w, s = trimEnd s ++ w /\ forallb isWhiteSpace w = true.
Proof.
  destruct (trimStart_split (rev s)) as [w [E [Hw _]]].
  exists (rev w). split.
  - unfold trimEnd. rewrite <- rev_app_distr, <- E. now rewrite rev_involutive.
  - rewrite forallb_forall in *. intros x Hx. apply Hw. now apply in_rev.
Qed.

Lemma length_trimStart (s : jsstring) : length (trimStart s) <= length s.
Proof.
  induction s as [|c s IH]; [reflexivity|].
  cbn [trimStart]. destruct (isWhiteSpace c); cbn [length]; lia.
Qed.

Lemma trimStart_trimEnd_fixed (t : jsstring) :
  trimStart t = t -> trimStart (trimEnd t) = trimEnd t.
Proof.
  intros Ht. destruct (trimEnd_split t) as [w [E _]].
  destruct (trimEnd t) as [|c r]; [reflexivity|].
  apply trimStart_fixed.
  destruct (isWhiteSpace c) eqn:Hc; [|reflexivity].
  rewrite E in Ht. cbn [app trimStart] in Ht. rewrite Hc in Ht.
  pose proof (length_trimStart (r ++ w)) as Hl.
  rewrite Ht in Hl. cbn [length] in Hl. lia.
Qed.

Lemma trim_idempotent (s : jsstring) : trim (trim s) = trim s.
Proof.
  unfold trim.
  rewrite (trimStart_trimEnd_fixed (trimStart_idempotent s)).
  apply trimEnd_idempotent.
Qed.

Lemma startsWith_app (p s : jsstring) : startsWith (p ++ s) p = true.
Proof.
  induction p as [|c p IH]; [reflexivity|].
  cbn [app startsWith]. now rewrite N.eqb_refl.
Qed.

Lemma startsWith_spec (s p : jsstring) :
  startsWith s p = true <-> exists rest, s = p ++ rest.
Proof.
  split.
  - revert s. induction p as [|c p IH]; intros s H.
    + now exists s.
    + destruct s as [|d s]; [discriminate|].
      cbn [startsWith] in H. apply andb_true_iff in H. destruct H as [E H].
      apply N.eqb_eq in E. subst d.
      destruct (IH s H) as [rest ->]. now exists rest.
  - intros [rest ->]. apply startsWith_app.
Qed.

Lemma slice_from (p s : jsstring) :
  slice (p ++ s) (Z.of_nat (length p)) None = s.
Proof.
  unfold slice. cbv zeta. rewrite length_app.
  replace (Z.of_nat (length p) <? 0)%Z with false
    by (symmetry; apply Z.ltb_ge; lia).
  replace (Z.of_nat (length p + length s) <? 0)%Z with false
    by (symmetry; apply Z.ltb_ge; lia).
  replace (Z.to_nat (Z.min (Z.of_nat (length p))
                       (Z.of_nat (length p + length s))))
    with (length p) by lia.
  rewrite skipn_app, skipn_all, Nat.sub_diag. cbn [app skipn].
  apply firstn_all2. lia.
Qed.

Lemma slice_drop_end (s q : jsstring) (e : Z) :
  e = (- Z.of_nat (length q))%Z -> (e < 0)%Z ->
  slice (s ++ q) 0 (Some e) = s.
Proof.
  intros He Hk. unfold slice. cbv zeta. rewrite length_app.
  change (0 <? 0)%Z with false. cbv iota.
  replace (e <? 0)%Z with true by (symmetry; apply Z.ltb_lt; lia).
  replace (Z.to_nat (Z.min 0 (Z.of_nat (length s + length q))))
    with 0%nat by lia.
  cbn [skipn].
  match goal with
  | |- firstn ?n _ = _ => replace n with (length s) by lia
  end.
  rewrite firstn_app, firstn_all, Nat.sub_diag. cbn [firstn].
  apply app_nil_r.
Qed.

Lemma endsWith_app (s q : jsstring) : endsWith (s ++ q) q = true.
Proof.
  unfold endsWith. rewrite length_app.
  destruct (Nat.ltb_spec (length s + length q) (length q)); [lia|].
  replace (length s + length q - length q)%nat with (length s) by lia.
  rewrite skipn_app, skipn_all, Nat.sub_diag. cbn [app skipn].
  now apply jsstring_eqb_eq.
Qed.

Lemma endsWith_spec (s q : jsstring) :
  endsWith s q = true <-> exists front, s = front ++ q.
Proof.
  split.
  - unfold endsWith.
    destruct (Nat.ltb_spec (length s) (length q)); [discriminate|].
    intros E. apply jsstring_eqb_eq in E.
    remember (length s - length q)%nat as n.
    exists (firstn n s). rewrite <- E. symmetry. apply firstn_skipn.
  - intros [front ->]. apply endsWith_app.
Qed.

(** A text wrapped in an opening and a closing fence, with whitespace
    around, trims to the fenced text. *)
Lemma trim_fenced (w1 w2 opening body : jsstring) :
  forallb isWhiteSpace w1 = true -> forallb isWhiteSpace w2 = true ->
  trim (w1 ++ (fence ++ opening) ++ body ++ fence ++ w2)
  = (fence ++ opening) ++ body ++ fence.
Proof.
  intros H1 H2.
  replace (w1 ++ (fence ++ opening) ++ body ++ fence ++ w2)
    with (w1 ++ ((fence ++ opening) ++ body ++ fence) ++ w2)
    by (now rewrite <- !app_assoc).
  unfold trim. rewrite trimStart_whitespace by exact H1.
  unfold fence at 1. cbn [app]. rewrite trimStart_fixed by reflexivity.
  change (96%N :: 96%N :: 96%N :: ?x) with ([96%N; 96%N; 96%N] ++ x).
  rewrite !app_assoc. rewrite trimEnd_whitespace by exact H2.
  unfold fence. change [96; 96; 96]%N with ([96; 96]%N ++ [96%N]).
  rewrite !app_assoc. now rewrite trimEnd_fixed.
Qed.

Lemma startsWith_json_fence (body : jsstring) :
  startsWith (body ++ fence) (lit "json") = startsWith body (lit "json").
Proof.
  destruct body as [|a [|b [|c [|d body]]]]; cbn;
    rewrite ?andb_false_r; reflexivity.
Qed.

(** X1: a response of the form whitespace, three backticks and [json],
    a body, three backticks, whitespace is reduced to the trimmed body,
    whatever the body is. *)
Theorem removeCodeBlock_json_fence (w1 w2 body : jsstring) :
  forallb isWhiteSpace w1 = true -> forallb isWhiteSpace w2 = true ->
  removeCodeBlock (w1 ++ jsonFence ++ body ++ fence ++ w2) = trim body.
Proof.
  intros H1 H2. unfold removeCodeBlock, jsonFence.
  rewrite (@trim_fenced w1 w2 (lit "json") body H1 H2).
  rewrite startsWith_app.
  change 7%Z with (Z.of_nat (length (fence ++ lit "json"))).
  rewrite slice_from, endsWith_app.
  now rewrite (@slice_drop_end body fence (-3)%Z eq_refl eq_refl).
Qed.

(** A response in a json code block, with a newline on each side. *)
Lemma removeCodeBlock_json_fence_witness :
  removeCodeBlock
    ([10%N] ++ jsonFence ++ (10%N :: lit "{}" ++ [10%N]) ++ fence ++ [10%N])
  = trim (10%N :: lit "{}" ++ [10%N]).
Proof.
  apply (@removeCodeBlock_json_fence [10%N] [10%N]); reflexivity.
Defined.

(** X2: with a plain opening fence (the text after it does not begin
    with [json]) and a closing fence the result is again the trimmed
    body. *)
Theorem removeCodeBlock_plain_fence (w1 w2 body : jsstring) :
  forallb isWhiteSpace w1 = true -> forallb isWhiteSpace w2 = true ->
  startsWith body (lit "json") = false ->
  removeCodeBlock (w1 ++ fence ++ body ++ fence ++ w2) = trim body.
Proof.
  intros H1 H2 Hj. unfold removeCodeBlock.
  pose proof (@trim_fenced w1 w2 [] body H1 H2) as Ht.
  rewrite app_nil_r in Ht. rewrite Ht.
  assert (Hno : startsWith (fence ++ body ++ fence) jsonFence = false).
  { unfold jsonFence, fence at 1 3. cbn [app startsWith].
    rewrite !N.eqb_refl. cbn [andb].
    now rewrite startsWith_json_fence. }
  rewrite Hno, startsWith_app.
  change 3%Z with (Z.of_nat (length fence)).
  rewrite slice_from, endsWith_app.
  now rewrite (@slice_drop_end body fence (-3)%Z eq_refl eq_refl).
Qed.

Lemma removeCodeBlock_plain_fence_witness :
  removeCodeBlock ([] ++ fence ++ lit "{}" ++ fence ++ [32%N])
  = trim (lit "{}").
Proof.
  apply (@removeCodeBlock_plain_fence [] [32%N]); reflexivity.
Defined.

(** X3: a response that, once trimmed, neither begins nor ends with
    three backticks is only trimmed. *)
Theorem removeCodeBlock_without_fence (text : jsstring) :
  startsWith (trim text) fence = false ->
  endsWith (trim text) fence = false ->
  removeCodeBlock text = trim text.
Proof.
  intros Hs He. unfold removeCodeBlock.
  assert (Hj : startsWith (trim text) jsonFence = false).
  { destruct (startsWith (trim text) jsonFence) eqn:E; [|reflexivity].
    apply startsWith_spec in E. destruct E as [rest E].
    unfold jsonFence in E. rewrite <- app_assoc in E.
    assert (Hf : startsWith (trim text) fence = true)
      by (apply startsWith_spec; eauto).
    congruence. }
  rewrite Hj, Hs, He. apply trim_idempotent.
Qed.

Lemma removeCodeBlock_without_fence_witness :
  removeCodeBlock (lit "  {}  ") = trim (lit "  {}  ").
Proof.
  apply removeCodeBlock_without_fence; reflexivity.
Defined.

(* ------------------------------------------------------------------ *)
(** * alignCV: what it returns *)

Lemma alignCV_inr (cvData d : ResumeDocument.t) :
  alignCV cvData = inr d ->
  d = cvData
  /\ truthy (ResumeDocument.name d) = true
  /\ truthy (ResumeDocument.professionalSummary d) = true.
Proof.
  unfold alignCV, basicValidation.
  destruct (truthy (ResumeDocument.name cvData)) eqn:Hn;
    destruct (truthy (ResumeDocument.professionalSummary cvData)) eqn:Hs;
    cbn [negb orb]; intros H; try discriminate.
  injection H as <-. auto.
Qed.

(** X4: a document returned by alignCV has a non-empty [name] and a
    non-empty [professionalSummary], and it is what [JSON.parse] gave
    for the text of the first text block with its code block removed. *)
Theorem alignCVResponse_returns_validated
    (JSON_parse : jsstring -> Error + ResumeDocument.t)
    (content : option (list ContentBlock)) (d : ResumeDocument.t) :
  alignCVResponse JSON_parse content = inr d ->
  truthy (ResumeDocument.name d) = true
  /\ truthy (ResumeDocument.professionalSummary d) = true
  /\ exists blocks before textContent after,
       content = Some blocks
       /\ blocks = before ++ textContent :: after
       /\ forallb (fun b => negb (isTextBlock b)) before = true
       /\ isTextBlock textContent = true
       /\ JSON_parse (removeCodeBlock (blockText textContent)) = inr d.
Proof.
  unfold alignCVResponse. intros H.
  destruct content as [blocks|]; [|discriminate].
  destruct (find isTextBlock blocks) as [b|] eqn:Hf; [|discriminate].
  cbv zeta in H.
  destruct (JSON_parse (removeCodeBlock (blockText b))) as [e|cvData] eqn:Hp;
    [discriminate|].
  apply alignCV_inr in H. destruct H as [-> [Hn Hs]].
  split; [exact Hn|]. split; [exact Hs|].
  clear Hn Hs.
  assert (Hsplit : exists before after,
             blocks = before ++ b :: after
             /\ forallb (fun x => negb (isTextBlock x)) before = true
             /\ isTextBlock b = true).
  { clear Hp. induction blocks as [|x rest IH]; [discriminate|].
    cbn [find] in Hf. destruct (isTextBlock x) eqn:Hx.
    - injection Hf as ->. exists [], rest. now repeat split.
    - destruct (IH Hf) as [before [after [E [Hb Ht]]]].
      exists (x :: before), after. cbn [app forallb].
      rewrite Hx, E. now repeat split. }
  destruct Hsplit as [before [after [E [Hb Ht]]]].
  exists blocks, before, b, after. now repeat split.
Qed.

Lemma alignCVResponse_returns_validated_witness :
  truthy (ResumeDocument.name fullDocument) = true
  /\ truthy (ResumeDocument.professionalSummary fullDocument) = true.
Proof.
  pose proof (@alignCVResponse_returns_validated
                (fun _ => inr fullDocument)
                (Some [mkBlock (Some (lit "text")) (lit "{}")])
                fullDocument eq_refl) as H.
  split; apply H.
Defined.

(** X5: the two copies of alignCV accept the same responses and return
    the same document; they differ only in the message of an error
    raised after the text block was found, which lib/aligner.js prefixes
    with [Failed to parse Claude response as JSON: ]. *)
Theorem alignCV_copies_agree
    (JSON_parse : jsstring -> Error + ResumeDocument.t)
    (content : option (list ContentBlock)) :
  match apiAlignCVResponse JSON_parse content with
  | inr d => alignCVResponse JSON_parse content = inr d
  | inl e =>
      alignCVResponse JSON_parse content
      = inl (match content with
             | Some blocks =>
                 if existsb isTextBlock blocks
                 then mkError
                        (lit "Failed to parse Claude response as JSON: "
                         ++ message e)
                 else e
             | None => e
             end)
  end.
Proof.
  unfold apiAlignCVResponse, alignCVResponse.
  destruct content as [blocks|]; [|reflexivity].
  destruct (find isTextBlock blocks) as [b|] eqn:Hf.
  - assert (He : existsb isTextBlock blocks = true).
    { apply find_some in Hf. apply existsb_exists. now exists b. }
    rewrite He. cbv zeta.
    destruct (JSON_parse (removeCodeBlock (blockText b))) as [e|cvData];
      [reflexivity|].
    unfold alignCV. now destruct (basicValidation cvData).
  - assert (He : existsb isTextBlock blocks = false).
    { destruct (existsb isTextBlock blocks) eqn:E; [|reflexivity].
      apply existsb_exists in E. destruct E as [x [Hx Ht]].
      pose proof (find_none _ _ Hf x Hx). congruence. }
    now rewrite He.
Qed.

(* ------------------------------------------------------------------ *)
(** * The wrapper: file names and the output directory *)

Lemma N_eqb_false_of_range (c k lo hi : N) :
  (lo <= c <= hi)%N -> (k < lo \/ hi < k)%N -> (c =? k)%N = false.
Proof.
  intros Hc Hk. apply N.eqb_neq. lia.
Qed.

Lemma safeName_units (name : jsstring) :
  Forall (fun c => Generator.alnum c = true \/ c = 95%N)
    (Generator.safeName name).
Proof.
  unfold Generator.safeName. apply Forall_forall. intros c Hc.
  apply in_map_iff in Hc. destruct Hc as [x [<- _]].
  destruct (Generator.alnum x) eqn:Hx; auto.
Qed.

(** X6: the base of the output file name holds nothing but letters,
    digits and underscores, so sanitising it again changes nothing; the
    whole file name has no slash and no backslash, and its only dot is
    the one of [.docx]. *)
Theorem output_file_name_is_plain (name : jsstring) (timestamp : N) :
  Forall (fun c => In c alnumCharacters \/ c = 95%N)
    (Generator.safeName name)
  /\ Generator.safeName (Generator.safeName name) = Generator.safeName name
  /\ ~ In 47%N (Generator.outputPath name timestamp)
  /\ ~ In 92%N (Generator.outputPath name timestamp)
  /\ count_occ N.eq_dec (Generator.outputPath name timestamp) 46%N = 1%nat.
Proof.
  pose proof (safeName_units name) as Hs.
  pose proof (digits_decimal timestamp) as Hd.
  rewrite Forall_forall in Hs, Hd.
  assert (Hsafe : forall c, In c (Generator.safeName name) ->
                    c <> 47%N /\ c <> 92%N /\ c <> 46%N).
  { intros c Hc. destruct (Hs c Hc) as [Ha| ->];
      [|repeat split; discriminate].
    repeat split; intros ->; discriminate Ha. }
  assert (Hdigit : forall c, In c (decimal timestamp) ->
                     c <> 47%N /\ c <> 92%N /\ c <> 46%N).
  { intros c Hc. specialize (Hd c Hc). lia. }
  split; [|split; [|split; [|split]]].
  - apply Forall_forall. intros c Hc.
    destruct (Hs c Hc) as [Ha|E]; [left; now apply alnum_spec | now right].
  - unfold Generator.safeName at 1. rewrite <- (map_id (Generator.safeName name)) at 2.
    apply map_ext_in. intros c Hc.
    destruct (Hs c Hc) as [Ha| ->]; [now rewrite Ha | reflexivity].
  - unfold Generator.outputPath. rewrite !in_app_iff.
    intros [H|[H|[H|H]]].
    + now apply Hsafe in H.
    + cbn in H. repeat (destruct H as [H|H]; [discriminate H|]). exact H.
    + now apply Hdigit in H.
    + cbn in H. repeat (destruct H as [H|H]; [discriminate H|]). exact H.
  - unfold Generator.outputPath. rewrite !in_app_iff.
    intros [H|[H|[H|H]]].
    + now apply Hsafe in H.
    + cbn in H. repeat (destruct H as [H|H]; [discriminate H|]). exact H.
    + now apply Hdigit in H.
    + cbn in H. repeat (destruct H as [H|H]; [discriminate H|]). exact H.
  - unfold Generator.outputPath. rewrite !count_occ_app.
    assert (H1 : count_occ N.eq_dec (Generator.safeName name) 46%N = 0%nat).
    { apply count_occ_not_In. intros H. now apply Hsafe in H. }
    assert (H2 : count_occ N.eq_dec (decimal timestamp) 46%N = 0%nat).
    { apply count_occ_not_In. intros H. now apply Hdigit in H. }
    rewrite H1, H2. reflexivity.
Qed.

(** X7: two generations for the same candidate name are given the same
    output path only when the clock readings are the same, and two
    temporary JSON files the same path only when the random tokens
    are. *)
Theorem paths_distinguished_by_tokens (name : jsstring) (t1 t2 : N)
    (h1 h2 : jsstring) :
  (Generator.outputPath name t1 = Generator.outputPath name t2 -> t1 = t2)
  /\ (Generator.jsonPath h1 = Generator.jsonPath h2 -> h1 = h2).
Proof.
  split; intros H.
  - unfold Generator.outputPath in H.
    apply app_inv_head in H. apply app_inv_head in H.
    apply app_inv_tail in H. now apply decimal_injective.
  - unfold Generator.jsonPath in H.
    apply app_inv_head in H. now apply app_inv_tail in H.
Qed.

Lemma paths_distinguished_by_tokens_witness :
  Generator.outputPath (lit "A") 1 <> Generator.outputPath (lit "A") 2.
Proof.
  intros H.
  apply (proj1 (paths_distinguished_by_tokens (lit "A") 1 2 [] [])) in H.
  discriminate H.
Defined.

Lemma in_cleanUp_json (env : Env) (path : jsstring) (f g : File)
    (fs : FS) :
  (forall h, In (path, h) fs <-> h = g) ->
  (In (path, f) (Generator.cleanUp env path fs)
   <-> unlinkFailure env path = true /\ f = g).
Proof.
  intros H. unfold Generator.cleanUp. destruct (unlinkFailure env path).
  - rewrite H. tauto.
  - rewrite in_unlinkSync. split; [tauto | intros [E _]; discriminate E].
Qed.

(** X8: the wrapper resolves exactly when neither the file system nor
    the start of the script fails.  When it resolves, the output path
    holds the composed document and nothing else, and every file under
    another path than that of the temporary JSON file is as it was.
    When it rejects, no document has been written: every file under
    another path than that of the JSON file is as it was, and the
    directory is untouched when it is the JSON file that could not be
    written.  Once the JSON file has been written, nothing is left under
    its path afterwards, unless its removal fails: then it stays. *)
Theorem generator_leaves_only_the_document (env : Env)
    (cvData : ResumeDocument.t) (candidateName : option jsstring) (fs : FS) :
  let name :=
    match candidateName with
    | Some n => n
    | None => lit "Candidate"
    end in
  let jsonPath := Generator.jsonPath (randomHex env) in
  let outputPath := Generator.outputPath name (now env) in
  let fs' := fst (Generator.generateCV env cvData candidateName fs) in
  match snd (Generator.generateCV env cvData candidateName fs) with
  | inr path =>
      path = outputPath
      /\ writeFailure env jsonPath = None
      /\ spawnFailure env = None
      /\ writeFailure env outputPath = None
      /\ (forall f, In (outputPath, f) fs'
                    <-> f = DocxFile (generateCV (logoAsset env) cvData))
      /\ (forall p f,
            p <> jsonPath -> p <> outputPath ->
            (In (p, f) fs' <-> In (p, f) fs))
  | inl _ =>
      (writeFailure env jsonPath <> None
       \/ spawnFailure env <> None
       \/ writeFailure env outputPath <> None)
      /\ (writeFailure env jsonPath <> None -> fs' = fs)
      /\ (forall p f, p <> jsonPath -> (In (p, f) fs' <-> In (p, f) fs))
  end
  /\ (writeFailure env jsonPath = None ->
      forall f,
        In (jsonPath, f) fs'
        <-> unlinkFailure env jsonPath = true /\ f = JsonFile cvData).
Proof.
  cbv zeta. rewrite generateCV_outcomes. cbv zeta.
  set (name := match candidateName with
               | Some n => n
               | None => lit "Candidate"
               end).
  set (jsonPath := Generator.jsonPath (randomHex env)).
  set (outputPath := Generator.outputPath name (now env)).
  assert (Hne : outputPath <> jsonPath) by apply outputPath_not_jsonPath.
  assert (Hjson : forall h,
            In (jsonPath, h) (writeFileSync jsonPath (JsonFile cvData) fs)
            <-> h = JsonFile cvData).
  { intros h. rewrite in_writeFileSync. split; [|now left].
    intros [[_ H]|[_ H]]; [exact H | contradiction]. }
  destruct (writeFailure env jsonPath) as [e1|] eqn:E1.
  { cbn [fst snd]. split; [|discriminate].
    split; [left; discriminate|]. split; reflexivity. }
  destruct (spawnFailure env) as [msg|] eqn:E2.
  { cbn [fst snd]. split.
    - split; [right; left; discriminate|]. split; [congruence|].
      intros p f Hp.
      rewrite (in_cleanUp_other env f _ Hp), in_writeFileSync. tauto.
    - intros _ f. now apply in_cleanUp_json. }
  destruct (writeFailure env outputPath) as [e2|] eqn:E3.
  { cbn [fst snd]. split.
    - split; [right; right; discriminate|]. split; [congruence|].
      intros p f Hp.
      rewrite (in_cleanUp_other env f _ Hp), in_writeFileSync. tauto.
    - intros _ f. now apply in_cleanUp_json. }
  cbn [fst snd]. split.
  - split; [reflexivity|]. do 3 (split; [reflexivity|]). split.
    + intros f.
      rewrite (in_cleanUp_other env f _ Hne), in_writeFileSync. split.
      * intros [[_ H]|[_ H]]; [exact H | contradiction].
      * intros ->. now left.
    + intros p f Hj Ho.
      rewrite (in_cleanUp_other env f _ Hj), !in_writeFileSync. tauto.
  - intros _ f. apply in_cleanUp_json. intros h.
    rewrite in_writeFileSync, Hjson. split.
    + intros [[H _]|[H _]]; [|exact H].
      symmetry in H. contradiction.
    + intros ->. right. split; [reflexivity|]. intros H. now apply Hne.
Qed.

(* ------------------------------------------------------------------ *)
(** * cleanupOldFiles *)

Lemma filter_all {A : Type} (p : A -> bool) (l : list A) :
  (forall x, In x l -> p x = true) -> filter p l = l.
Proof.
  induction l as [|x l IH]; intros H; [reflexivity|].
  cbn [filter]. rewrite (H x (or_introl eq_refl)). f_equal.
  apply IH. intros y Hy. apply H. now right.
Qed.

(** Removing a name from a listing without repeated names removes its
    one entry. *)
Lemma unlinkListed_entry (pre post : Listing) (file : jsstring)
    (m : QArith_base.Q) :
  NoDup (map fst (pre ++ (file, m) :: post)) ->
  unlinkListed file (pre ++ (file, m) :: post) = pre ++ post.
Proof.
  intros Hnd. rewrite map_app in Hnd. cbn [map fst] in Hnd.
  pose proof (NoDup_remove_2 _ _ _ Hnd) as Hnot.
  unfold unlinkListed. rewrite filter_app. cbn [filter fst].
  replace (jsstring_eqb file file) with true
    by (symmetry; now apply jsstring_eqb_eq).
  cbn [negb]. f_equal; apply filter_all; intros [n q] Hx; cbn [fst];
    destruct (jsstring_eqb n file) eqn:E; try reflexivity;
    apply jsstring_eqb_eq in E; subst n; exfalso; apply Hnot;
    apply in_or_app; [left | right];
    apply in_map_iff; exists (file, q); auto.
Qed.

(** The lines the loop logs: one per file older than an hour. *)
Lemma cleanup_fold (unlinkThrows : jsstring -> bool) (dateNow : Z)
    (todo : Listing) :
  forall (pre : Listing) (log : list LogLine),
    NoDup (map fst (pre ++ todo)) ->
    fold_left (cleanupStep unlinkThrows (dateNow - 3600000))
      todo (pre ++ todo, log)
    = (pre ++ filter (kept unlinkThrows dateNow) todo,
       log ++ flat_map
                (fun f =>
                   if olderThan (dateNow - 3600000) (snd f)
                   then [if unlinkThrows (fst f)
                         then CleanupFailed (fst f)
                         else CleanedUp (fst f)]
                   else []) todo).
Proof.
  induction todo as [|[file m] todo IH]; intros pre log Hnd.
  - cbn [fold_left flat_map filter]. now rewrite !app_nil_r.
  - cbn [fold_left flat_map filter]. unfold cleanupStep at 2, kept at 1.
    cbn [fst snd].
    destruct (olderThan (dateNow - 3600000) m) eqn:Hold;
      [destruct (unlinkThrows file) eqn:Hthrow|]; cbn [negb orb].
    + replace (pre ++ (file, m) :: todo) with ((pre ++ [(file, m)]) ++ todo)
        by (now rewrite <- app_assoc).
      rewrite IH by (now rewrite <- app_assoc).
      now rewrite <- !app_assoc.
    + rewrite (unlinkListed_entry _ _ _ _ Hnd).
      rewrite IH.
      * now rewrite <- !app_assoc.
      * rewrite map_app in *. cbn [map] in Hnd.
        now apply NoDup_remove_1 in Hnd.
    + replace (pre ++ (file, m) :: todo) with ((pre ++ [(file, m)]) ++ todo)
        by (now rewrite <- app_assoc).
      rewrite IH by (now rewrite <- app_assoc).
      rewrite <- ?app_assoc. reflexivity.
Qed.

(** X9: on a directory (no two files of the same name) cleanupOldFiles
    removes exactly the files whose modification time is more than one
    hour before the clock reading and whose removal does not throw; the
    other files stay, in their order and with their times, and a second
    run at the same clock reading removes nothing more.  It logs one
    line per file older than an hour, in directory order. *)
Theorem cleanupOldFiles_removes_old_files (unlinkThrows : jsstring -> bool)
    (dateNow : Z) (dir : Listing) :
  NoDup (map fst dir) ->
  let result := cleanupOldFiles unlinkThrows dateNow (Some dir) in
  fst result = Some (filter (kept unlinkThrows dateNow) dir)
  /\ snd result
     = flat_map
         (fun f =>
            if olderThan (dateNow - 3600000) (snd f)
            then [if unlinkThrows (fst f)
                  then CleanupFailed (fst f) else CleanedUp (fst f)]
            else []) dir
  /\ (forall f, In f dir ->
        olderThan (dateNow - 3600000) (snd f) = false ->
        exists dir', fst result = Some dir' /\ In f dir')
  /\ fst (cleanupOldFiles unlinkThrows dateNow (fst result)) = fst result.
Proof.
  intros Hnd.
  assert (Hrun : forall d : Listing, NoDup (map fst d) ->
            cleanupOldFiles unlinkThrows dateNow (Some d)
            = (Some (filter (kept unlinkThrows dateNow) d),
               flat_map
                 (fun f =>
                    if olderThan (dateNow - 3600000) (snd f)
                    then [if unlinkThrows (fst f)
                          then CleanupFailed (fst f) else CleanedUp (fst f)]
                    else []) d)).
  { intros d Hd. unfold cleanupOldFiles. cbv zeta.
    change (60 * 60 * 1000)%Z with 3600000%Z.
    pose proof (@cleanup_fold unlinkThrows dateNow d [] [] Hd) as H.
    rewrite !app_nil_l in H.
    match goal with
    | |- (let (_, _) := ?x in _) = _ =>
        set (run := x); assert (Hrun : run = _) by exact H
    end.
    now rewrite Hrun. }
  cbv zeta. rewrite (Hrun dir Hnd). cbn [fst snd].
  split; [reflexivity|]. split; [reflexivity|]. split.
  - intros f Hin Hrecent. eexists. split; [reflexivity|].
    apply filter_In. split; [exact Hin|].
    unfold kept. now rewrite Hrecent.
  - rewrite Hrun.
    + cbn [fst]. f_equal. apply filter_all.
      intros x Hx. now apply filter_In in Hx.
    + clear Hrun. induction dir as [|x dir IH]; [constructor|].
      cbn [map] in Hnd. inversion Hnd as [|? ? Hx Hrest]; subst.
      cbn [filter]. destruct (kept unlinkThrows dateNow x).
      * cbn [map]. constructor; [|now apply IH].
        intros Hin. apply Hx. apply in_map_iff in Hin.
        destruct Hin as [y [Ey Hy]]. apply filter_In in Hy.
        apply in_map_iff. exists y. tauto.
      * now apply IH.
Qed.

(** A directory with a document of two hours ago and one of a minute
    ago, the clock at 10000000. *)
Lemma cleanupOldFiles_removes_old_files_witness :
  fst (cleanupOldFiles (fun _ => false) 10000000
         (Some [ (lit "old.docx", QArith_base.inject_Z 2800000);
                 (lit "new.docx", QArith_base.inject_Z 9940000) ]))
  = Some [ (lit "new.docx", QArith_base.inject_Z 9940000) ].
Proof.
  refine (proj1 (@cleanupOldFiles_removes_old_files (fun _ => false) 10000000
                   [ (lit "old.docx", QArith_base.inject_Z 2800000);
                     (lit "new.docx", QArith_base.inject_Z 9940000) ] _)).
  repeat constructor; cbn; intuition discriminate.
Defined.

(* ------------------------------------------------------------------ *)
(** * The browser composer *)

Lemma forOf_flat_map {A : Type} (l : list A)
    (body : list ClientParagraph -> A -> list ClientParagraph)
    (f : A -> list ClientParagraph) :
  (forall acc x, body acc x = acc ++ f x) ->
  forall acc, Client.forOf l body acc = acc ++ flat_map f l.
Proof.
  intros H. unfold Client.forOf.
  induction l as [|x l IH]; intros acc; cbn [fold_left flat_map].
  - now rewrite app_nil_r.
  - now rewrite IH, H, <- app_assoc.
Qed.

Lemma client_pushBullets (ach : option (list jsstring))
    (acc : list ClientParagraph) :
  Client.pushBullets ach acc = acc ++ map Client.createBullet (items ach).
Proof.
  unfold Client.pushBullets.
  rewrite (forOf_flat_map _ _ (fun a => [Client.createBullet a]))
    by reflexivity.
  now rewrite flat_map_singleton.
Qed.

(** The block list of the browser composer, section by section. *)
Lemma client_buildChildren (cvData : ResumeDocument.t) :
  Client.buildChildren cvData
  = [ Client.nameParagraph cvData;
      Client.createSectionHeading (lit "Professional Summary");
      Client.plain
        [ Client.calibriRun (ResumeDocument.professionalSummary cvData)
            false false 20 None ] 80 120 ]
    ++ (if hasItems (ResumeDocument.coreCompetencies cvData)
        then [ Client.createSectionHeading (lit "Core Competencies");
               Client.plain
                 [ Client.calibriRun
                     (Some (join Client.competencyDelimiter
                              (items (ResumeDocument.coreCompetencies
                                        cvData))))
                     false false 20 None ] 80 120 ]
        else [])
    ++ (if hasItems (ResumeDocument.professionalExperience cvData)
        then Client.createSectionHeading (lit "Professional Experience")
             :: flat_map clientJobBlocks
                  (items (ResumeDocument.professionalExperience cvData))
        else [])
    ++ (if hasItems (ResumeDocument.education cvData)
        then Client.createSectionHeading (lit "Education & Certification")
             :: flat_map clientEducationBlocks
                  (items (ResumeDocument.education cvData))
        else [])
    ++ map Client.certificationParagraph
         (items (ResumeDocument.certifications cvData))
    ++ (if hasItems (ResumeDocument.leadership cvData)
        then Client.createSectionHeading (lit "Leadership")
             :: flat_map clientLeadershipBlocks
                  (items (ResumeDocument.leadership cvData))
        else [])
    ++ clientSkillsBlocks cvData.
Proof.
  unfold Client.buildChildren, clientSkillsBlocks.
  rewrite ?(forOf_flat_map _ _ clientJobBlocks)
    by (intros acc job; rewrite client_pushBullets;
        unfold Client.push, clientJobBlocks; now rewrite <- app_assoc).
  rewrite ?(forOf_flat_map _ _ clientEducationBlocks)
    by (intros acc edu; unfold clientEducationBlocks, Client.push;
        destruct (truthy _); now rewrite <- !app_assoc).
  rewrite ?(forOf_flat_map _ _ (fun c => [Client.certificationParagraph c]))
    by reflexivity.
  rewrite ?(forOf_flat_map _ _ clientLeadershipBlocks)
    by (intros acc lead; rewrite client_pushBullets;
        unfold Client.push, clientLeadershipBlocks;
        now rewrite <- app_assoc).
  rewrite ?flat_map_singleton. unfold Client.push.
  destruct (hasItems (ResumeDocument.coreCompetencies cvData));
    destruct (hasItems (ResumeDocument.professionalExperience cvData));
    destruct (hasItems (ResumeDocument.education cvData));
    destruct (hasItems (ResumeDocument.certifications cvData)) eqn:Hc;
    destruct (hasItems (ResumeDocument.leadership cvData));
    try rewrite (hasItems_false _ Hc);
    destruct (ResumeDocument.technicalSkills cvData) as [ts|];
    try (destruct (truthy (TechnicalSkills.technical ts));
         destruct (truthy (TechnicalSkills.languages ts)));
    cbn [map app]; rewrite <- ?app_assoc; cbn [app];
    rewrite ?app_nil_r; reflexivity.
Qed.

Lemma client_sectionHeadings_app (l1 l2 : list ClientParagraph) :
  Client.sectionHeadings (l1 ++ l2)
  = Client.sectionHeadings l1 ++ Client.sectionHeadings l2.
Proof.
  unfold Client.sectionHeadings. now rewrite filter_app, map_app.
Qed.

Lemma client_sectionHeadings_flat_map {A : Type}
    (f : A -> list ClientParagraph) (l : list A) :
  (forall x, Client.sectionHeadings (f x) = []) ->
  Client.sectionHeadings (flat_map f l) = [].
Proof.
  intros H. induction l as [|x rest IH]; [reflexivity|].
  cbn [flat_map]. now rewrite client_sectionHeadings_app, H, IH.
Qed.

Lemma client_sectionHeadings_map {A : Type} (f : A -> ClientParagraph)
    (l : list A) :
  (forall x, Client.isSectionHeading (f x) = false) ->
  Client.sectionHeadings (map f l) = [].
Proof.
  intros H. unfold Client.sectionHeadings.
  induction l as [|x rest IH]; [reflexivity|].
  cbn [map filter]. now rewrite H.
Qed.

Lemma client_sectionHeadings_job (job : JobEntry.t) :
  Client.sectionHeadings (clientJobBlocks job) = [].
Proof.
  unfold clientJobBlocks.
  change (?h :: map ?f ?l) with ([h] ++ map f l).
  rewrite client_sectionHeadings_app, client_sectionHeadings_map;
    reflexivity.
Qed.

Lemma client_sectionHeadings_leadership (lead : LeadershipEntry.t) :
  Client.sectionHeadings (clientLeadershipBlocks lead) = [].
Proof.
  unfold clientLeadershipBlocks.
  change (?h :: map ?f ?l) with ([h] ++ map f l).
  rewrite client_sectionHeadings_app, client_sectionHeadings_map;
    reflexivity.
Qed.

Lemma client_sectionHeadings_education (edu : EducationEntry.t) :
  Client.sectionHeadings (clientEducationBlocks edu) = [].
Proof.
  unfold clientEducationBlocks. now destruct (truthy _).
Qed.

(** The headings the browser composer shows, in order. *)
Lemma client_sectionHeadings (cvData : ResumeDocument.t) :
  Client.sectionHeadings (Client.buildChildren cvData)
  = [lit "PROFESSIONAL SUMMARY"]
    ++ (if hasItems (ResumeDocument.coreCompetencies cvData)
        then [lit "CORE COMPETENCIES"] else [])
    ++ (if hasItems (ResumeDocument.professionalExperience cvData)
        then [lit "PROFESSIONAL EXPERIENCE"] else [])
    ++ (if hasItems (ResumeDocument.education cvData)
        then [lit "EDUCATION & CERTIFICATION"] else [])
    ++ (if hasItems (ResumeDocument.leadership cvData)
        then [lit "LEADERSHIP"] else [])
    ++ (match ResumeDocument.technicalSkills cvData with
        | Some _ => [lit "TECHNICAL SKILLS & LANGUAGES"]
        | None => []
        end).
Proof.
  rewrite client_buildChildren, !client_sectionHeadings_app.
  rewrite (client_sectionHeadings_map Client.certificationParagraph)
    by reflexivity.
  f_equal. f_equal; [now destruct (hasItems _)|].
  f_equal.
  { destruct (hasItems _); [|reflexivity].
    change (?h :: flat_map ?f ?l) with ([h] ++ flat_map f l).
    now rewrite client_sectionHeadings_app,
      (client_sectionHeadings_flat_map _ _ client_sectionHeadings_job). }
  f_equal.
  { destruct (hasItems _); [|reflexivity].
    change (?h :: flat_map ?f ?l) with ([h] ++ flat_map f l).
    now rewrite client_sectionHeadings_app,
      (client_sectionHeadings_flat_map _ _
         client_sectionHeadings_education). }
  cbn [app]. f_equal.
  { destruct (hasItems _); [|reflexivity].
    change (?h :: flat_map ?f ?l) with ([h] ++ flat_map f l).
    now rewrite client_sectionHeadings_app,
      (client_sectionHeadings_flat_map _ _
         client_sectionHeadings_leadership). }
  unfold clientSkillsBlocks.
  destruct (ResumeDocument.technicalSkills cvData) as [ts|]; [|reflexivity].
  now destruct (truthy (TechnicalSkills.technical ts)),
    (truthy (TechnicalSkills.languages ts)).
Qed.

(** X10: for a document with a non-empty [professionalSummary] and with
    [education] non-empty or [certifications] empty, the composer in the
    browser and the script on the server show the same section headings
    in the same order. *)
Theorem composers_show_same_headings (logo : option (list N))
    (cvData : ResumeDocument.t) :
  truthy (ResumeDocument.professionalSummary cvData) = true ->
  items (ResumeDocument.education cvData) <> []
  \/ items (ResumeDocument.certifications cvData) = [] ->
  Client.sectionHeadings (Client.buildChildren cvData)
  = sectionHeadings (blocks (generateCV logo cvData)).
Proof.
  intros Hs He.
  rewrite client_sectionHeadings, sectionHeadings_generateCV, Hs.
  do 3 f_equal.
  destruct (hasItems (ResumeDocument.education cvData)) eqn:Hedu;
    [reflexivity|].
  destruct He as [He|He].
  - apply hasItems_true in He. congruence.
  - cbn [orb].
    destruct (hasItems (ResumeDocument.certifications cvData)) eqn:Hc;
      [|reflexivity].
    apply hasItems_true in Hc. contradiction.
Qed.

Lemma composers_show_same_headings_witness :
  Client.sectionHeadings (Client.buildChildren fullDocument)
  = sectionHeadings (blocks (generateCV None fullDocument)).
Proof.
  apply composers_show_same_headings; [reflexivity | left; discriminate].
Defined.

(** X11: with certifications and no education the browser composer
    emits the certification paragraphs without the EDUCATION &
    CERTIFICATION heading, which the script does show for the same
    document. *)
Theorem client_certifications_without_heading (logo : option (list N))
    (cvData : ResumeDocument.t) :
  items (ResumeDocument.education cvData) = [] ->
  items (ResumeDocument.certifications cvData) <> [] ->
  ~ In (lit "EDUCATION & CERTIFICATION")
      (Client.sectionHeadings (Client.buildChildren cvData))
  /\ (forall cert,
        In cert (items (ResumeDocument.certifications cvData)) ->
        In (Client.certificationParagraph cert)
           (Client.buildChildren cvData))
  /\ In (lit "EDUCATION & CERTIFICATION")
        (sectionHeadings (blocks (generateCV logo cvData))).
Proof.
  intros He Hc.
  assert (Hedu : hasItems (ResumeDocument.education cvData) = false).
  { destruct (hasItems (ResumeDocument.education cvData)) eqn:E;
      [|reflexivity].
    apply hasItems_true in E. contradiction. }
  apply hasItems_true in Hc.
  split; [|split].
  - rewrite client_sectionHeadings, Hedu, !in_app_iff.
    destruct (hasItems (ResumeDocument.coreCompetencies cvData)),
      (hasItems (ResumeDocument.professionalExperience cvData)),
      (hasItems (ResumeDocument.leadership cvData)),
      (ResumeDocument.technicalSkills cvData);
      cbn [In]; intros H;
      repeat (destruct H as [H|H]; try discriminate H; try contradiction).
  - intros cert Hin. rewrite client_buildChildren.
    rewrite !in_app_iff. do 4 right. left. now apply in_map.
  - rewrite sectionHeadings_generateCV, Hedu, Hc. cbn [orb].
    rewrite !in_app_iff. do 3 right. left. now left.
Qed.

(** Only [name], [professionalSummary] and one certification. *)
Lemma client_certifications_without_heading_witness :
  ~ In (lit "EDUCATION & CERTIFICATION")
      (Client.sectionHeadings
         (Client.buildChildren
            (ResumeDocument.mk (Some (lit "A")) (Some (lit "S"))
               None None None (Some [cfa]) None None))).
Proof.
  apply (@client_certifications_without_heading None
           (ResumeDocument.mk (Some (lit "A")) (Some (lit "S"))
              None None None (Some [cfa]) None None));
    [reflexivity | discriminate].
Defined.

Lemma client_bullet_texts (l : list jsstring) :
  map Client.paragraphText (map Client.createBullet l)
  = map (fun a => [8226; 32]%N ++ a) l.
Proof.
  rewrite map_map. apply map_ext. intros a.
  unfold Client.paragraphText. cbn. now rewrite app_nil_r.
Qed.

(** What follows the bullets of an entry does not begin with a bullet. *)
Lemma client_after_job_not_bullet (cvData : ResumeDocument.t)
    (post : list JobEntry.t) :
  match
    flat_map clientJobBlocks post
    ++ (if hasItems (ResumeDocument.education cvData)
        then Client.createSectionHeading (lit "Education & Certification")
             :: flat_map clientEducationBlocks
                  (items (ResumeDocument.education cvData))
        else [])
    ++ map Client.certificationParagraph
         (items (ResumeDocument.certifications cvData))
    ++ (if hasItems (ResumeDocument.leadership cvData)
        then Client.createSectionHeading (lit "Leadership")
             :: flat_map clientLeadershipBlocks
                  (items (ResumeDocument.leadership cvData))
        else [])
    ++ clientSkillsBlocks cvData
  with
  | [] => True
  | p :: _ => Client.isBullet p = false
  end.
Proof.
  destruct post as [|next post]; [|reflexivity].
  cbn [flat_map app].
  destruct (hasItems (ResumeDocument.education cvData)); [reflexivity|].
  cbn [app].
  destruct (items (ResumeDocument.certifications cvData)); [|reflexivity].
  cbn [map app].
  destruct (hasItems (ResumeDocument.leadership cvData)); [reflexivity|].
  cbn [app]. unfold clientSkillsBlocks.
  now destruct (ResumeDocument.technicalSkills cvData).
Qed.

(** X12: under each job header the browser composer emits one literal
    bullet per achievement, in input order, whose text is U+2022, a
    space and the achievement; none when [achievements] is missing or
    empty; the block after them is not a bullet. *)
Theorem client_bullets_per_achievement (cvData : ResumeDocument.t)
    (pre post : list JobEntry.t) (job : JobEntry.t) :
  ResumeDocument.professionalExperience cvData = Some (pre ++ job :: post) ->
  exists start bullets after,
    Client.buildChildren cvData
    = start
      ++ Client.createJobHeader (JobEntry.role job) (JobEntry.company job)
           (JobEntry.location job) (JobEntry.dates job)
         :: bullets ++ after
    /\ map Client.paragraphText bullets
       = map (fun a => [8226; 32]%N ++ a) (items (JobEntry.achievements job))
    /\ Forall (fun b => Client.isBullet b = true) bullets
    /\ match after with
       | [] => True
       | p :: _ => Client.isBullet p = false
       end.
Proof.
  intros Hpe.
  exists ([ Client.nameParagraph cvData;
            Client.createSectionHeading (lit "Professional Summary");
            Client.plain
              [ Client.calibriRun (ResumeDocument.professionalSummary cvData)
                  false false 20 None ] 80 120 ]
          ++ (if hasItems (ResumeDocument.coreCompetencies cvData)
              then [ Client.createSectionHeading (lit "Core Competencies");
                     Client.plain
                       [ Client.calibriRun
                           (Some (join Client.competencyDelimiter
                                    (items (ResumeDocument.coreCompetencies
                                              cvData))))
                           false false 20 None ] 80 120 ]
              else [])
          ++ Client.createSectionHeading (lit "Professional Experience")
             :: flat_map clientJobBlocks pre),
         (map Client.createBullet (items (JobEntry.achievements job))),
         (flat_map clientJobBlocks post
          ++ (if hasItems (ResumeDocument.education cvData)
              then Client.createSectionHeading
                     (lit "Education & Certification")
                   :: flat_map clientEducationBlocks
                        (items (ResumeDocument.education cvData))
              else [])
          ++ map Client.certificationParagraph
               (items (ResumeDocument.certifications cvData))
          ++ (if hasItems (ResumeDocument.leadership cvData)
              then Client.createSectionHeading (lit "Leadership")
                   :: flat_map clientLeadershipBlocks
                        (items (ResumeDocument.leadership cvData))
              else [])
          ++ clientSkillsBlocks cvData).
  split; [|split; [|split]].
  - rewrite client_buildChildren, Hpe.
    replace (hasItems (Some (pre ++ job :: post))) with true
      by (symmetry; apply hasItems_true; cbn [items]; now destruct pre).
    cbn [items]. rewrite flat_map_app. cbn [flat_map].
    unfold clientJobBlocks at 2.
    repeat (rewrite <- ?app_assoc; cbn [app]). reflexivity.
  - apply client_bullet_texts.
  - apply Forall_forall. intros b Hb. apply in_map_iff in Hb.
    now destruct Hb as [a [<- _]].
  - apply client_after_job_not_bullet.
Qed.

Lemma client_bullets_per_achievement_witness :
  exists start bullets after,
    Client.buildChildren fullDocument
    = start
      ++ Client.createJobHeader (JobEntry.role twoBulletJob)
           (JobEntry.company twoBulletJob) (JobEntry.location twoBulletJob)
           (JobEntry.dates twoBulletJob)
         :: bullets ++ after
    /\ map Client.paragraphText bullets
       = map (fun a => [8226; 32]%N ++ a) [lit "First"; lit "Second"]
    /\ Forall (fun b => Client.isBullet b = true) bullets
    /\ match after with
       | [] => True
       | p :: _ => Client.isBullet p = false
       end.
Proof.
  apply (@client_bullets_per_achievement fullDocument [] [plainJob]
           twoBulletJob).
  reflexivity.
Defined.

(* ------------------------------------------------------------------ *)
(** * The script: order of sections, bullets and hints *)

(** X13: the section headings of a document are the labels of the fixed
    order that occur in it, in that order and once each. *)
Theorem headings_follow_section_order (logo : option (list N))
    (data : ResumeDocument.t) :
  sectionHeadings (blocks (generateCV logo data))
  = filter
      (fun label =>
         existsb (jsstring_eqb label)
           (sectionHeadings (blocks (generateCV logo data))))
      sectionOrder.
Proof.
  rewrite sectionHeadings_generateCV.
  destruct (truthy _), (hasItems (ResumeDocument.coreCompetencies data)),
    (hasItems (ResumeDocument.professionalExperience data)),
    (hasItems (ResumeDocument.education data)
     || hasItems (ResumeDocument.certifications data)),
    (hasItems (ResumeDocument.leadership data)),
    (ResumeDocument.technicalSkills data);
    vm_compute; reflexivity.
Qed.

Lemma bulletTexts_app (ref : jsstring) (l1 l2 : list Paragraph) :
  bulletTexts ref (l1 ++ l2) = bulletTexts ref l1 ++ bulletTexts ref l2.
Proof.
  unfold bulletTexts. now rewrite filter_app, map_app.
Qed.

Lemma bulletTexts_flat_map {A : Type} (ref : jsstring)
    (f : A -> list Paragraph) (g : A -> list jsstring) (l : list A) :
  (forall x, bulletTexts ref (f x) = g x) ->
  bulletTexts ref (flat_map f l) = flat_map g l.
Proof.
  intros H. induction l as [|x rest IH]; [reflexivity|].
  cbn [flat_map]. now rewrite bulletTexts_app, H, IH.
Qed.

Lemma flat_map_nil {A B : Type} (l : list A) :
  flat_map (fun _ : A => @nil B) l = [].
Proof.
  induction l as [|x rest IH]; [reflexivity | exact IH].
Qed.

Lemma bulletTexts_bulletList (ref ref' : jsstring) (l : list jsstring) :
  bulletTexts ref (bulletList ref' l)
  = if jsstring_eqb ref' ref then l else [].
Proof.
  unfold bulletTexts.
  induction l as [|a rest IH]; [now destruct (jsstring_eqb ref' ref)|].
  cbn [bulletList filter]. unfold hasReference at 1.
  cbn [numbering createBulletPoint reference].
  destruct (jsstring_eqb ref' ref) eqn:E.
  - cbn [map]. rewrite IH. f_equal.
    unfold paragraphText; cbn. apply app_nil_r.
  - exact IH.
Qed.

Lemma bulletTexts_certifications (ref : jsstring) (l : list CertEntry.t) :
  bulletTexts ref (map certificationParagraph l) = [].
Proof.
  induction l as [|c rest IH]; [reflexivity | exact IH].
Qed.

Lemma bulletTexts_educationBlocks (ref : jsstring) (edu : EducationEntry.t) :
  bulletTexts ref (educationBlocks edu) = [].
Proof.
  unfold educationBlocks. now destruct (truthy _).
Qed.

(** X14: the bullets of the numbering definition [experience-bullets]
    are the achievements of the professional-experience entries, entry
    by entry in input order, and those of [leadership-bullets] are the
    achievements of the leadership entries: none is dropped, repeated or
    put under the other definition. *)
Theorem bullets_are_the_achievements (logo : option (list N))
    (data : ResumeDocument.t) :
  bulletTexts (lit "experience-bullets") (blocks (generateCV logo data))
  = allAchievements JobEntry.achievements
      (ResumeDocument.professionalExperience data)
  /\ bulletTexts (lit "leadership-bullets") (blocks (generateCV logo data))
     = allAchievements LeadershipEntry.achievements
         (ResumeDocument.leadership data).
Proof.
  assert (Hsec : forall ref,
            bulletTexts ref (blocks (generateCV logo data))
            = bulletTexts ref (experienceSection data)
              ++ bulletTexts ref (leadershipSection data)).
  { intros ref. rewrite blocks_generateCV, !bulletTexts_app.
    replace (bulletTexts ref (logoSection logo)) with (@nil jsstring)
      by now destruct logo.
    replace (bulletTexts ref (summarySection data)) with (@nil jsstring)
      by (unfold summarySection; now destruct (truthy _)).
    replace (bulletTexts ref (competenciesSection data)) with (@nil jsstring)
      by (unfold competenciesSection; now destruct (hasItems _)).
    replace (bulletTexts ref (educationSection data)) with (@nil jsstring).
    2:{ unfold educationSection. destruct (_ || _); [|reflexivity].
        change (createSectionHeading ?h :: ?l)
          with ([createSectionHeading h] ++ l).
        rewrite !bulletTexts_app, bulletTexts_certifications.
        rewrite (bulletTexts_flat_map _ _ (fun _ => [])
                   (items (ResumeDocument.education data))
                   (bulletTexts_educationBlocks ref)).
        now rewrite flat_map_nil. }
    replace (bulletTexts ref (skillsSection data)) with (@nil jsstring).
    2:{ unfold skillsSection.
        destruct (ResumeDocument.technicalSkills data) as [ts|];
          [|reflexivity].
        now destruct (truthy (TechnicalSkills.technical ts)),
          (truthy (TechnicalSkills.languages ts)). }
    cbn [app bulletTexts filter map]. now rewrite app_nil_r. }
  assert (Hexp : forall ref,
            bulletTexts ref (experienceSection data)
            = if jsstring_eqb (lit "experience-bullets") ref
              then allAchievements JobEntry.achievements
                     (ResumeDocument.professionalExperience data)
              else []).
  { intros ref. unfold experienceSection, allAchievements.
    destruct (hasItems _) eqn:H.
    - change (createSectionHeading ?h :: ?l)
        with ([createSectionHeading h] ++ l).
      rewrite bulletTexts_app. cbn [app bulletTexts filter map].
      rewrite (bulletTexts_flat_map ref jobBlocks
                 (fun job => if jsstring_eqb (lit "experience-bullets") ref
                             then items (JobEntry.achievements job) else [])).
      + destruct (jsstring_eqb _ ref); [reflexivity | apply flat_map_nil].
      + intros job. unfold jobBlocks.
        change (jobHeaderOf job :: ?l) with ([jobHeaderOf job] ++ l).
        rewrite bulletTexts_app. apply bulletTexts_bulletList.
    - rewrite (hasItems_false _ H). now destruct (jsstring_eqb _ ref). }
  assert (Hlead : forall ref,
            bulletTexts ref (leadershipSection data)
            = if jsstring_eqb (lit "leadership-bullets") ref
              then allAchievements LeadershipEntry.achievements
                     (ResumeDocument.leadership data)
              else []).
  { intros ref. unfold leadershipSection, allAchievements.
    destruct (hasItems _) eqn:H.
    - change (createSectionHeading ?h :: ?l)
        with ([createSectionHeading h] ++ l).
      rewrite bulletTexts_app. cbn [app bulletTexts filter map].
      rewrite (bulletTexts_flat_map ref leadershipBlocks
                 (fun lead => if jsstring_eqb (lit "leadership-bullets") ref
                              then items (LeadershipEntry.achievements lead)
                              else [])).
      + destruct (jsstring_eqb _ ref); [reflexivity | apply flat_map_nil].
      + intros lead. unfold leadershipBlocks.
        change (leadershipHeader lead :: ?l)
          with ([leadershipHeader lead] ++ l).
        rewrite bulletTexts_app. apply bulletTexts_bulletList.
    - rewrite (hasItems_false _ H). now destruct (jsstring_eqb _ ref). }
  split; rewrite Hsec, Hexp, Hlead.
  - change (jsstring_eqb (lit "experience-bullets") (lit "experience-bullets"))
      with true.
    change (jsstring_eqb (lit "leadership-bullets") (lit "experience-bullets"))
      with false.
    apply app_nil_r.
  - change (jsstring_eqb (lit "experience-bullets") (lit "leadership-bullets"))
      with false.
    change (jsstring_eqb (lit "leadership-bullets") (lit "leadership-bullets"))
      with true.
    reflexivity.
Qed.

Lemma numberingDefined_bullets (logo : option (list N))
    (data : ResumeDocument.t) (ref : jsstring) (l : list jsstring) :
  ref = lit "experience-bullets" \/ ref = lit "leadership-bullets" ->
  Forall (numberingDefined (generateCV logo data)) (bulletList ref l).
Proof.
  intros Href. induction l as [|a rest IH]; constructor; [|exact IH].
  unfold numberingDefined. cbn [numbering createBulletPoint].
  exists (bulletConfig ref). split; [|split; reflexivity].
  cbn [numberingConfig generateCV].
  destruct Href as [-> | ->]; [now left | right; now left].
Qed.

Lemma Forall_app_intro {A : Type} (P : A -> Prop) (l1 l2 : list A) :
  Forall P l1 -> Forall P l2 -> Forall P (l1 ++ l2).
Proof.
  intros H1 H2. apply Forall_app. now split.
Qed.

Lemma Forall_flat_map_intro {A B : Type} (P : B -> Prop) (f : A -> list B)
    (l : list A) :
  (forall x, Forall P (f x)) -> Forall P (flat_map f l).
Proof.
  intros H. induction l as [|x rest IH]; [constructor|].
  cbn [flat_map]. apply Forall_app_intro; [apply H | exact IH].
Qed.

(** X15: every block of the body, and the paragraphs of the header and
    of the footers, that refers to a numbering definition refers to one
    the document defines, at a level it defines. *)
Theorem numbering_references_are_defined (logo : option (list N))
    (data : ResumeDocument.t) :
  let doc := generateCV logo data in
  Forall (numberingDefined doc) (blocks doc)
  /\ forall s, In s (sections doc) ->
       Forall (numberingDefined doc)
         (default (headers s) ++ first (headers s)
          ++ default (footers s) ++ first (footers s)).
Proof.
  cbv zeta. split.
  - rewrite blocks_generateCV.
    apply Forall_app_intro; [|apply Forall_app_intro;
      [|apply Forall_app_intro; [|apply Forall_app_intro;
        [|apply Forall_app_intro; [|apply Forall_app_intro;
          [|apply Forall_app_intro]]]]]].
    + destruct logo; [|constructor]. constructor; [exact I | constructor].
    + constructor; [exact I | constructor].
    + unfold summarySection. destruct (truthy _); [|constructor].
      constructor; [exact I|]. constructor; [exact I | constructor].
    + unfold competenciesSection. destruct (hasItems _); [|constructor].
      constructor; [exact I|]. constructor; [exact I | constructor].
    + unfold experienceSection. destruct (hasItems _); [|constructor].
      constructor; [exact I|].
      apply Forall_flat_map_intro. intros job. unfold jobBlocks.
      constructor; [exact I|].
      apply numberingDefined_bullets. now left.
    + unfold educationSection. destruct (_ || _); [|constructor].
      constructor; [exact I|]. apply Forall_app_intro.
      * apply Forall_flat_map_intro. intros edu. unfold educationBlocks.
        constructor; [exact I|]. constructor; [exact I|].
        destruct (truthy _); [|constructor].
        constructor; [exact I | constructor].
      * apply Forall_forall. intros p Hp. apply in_map_iff in Hp.
        destruct Hp as [c [<- _]]. exact I.
    + unfold leadershipSection. destruct (hasItems _); [|constructor].
      constructor; [exact I|].
      apply Forall_flat_map_intro. intros lead. unfold leadershipBlocks.
      constructor; [exact I|].
      apply numberingDefined_bullets. now right.
    + unfold skillsSection.
      destruct (ResumeDocument.technicalSkills data) as [ts|]; [|constructor].
      constructor; [exact I|]. apply Forall_app_intro.
      * destruct (truthy (TechnicalSkills.technical ts)); [|constructor].
        constructor; [exact I | constructor].
      * destruct (truthy (TechnicalSkills.languages ts)); [|constructor].
        constructor; [exact I | constructor].
  - intros s [<- | []]. cbn [headers footers default first app].
    constructor; [exact I|]. constructor; [exact I|].
    constructor; [exact I | constructor].
Qed.

Lemma blocks_around_leadership (logo : option (list N))
    (data : ResumeDocument.t) (pre post : list LeadershipEntry.t)
    (lead : LeadershipEntry.t) :
  ResumeDocument.leadership data = Some (pre ++ lead :: post) ->
  blocks (generateCV logo data)
  = (logoSection logo ++ [nameParagraph (ResumeDocument.name data)]
     ++ summarySection data ++ competenciesSection data
     ++ experienceSection data ++ educationSection data
     ++ createSectionHeading (lit "Leadership")
        :: flat_map leadershipBlocks pre)
    ++ leadershipBlocks lead
    ++ flat_map leadershipBlocks post ++ skillsSection data.
Proof.
  intros Hl. rewrite blocks_generateCV. unfold leadershipSection.
  rewrite Hl.
  replace (hasItems (Some (pre ++ lead :: post))) with true
    by (symmetry; apply hasItems_true; cbn [items]; now destruct pre).
  cbn [items]. rewrite flat_map_app. cbn [flat_map].
  repeat (rewrite <- ?app_assoc; cbn [app]). reflexivity.
Qed.

(** X16: a leadership entry is rendered like a job entry: its header
    carries the keep-with-next hint and is followed by one bullet per
    achievement, in input order, each of the numbering definition
    [leadership-bullets], with the hint on every bullet except the final
    one. *)
Theorem leadership_entry_blocks (logo : option (list N))
    (data : ResumeDocument.t) (pre post : list LeadershipEntry.t)
    (lead : LeadershipEntry.t) :
  ResumeDocument.leadership data = Some (pre ++ lead :: post) ->
  exists start bullets after,
    blocks (generateCV logo data)
    = start ++ leadershipHeader lead :: bullets ++ after
    /\ keepNext (leadershipHeader lead) = true
    /\ map paragraphText bullets
       = items (LeadershipEntry.achievements lead)
    /\ Forall (fun b => bulletReference b = Some (lit "leadership-bullets"))
         bullets
    /\ hintExceptFinal bullets
    /\ match after with
       | [] => True
       | p :: _ => isBullet p = false
       end.
Proof.
  intros Hl.
  exists (logoSection logo ++ [nameParagraph (ResumeDocument.name data)]
          ++ summarySection data ++ competenciesSection data
          ++ experienceSection data ++ educationSection data
          ++ createSectionHeading (lit "Leadership")
             :: flat_map leadershipBlocks pre),
         (bulletList (lit "leadership-bullets")
            (items (LeadershipEntry.achievements lead))),
         (flat_map leadershipBlocks post ++ skillsSection data).
  split; [|split; [reflexivity|split; [|split; [|split]]]].
  - rewrite (blocks_around_leadership logo data pre post lead Hl).
    unfold leadershipBlocks at 2. cbn [app]. reflexivity.
  - apply text_bulletList.
  - eapply Forall_impl; [|apply reference_bulletList].
    intros b Hb. unfold bulletReference. now rewrite Hb.
  - apply hintExceptFinal_bulletList.
  - destruct post as [|next post']; [|reflexivity].
    cbn [flat_map app]. unfold skillsSection.
    now destruct (ResumeDocument.technicalSkills data).
Qed.

Lemma leadership_entry_blocks_witness :
  exists start bullets after,
    blocks (generateCV None fullDocument)
    = start
      ++ leadershipHeader
           (LeadershipEntry.mk (Some (lit "Captain")) (Some (lit "Club"))
              (Some (lit "2018")) (Some [lit "Led"]))
         :: bullets ++ after
    /\ map paragraphText bullets = [lit "Led"].
Proof.
  destruct (@leadership_entry_blocks None fullDocument [] []
              (LeadershipEntry.mk (Some (lit "Captain")) (Some (lit "Club"))
                 (Some (lit "2018")) (Some [lit "Led"])) eq_refl)
    as [start [bullets [after [H1 [_ [H2 _]]]]]].
  exists start, bullets, after. split; [exact H1 | exact H2].
Defined.

Lemma hintExceptFinal_educationBlocks (edu : EducationEntry.t) :
  hintExceptFinal (educationBlocks edu).
Proof.
  unfold hintExceptFinal, educationBlocks, institutionParagraph.
  destruct (truthy (EducationEntry.details edu)); intros i b Hnth;
    do 3 (destruct i as [|i]; cbn [nth_error] in Hnth;
          [try discriminate Hnth; injection Hnth as <-; cbn; split; intros;
           try reflexivity; try discriminate; lia|]);
    destruct i; discriminate Hnth.
Qed.

(** X17: in the two or three paragraphs of an education entry (degree,
    institution line, details when present) and in the one or two
    paragraphs under Technical Skills & Languages, the keep-with-next
    hint is on every paragraph except the final one of the group. *)
Theorem hints_within_groups (logo : option (list N))
    (data : ResumeDocument.t) :
  (forall pre edu post,
     ResumeDocument.education data = Some (pre ++ edu :: post) ->
     exists start group after,
       blocks (generateCV logo data) = start ++ group ++ after
       /\ group
          = degreeParagraph edu :: institutionParagraph edu
            :: (if truthy (EducationEntry.details edu)
                then [educationDetailsParagraph edu] else [])
       /\ hintExceptFinal group)
  /\ (forall ts,
        ResumeDocument.technicalSkills data = Some ts ->
        exists start group,
          blocks (generateCV logo data)
          = start
            ++ createSectionHeading (lit "Technical Skills & Languages")
               :: group
          /\ group
             = (if truthy (TechnicalSkills.technical ts)
                then [technicalParagraph ts] else [])
               ++ (if truthy (TechnicalSkills.languages ts)
                   then [languagesParagraph ts] else [])
          /\ hintExceptFinal group).
Proof.
  split.
  - intros pre edu post Hed.
    eexists _, (educationBlocks edu), _.
    split; [apply (blocks_around_education logo data pre post edu Hed)|].
    split; [reflexivity | apply hintExceptFinal_educationBlocks].
  - intros ts Hts.
    exists (logoSection logo ++ [nameParagraph (ResumeDocument.name data)]
            ++ summarySection data ++ competenciesSection data
            ++ experienceSection data ++ educationSection data
            ++ leadershipSection data).
    eexists. split; [|split; [reflexivity|]].
    + rewrite blocks_generateCV. unfold skillsSection. rewrite Hts.
      repeat (rewrite <- ?app_assoc; cbn [app]). reflexivity.
    + unfold hintExceptFinal, technicalParagraph.
      destruct (truthy (TechnicalSkills.technical ts)),
        (truthy (TechnicalSkills.languages ts)); intros i b Hnth;
        do 2 (destruct i as [|i]; cbn [nth_error app] in Hnth;
              [try discriminate Hnth; injection Hnth as <-; cbn; split;
               intros; try reflexivity; try discriminate; lia|]);
        destruct i; discriminate Hnth.
Qed.

Lemma hints_within_groups_witness :
  exists start group after,
    blocks (generateCV None fullDocument) = start ++ group ++ after
    /\ group = [degreeParagraph bachelor; institutionParagraph bachelor]
    /\ hintExceptFinal group.
Proof.
  apply (proj1 (hints_within_groups None fullDocument) [] bachelor []).
  reflexivity.
Defined.

(* ------------------------------------------------------------------ *)
(** * The /api/align handler: uploads and output *)

Lemma in_unlinkUpload (filePath x : jsstring) (uploads : Uploads) :
  In x (unlinkUpload filePath uploads) <-> In x uploads /\ x <> filePath.
Proof.
  unfold unlinkUpload. rewrite filter_In.
  destruct (jsstring_eqb x filePath) eqn:E; cbn [negb].
  - apply jsstring_eqb_eq in E. split; [intros [_ H]; discriminate|].
    intros [_ H]. contradiction.
  - split; intros [H _]; split; auto.
    intros Hx. apply jsstring_eqb_eq in Hx. congruence.
Qed.

Lemma in_unlink_all (files : list jsstring) :
  forall (uploads : Uploads) (x : jsstring),
    In x (fold_left (fun u filePath => unlinkUpload filePath u) files uploads)
    <-> In x uploads /\ ~ In x files.
Proof.
  induction files as [|f files IH]; intros uploads x; cbn [fold_left In].
  - tauto.
  - rewrite IH, in_unlinkUpload. split.
    + intros [[H1 H2] H3]. split; [exact H1|]. intros [E|E]; congruence.
    + intros [H1 H2]. split; [split; [exact H1|]|]; intros E; apply H2;
        [left; congruence | now right].
Qed.


Section EndpointProperties.

Variable apiKeyConfigured : bool.
Variable extractText : jsstring -> Error + jsstring.
Variable callClaudeAPI :
  jsstring -> jsstring -> Error + option (list ContentBlock).
Variable JSON_parse : jsstring -> Error + ResumeDocument.t.
Variable env : Env.

(** The files the [try] block registers: the job-description upload once
    the key check is passed, the CV upload once a non-blank job
    description is there. *)
Lemma alignTry_registered (req : AlignRequest) (fs : FS) :
  fst (fst (alignTry apiKeyConfigured extractText callClaudeAPI JSON_parse
              env req fs))
  = if negb apiKeyConfigured then []
    else
      match jobDescriptionUpload req with Some p => [p] | None => [] end
      ++ match snd (jobDescriptionOf extractText req) with
         | inr t =>
             match trim t with
             | [] => []
             | _ :: _ =>
                 match cvUpload req with Some p => [p] | None => [] end
             end
         | inl _ => []
         end.
Proof.
  unfold alignTry, jobDescriptionOf.
  destruct apiKeyConfigured; cbn [negb]; [|reflexivity].
  destruct (jobDescriptionUpload req) as [jd|]; cbn [fst snd app].
  - destruct (extractText jd) as [e|t]; [reflexivity|].
    destruct (trim t); [reflexivity|].
    destruct (cvUpload req) as [cv|]; [|reflexivity].
    destruct (extractText cv) as [e|cvText]; [reflexivity|].
    destruct (trim cvText); [reflexivity|].
    destruct (alignCVCall callClaudeAPI JSON_parse t cvText) as [e|d];
      [reflexivity|].
    now destruct (Generator.generateCV env d (ResumeDocument.name d) fs)
      as [fs' [e|outputPath]].
  - set (t := match bodyJobDescriptionText req with
              | Some t => t
              | None => []
              end).
    destruct (trim t); [reflexivity|].
    destruct (cvUpload req) as [cv|]; [|reflexivity].
    destruct (extractText cv) as [e|cvText]; [reflexivity|].
    destruct (trim cvText); [reflexivity|].
    destruct (alignCVCall callClaudeAPI JSON_parse t cvText) as [e|d];
      [reflexivity|].
    now destruct (Generator.generateCV env d (ResumeDocument.name d) fs)
      as [fs' [e|outputPath]].
Qed.

End EndpointProperties.



(** X19: the handler leaves stored uploads behind on its early ways
    out: with the API key not configured it removes nothing; with the
    key configured and the job description failing to extract or blank,
    an uploaded CV (stored under another path than the job description)
    stays in the uploads directory. *)
Theorem endpoint_leaves_unregistered_uploads
    (apiKeyConfigured : bool)
    (extractText : jsstring -> Error + jsstring)
    (callClaudeAPI : jsstring -> jsstring
                     -> Error + option (list ContentBlock))
    (JSON_parse : jsstring -> Error + ResumeDocument.t) (env : Env)
    (req : AlignRequest) (uploads : Uploads) (fs : FS) :
  let result :=
    alignEndpoint apiKeyConfigured extractText callClaudeAPI JSON_parse env
      req uploads fs in
  (apiKeyConfigured = false ->
   result
   = (uploads, fs,
      StatusJson 500 (lit "Server configuration error")
        (lit "ANTHROPIC_API_KEY is not configured")))
  /\ (apiKeyConfigured = true ->
      (match snd (jobDescriptionOf extractText req) with
       | inl _ => True
       | inr t => trim t = []
       end) ->
      forall p,
        cvUpload req = Some p -> jobDescriptionUpload req <> Some p ->
        In p uploads -> In p (fst (fst result))).
Proof.
  cbv zeta. split.
  - intros ->. reflexivity.
  - intros -> Hjd p Hcv Hne Hin. unfold alignEndpoint.
    pose proof (alignTry_registered true extractText callClaudeAPI
                  JSON_parse env req fs) as Hreg.
    destruct (alignTry true extractText callClaudeAPI JSON_parse env req fs)
      as [[uploadedFiles fs'] response].
    cbn [fst snd negb] in *. subst uploadedFiles.
    apply in_unlink_all. split; [exact Hin|].
    intros H. apply in_app_or in H. destruct H as [H|H].
    + destruct (jobDescriptionUpload req) as [q|]; [|contradiction].
      destruct H as [->|[]]. now apply Hne.
    + destruct (snd (jobDescriptionOf extractText req)) as [e|t];
        [contradiction|].
      rewrite Hjd in H. contradiction.
Qed.

(** A request with a blank pasted job description and an uploaded CV:
    the CV is still in the uploads directory afterwards. *)
Lemma endpoint_leaves_unregistered_uploads_witness :
  In (lit "u/1-cv.pdf")
     (fst (fst (alignEndpoint true (fun _ => inr (lit "text"))
                  (fun _ _ => inr None) (fun _ => inr fullDocument) plainEnv
                  (mkAlignRequest (Some (lit "  ")) None
                     (Some (lit "u/1-cv.pdf")))
                  [lit "u/1-cv.pdf"] []))).
Proof.
  refine (proj2 (@endpoint_leaves_unregistered_uploads true
                   (fun _ => inr (lit "text")) (fun _ _ => inr None)
                   (fun _ => inr fullDocument) plainEnv
                   (mkAlignRequest (Some (lit "  ")) None
                      (Some (lit "u/1-cv.pdf")))
                   [lit "u/1-cv.pdf"] [])
            eq_refl eq_refl (lit "u/1-cv.pdf") eq_refl _ _).
  - discriminate.
  - now left.
Defined.


(* ------------------------------------------------------------------ *)
(** * The upload filter and the extractor *)

(** X21: the upload filter and the extractor know the same extensions:
    for a stored file whose lower-cased extension is that of the
    original name, the filter accepts the upload exactly when
    extractText dispatches to one of its three extractors, and then any
    text it returns is trimmed; otherwise the filter rejects with the
    list of allowed types and extractText throws
    [Unsupported file type]. *)
Theorem filter_and_extractor_agree
    (extname toLowerCase : jsstring -> jsstring)
    (pdfText docxText fileText : jsstring -> Error + jsstring)
    (originalname filePath : jsstring) :
  toLowerCase (extname filePath) = toLowerCase (extname originalname) ->
  let ext := toLowerCase (extname originalname) in
  if existsb (jsstring_eqb ext) allowedTypes
  then
    fileFilter extname toLowerCase originalname = inr tt
    /\ In (extractText extname toLowerCase pdfText docxText fileText filePath)
         [ trimmed (pdfText filePath); trimmed (docxText filePath);
           trimmed (fileText filePath) ]
    /\ forall t,
         extractText extname toLowerCase pdfText docxText fileText filePath
         = inr t -> trim t = t
  else
    fileFilter extname toLowerCase originalname
    = inl (mkError (lit "Unsupported file type: " ++ ext
                    ++ lit ". Allowed: .pdf, .docx, .txt"))
    /\ extractText extname toLowerCase pdfText docxText fileText filePath
       = inl (mkError (lit "Unsupported file type: " ++ ext)).
Proof.
  intros Hext. cbv zeta. unfold fileFilter, extractText.
  rewrite Hext.
  assert (Htrim : forall r t, trimmed r = inr t -> trim t = t).
  { intros [e|u] t H; [discriminate|]. injection H as <-.
    apply trim_idempotent. }
  unfold allowedTypes. cbn [existsb].
  destruct (jsstring_eqb (toLowerCase (extname originalname)) (lit ".pdf"));
    [|destruct (jsstring_eqb (toLowerCase (extname originalname))
                  (lit ".docx"));
      [|destruct (jsstring_eqb (toLowerCase (extname originalname))
                    (lit ".txt"))]];
    cbn [orb].
  - split; [reflexivity|]. split; [now left | apply Htrim].
  - split; [reflexivity|]. split; [right; now left | apply Htrim].
  - split; [reflexivity|]. split; [right; right; now left | apply Htrim].
  - split; reflexivity.
Qed.

(** An upload [cv.PDF] stored as [1-2-cv.PDF], with an extension function
    that answers [.PDF] and a lower-casing that answers [.pdf]. *)
Lemma filter_and_extractor_agree_witness :
  fileFilter (fun _ => lit ".PDF") (fun _ => lit ".pdf") (lit "cv.PDF")
  = inr tt.
Proof.
  apply (@filter_and_extractor_agree (fun _ => lit ".PDF")
           (fun _ => lit ".pdf") (fun _ => inr (lit " text "))
           (fun _ => inr []) (fun _ => inr []) (lit "cv.PDF")
           (lit "1-2-cv.PDF") eq_refl).
Defined.

Lemma trimStart_nil_iff (s : jsstring) :
  trimStart s = [] <-> forallb isWhiteSpace s = true.
Proof.
  induction s as [|c s IH]; [now split|].
  cbn [trimStart forallb]. destruct (isWhiteSpace c); cbn [andb].
  - exact IH.
  - split; discriminate.
Qed.

(** [trim] gives the empty string exactly on whitespace-only strings. *)
Lemma trim_nil_iff (s : jsstring) :
  trim s = [] <-> forallb isWhiteSpace s = true.
Proof.
  rewrite <- trimStart_nil_iff. unfold trim. split.
  - intros H. destruct (trimStart_split s) as [_ [_ [_ Hhead]]].
    destruct (trimStart s) as [|c u] eqn:Eu; [reflexivity|].
    unfold trimEnd in H.
    assert (Hr : trimStart (rev (c :: u)) = []).
    { rewrite <- (rev_involutive (trimStart (rev (c :: u)))), H.
      reflexivity. }
    apply trimStart_nil_iff in Hr. rewrite forallb_forall in Hr.
    specialize (Hr c (proj1 (in_rev (c :: u) c) (or_introl eq_refl))).
    congruence.
  - intros ->. reflexivity.
Qed.

(** X22: with the key configured, the handler checks in this order: a
    job description that is missing or whitespace only is answered 400
    Missing job description, whether or not a CV came with it; then a
    request without a CV file 400 Missing CV; then a CV whose extracted
    text is whitespace only 400 Empty CV. *)
Theorem endpoint_validation_order
    (extractText : jsstring -> Error + jsstring)
    (callClaudeAPI : jsstring -> jsstring
                     -> Error + option (list ContentBlock))
    (JSON_parse : jsstring -> Error + ResumeDocument.t) (env : Env)
    (req : AlignRequest) (uploads : Uploads) (fs : FS)
    (jobDescriptionText : jsstring) :
  snd (jobDescriptionOf extractText req) = inr jobDescriptionText ->
  let response :=
    snd (alignEndpoint true extractText callClaudeAPI JSON_parse env req
           uploads fs) in
  if forallb isWhiteSpace jobDescriptionText
  then response
       = StatusJson 400 (lit "Missing job description")
           (lit "Please provide a job description file or paste the text")
  else
    match cvUpload req with
    | None =>
        response
        = StatusJson 400 (lit "Missing CV")
            (lit "Please upload a CV file (PDF or DOCX)")
    | Some cvPath =>
        match extractText cvPath with
        | inl error =>
            response
            = StatusJson 500 (lit "Processing failed") (message error)
        | inr cvText =>
            forallb isWhiteSpace cvText = true ->
            response
            = StatusJson 400 (lit "Empty CV")
                (lit "Could not extract text from the CV file")
        end
    end.
Proof.
  intros Hjd. cbv zeta. unfold alignEndpoint, alignTry. cbn [negb].
  destruct (jobDescriptionOf extractText req) as [uploadedFiles extracted].
  cbn [snd] in Hjd. subst extracted.
  destruct (forallb isWhiteSpace jobDescriptionText) eqn:Hws.
  - apply trim_nil_iff in Hws. now rewrite Hws.
  - destruct (trim jobDescriptionText) eqn:Ht.
    + apply trim_nil_iff in Ht. congruence.
    + destruct (cvUpload req) as [cvPath|]; [|reflexivity].
      destruct (extractText cvPath) as [e|cvText]; [reflexivity|].
      intros Hcv. apply trim_nil_iff in Hcv. now rewrite Hcv.
Qed.

(** No pasted text, no job-description file, a CV file. *)
Lemma endpoint_validation_order_witness :
  snd (alignEndpoint true (fun _ => inr (lit "text"))
         (fun _ _ => inr None) (fun _ => inr fullDocument) plainEnv
         (mkAlignRequest None None (Some (lit "u/1-cv.pdf")))
         [lit "u/1-cv.pdf"] [])
  = StatusJson 400 (lit "Missing job description")
      (lit "Please provide a job description file or paste the text").
Proof.
  apply (@endpoint_validation_order (fun _ => inr (lit "text"))
           (fun _ _ => inr None) (fun _ => inr fullDocument) plainEnv
           (mkAlignRequest None None (Some (lit "u/1-cv.pdf")))
           [lit "u/1-cv.pdf"] [] [] eq_refl).
Defined.

(* ------------------------------------------------------------------ *)
(** * parseMultipart *)

Lemma startsWith_app_incompatible (x pat rest : jsstring) :
  compatible x pat = false -> startsWith (x ++ rest) pat = false.
Proof.
  unfold compatible. revert pat.
  induction x as [|c x IH]; intros pat H.
  - destruct pat; cbn in H; discriminate H.
  - destruct pat as [|p pat]; [discriminate H|].
    cbn [app startsWith] in *.
    rewrite (N.eqb_sym p c) in H.
    destruct (c =? p)%N; [|reflexivity].
    cbn [andb] in *. now apply IH.
Qed.

Lemma firstAttribute_skip (literal pre rest : jsstring) :
  noStart literal pre = true ->
  firstAttribute literal (pre ++ rest) = firstAttribute literal rest.
Proof.
  induction pre as [|c pre IH]; intros H; [reflexivity|].
  cbn [noStart] in H. apply andb_true_iff in H. destruct H as [Hc Hpre].
  apply negb_true_iff in Hc.
  cbn [app firstAttribute]. unfold matchAttribute at 1.
  change (c :: pre ++ rest) with ((c :: pre) ++ rest).
  rewrite (startsWith_app_incompatible _ _ _ Hc). now apply IH.
Qed.

Lemma indexOfFrom_skip (pat pre rest : jsstring) (i : Z) :
  noStart pat pre = true ->
  indexOfFrom (pre ++ rest) pat i
  = indexOfFrom rest pat (i + Z.of_nat (length pre)).
Proof.
  revert i. induction pre as [|c pre IH]; intros i H.
  - cbn [app length Z.of_nat]. now rewrite Z.add_0_r.
  - cbn [noStart] in H. apply andb_true_iff in H. destruct H as [Hc Hpre].
    apply negb_true_iff in Hc.
    cbn [app indexOfFrom].
    change (c :: pre ++ rest) with ((c :: pre) ++ rest).
    rewrite (startsWith_app_incompatible _ _ _ Hc), (IH _ Hpre).
    f_equal. cbn [length]. lia.
Qed.

(** A string without the first code unit of [pat] has no start of it. *)
Lemma noStart_without_head (p : N) (pat pre : jsstring) :
  forallb (fun c => negb (c =? p)%N) pre = true ->
  noStart (p :: pat) pre = true.
Proof.
  induction pre as [|c pre IH]; intros H; [reflexivity|].
  cbn [forallb] in H. apply andb_true_iff in H. destruct H as [Hc Hpre].
  apply negb_true_iff in Hc.
  cbn [noStart]. rewrite (IH Hpre), andb_true_r.
  unfold compatible. cbn [startsWith]. rewrite Hc, (N.eqb_sym p c), Hc.
  reflexivity.
Qed.

Lemma nonQuoteRun_app (run rest : jsstring) :
  forallb (fun c => negb (c =? 34)%N) run = true ->
  nonQuoteRun (run ++ 34%N :: rest) = (run, 34%N :: rest).
Proof.
  induction run as [|c run IH]; intros H; [reflexivity|].
  cbn [forallb] in H. apply andb_true_iff in H. destruct H as [Hc Hrun].
  apply negb_true_iff in Hc.
  cbn [app nonQuoteRun]. now rewrite Hc, (IH Hrun).
Qed.

(** The attribute is found where its literal stands in front of a
    non-empty run of non-quotes that a quote closes. *)
Lemma matchAttribute_here (literal run rest : jsstring) :
  run <> [] -> forallb (fun c => negb (c =? 34)%N) run = true ->
  matchAttribute literal (literal ++ run ++ 34%N :: rest) = Some run.
Proof.
  intros Hne Hrun. unfold matchAttribute.
  rewrite startsWith_app, skipn_app, skipn_all, Nat.sub_diag.
  cbn [app skipn]. rewrite (nonQuoteRun_app _ _ Hrun).
  destruct run; [contradiction | reflexivity].
Qed.

Lemma firstAttribute_here (literal run rest : jsstring) :
  run <> [] -> forallb (fun c => negb (c =? 34)%N) run = true ->
  firstAttribute literal (literal ++ run ++ 34%N :: rest) = Some run.
Proof.
  intros Hne Hrun.
  destruct (literal ++ run ++ 34%N :: rest) eqn:E;
    cbn [firstAttribute]; rewrite <- E;
    now rewrite (matchAttribute_here literal rest Hne Hrun).
Qed.

Lemma alnum_facts (c : N) :
  Generator.alnum c = true ->
  (c =? 34)%N = false /\ (c =? 13)%N = false /\ (c =? 61)%N = false.
Proof.
  intros H. repeat split; apply N.eqb_neq; intros ->; discriminate H.
Qed.

Lemma alnum_no_quote (name : jsstring) :
  forallb Generator.alnum name = true ->
  forallb (fun c => negb (c =? 34)%N) name = true.
Proof.
  rewrite !forallb_forall. intros H c Hc.
  now rewrite (proj1 (alnum_facts c (H c Hc))).
Qed.

Lemma alnum_no_return (name : jsstring) :
  forallb Generator.alnum name = true ->
  forallb (fun c => negb (c =? 13)%N) name = true.
Proof.
  rewrite !forallb_forall. intros H c Hc.
  now rewrite (proj1 (proj2 (alnum_facts c (H c Hc)))).
Qed.

Lemma indexOfFrom_here (pat rest : jsstring) (i : Z) :
  indexOfFrom (pat ++ rest) pat i = i.
Proof.
  destruct (pat ++ rest) eqn:E; cbn [indexOfFrom].
  - apply app_eq_nil in E. destruct E as [-> _]. reflexivity.
  - rewrite <- E. now rewrite startsWith_app.
Qed.

Lemma includes_dispositionPrefix (rest : jsstring) :
  includes (dispositionPrefix ++ rest) contentDisposition = true.
Proof. reflexivity. Qed.

Lemma includes_filenameFirstPrefix (rest : jsstring) :
  includes (filenameFirstPrefix ++ rest) contentDisposition = true.
Proof. reflexivity. Qed.

(** No file-name attribute begins inside an alphanumeric name that a
    quote closes: the [=] of the literal would have to be in the name. *)
Lemma alnum_not_filenameAttribute (name rest : jsstring) :
  forallb Generator.alnum name = true ->
  startsWith (name ++ 34%N :: rest) filenameAttribute = false.
Proof.
  intros H.
  do 8 (destruct name as [|? name];
        [cbn; rewrite ?andb_false_r; reflexivity|]).
  destruct name as [|c name]; [cbn; rewrite ?andb_false_r; reflexivity|].
  cbn [forallb] in H. rewrite !andb_true_iff in H.
  destruct H as (_ & _ & _ & _ & _ & _ & _ & _ & Hc & _).
  destruct (alnum_facts c Hc) as (_ & _ & E).
  cbn [app startsWith filenameAttribute]. rewrite E.
  rewrite ?andb_false_l, ?andb_false_r. reflexivity.
Qed.

Lemma firstAttribute_skip_alnum (name rest : jsstring) :
  forallb Generator.alnum name = true ->
  firstAttribute filenameAttribute (name ++ 34%N :: rest)
  = firstAttribute filenameAttribute (34%N :: rest).
Proof.
  induction name as [|c name IH]; intros H; [reflexivity|].
  assert (Hname : forallb Generator.alnum name = true).
  { cbn [forallb] in H. now apply andb_true_iff in H. }
  change ((c :: name) ++ 34%N :: rest)
    with (c :: (name ++ 34%N :: rest)).
  cbn [firstAttribute]. unfold matchAttribute at 1.
  change (c :: (name ++ 34%N :: rest))
    with ((c :: name) ++ 34%N :: rest).
  rewrite (@alnum_not_filenameAttribute (c :: name) rest H). now apply IH.
Qed.

(** The content is what follows the first blank line, less one line
    break at its end. *)
Lemma content_after_blank_line (head content : jsstring) :
  indexOf (head ++ blankLine ++ content ++ CRLF) blankLine
  = Z.of_nat (length head) ->
  let segment := head ++ blankLine ++ content ++ CRLF in
  let rest := slice segment (indexOf segment blankLine + 4) None in
  (if endsWith rest CRLF then slice rest 0 (Some (-2)%Z) else rest)
  = content.
Proof.
  intros E. cbv zeta. rewrite E.
  replace (Z.of_nat (length head) + 4)%Z
    with (Z.of_nat (length (head ++ blankLine)))
    by (rewrite length_app; cbn [length blankLine]; lia).
  rewrite (app_assoc head blankLine), slice_from.
  rewrite endsWith_app.
  apply slice_drop_end; [reflexivity | lia].
Qed.

Lemma nameAttribute_of_prefix (name rest : jsstring) :
  name <> [] -> forallb Generator.alnum name = true ->
  firstAttribute nameAttribute (dispositionPrefix ++ name ++ 34%N :: rest)
  = Some name.
Proof.
  intros Hne Hname.
  change dispositionPrefix with (dispositionLine ++ nameAttribute).
  rewrite <- app_assoc.
  rewrite firstAttribute_skip by reflexivity.
  apply firstAttribute_here; [exact Hne | now apply alnum_no_quote].
Qed.

Lemma blank_line_after_name (name rest : jsstring) (i : Z) :
  forallb Generator.alnum name = true ->
  indexOfFrom (dispositionPrefix ++ name ++ rest) blankLine i
  = indexOfFrom rest blankLine
      (i + Z.of_nat (length (dispositionPrefix ++ name))).
Proof.
  intros Hname.
  rewrite indexOfFrom_skip by reflexivity.
  rewrite indexOfFrom_skip
    by (apply noStart_without_head; now apply alnum_no_return).
  f_equal. rewrite length_app. lia.
Qed.

(** X23.  A text field as a browser sends it: the disposition line with
    an alphanumeric, non-empty field name, a blank line, the content and
    a line break.  Provided the content shows no file-name attribute,
    the segment sets the property of that name to a part without file
    name whose content is the field's content, whatever it is. *)
Theorem parseSegment_text_field (name content : jsstring) :
  name <> [] ->
  forallb Generator.alnum name = true ->
  firstAttribute filenameAttribute (content ++ CRLF) = None ->
  parseSegment (fieldSegment name content)
  = Some (name, {| partFilename := None; partContent := content |}).
Proof.
  intros Hne Hname Hcontent.
  unfold parseSegment, fieldSegment.
  rewrite includes_dispositionPrefix. cbv zeta.
  change ([34%N] ++ blankLine ++ content ++ CRLF)
    with (34%N :: blankLine ++ content ++ CRLF).
  rewrite (@nameAttribute_of_prefix name _ Hne Hname).
  do 2 f_equal. f_equal.
  - rewrite firstAttribute_skip by reflexivity.
    rewrite (@firstAttribute_skip_alnum name _ Hname).
    change (34%N :: blankLine ++ content ++ CRLF)
      with ((34%N :: blankLine) ++ content ++ CRLF).
    rewrite firstAttribute_skip by reflexivity.
    exact Hcontent.
  - change (dispositionPrefix ++ name ++ 34%N :: blankLine ++ content ++ CRLF)
      with (dispositionPrefix ++ name ++ [34%N] ++ blankLine ++ content ++ CRLF).
    rewrite !(app_assoc _ _ (blankLine ++ content ++ CRLF)).
    apply content_after_blank_line.
    rewrite <- !app_assoc. unfold indexOf.
    rewrite (@blank_line_after_name name _ _ Hname).
    change ([34%N] ++ blankLine ++ content ++ CRLF)
      with ([34%N] ++ (blankLine ++ content ++ CRLF)).
    rewrite indexOfFrom_skip by reflexivity.
    rewrite indexOfFrom_here.
    rewrite !length_app. cbn [length]. lia.
Qed.

Lemma parseSegment_text_field_witness :
  parseSegment (fieldSegment (lit "jobDescriptionText") (lit "Analyst wanted"))
  = Some (lit "jobDescriptionText",
          {| partFilename := None; partContent := lit "Analyst wanted" |}).
Proof.
  apply parseSegment_text_field;
    [discriminate | reflexivity | reflexivity].
Defined.

(** X24.  A file as a browser sends it: the disposition line with the
    field name and the file name, the content-type line, a blank line,
    the content and a line break.  With an alphanumeric, non-empty field
    name, a non-empty file name without quote or carriage return and a
    content type without carriage return, the segment sets the property
    of the field name to the file name and the content, whatever the
    content is. *)
Theorem parseSegment_file_field
    (name filename contentType content : jsstring) :
  name <> [] ->
  forallb Generator.alnum name = true ->
  filename <> [] ->
  forallb (fun c => negb (c =? 34)%N) filename = true ->
  forallb (fun c => negb (c =? 13)%N) filename = true ->
  forallb (fun c => negb (c =? 13)%N) contentType = true ->
  parseSegment (fileSegment name filename contentType content)
  = Some (name, {| partFilename := Some filename;
                   partContent := content |}).
Proof.
  intros Hne Hname Hfne Hquote Hreturn Htype.
  unfold parseSegment, fileSegment.
  rewrite includes_dispositionPrefix. cbv zeta.
  change filenamePrefix with (34%N :: [59; 32]%N ++ filenameAttribute).
  change contentTypePrefix with (34%N :: tl contentTypePrefix).
  change ((34%N :: [59; 32]%N ++ filenameAttribute) ++ filename
          ++ (34%N :: tl contentTypePrefix) ++ contentType ++ blankLine
          ++ content ++ CRLF)
    with (34%N :: [59; 32]%N
          ++ (filenameAttribute ++ filename
              ++ 34%N :: (tl contentTypePrefix ++ contentType ++ blankLine
                          ++ content ++ CRLF))).
  rewrite (@nameAttribute_of_prefix name _ Hne Hname).
  do 2 f_equal. f_equal.
  - rewrite firstAttribute_skip by reflexivity.
    rewrite (@firstAttribute_skip_alnum name _ Hname).
    change (34%N :: [59; 32]%N ++ ?x) with ([34; 59; 32]%N ++ x).
    rewrite firstAttribute_skip by reflexivity.
    now apply firstAttribute_here.
  - change (34%N :: [59; 32]%N
            ++ (filenameAttribute ++ filename
                ++ 34%N :: (tl contentTypePrefix ++ contentType ++ blankLine
                            ++ content ++ CRLF)))
      with (filenamePrefix ++ filename ++ contentTypePrefix ++ contentType
            ++ blankLine ++ content ++ CRLF).
    rewrite !(app_assoc _ _ (blankLine ++ content ++ CRLF)).
    apply content_after_blank_line.
    rewrite <- !app_assoc. unfold indexOf.
    rewrite (@blank_line_after_name name _ _ Hname).
    rewrite indexOfFrom_skip by reflexivity.
    rewrite indexOfFrom_skip by now apply noStart_without_head.
    rewrite indexOfFrom_skip by reflexivity.
    rewrite indexOfFrom_skip by now apply noStart_without_head.
    rewrite indexOfFrom_here.
    rewrite !length_app. lia.
Qed.

Lemma parseSegment_file_field_witness :
  parseSegment
    (fileSegment (lit "cv") (lit "cv.txt") (lit "text/plain")
       (lit "My CV" ++ CRLF ++ lit "line2"))
  = Some (lit "cv",
          {| partFilename := Some (lit "cv.txt");
             partContent := lit "My CV" ++ CRLF ++ lit "line2" |}).
Proof.
  apply parseSegment_file_field;
    [discriminate | reflexivity | discriminate
    | reflexivity | reflexivity | reflexivity].
Defined.

(** X25.  The expression for the field name is not anchored: it also
    matches inside a file-name attribute.  When the disposition line
    gives the file name first, the part is stored under the file name,
    whatever field name follows. *)
Theorem parseSegment_filename_first (filename rest : jsstring) :
  filename <> [] ->
  forallb (fun c => negb (c =? 34)%N) filename = true ->
  exists content,
    parseSegment (filenameFirstPrefix ++ filename ++ 34%N :: rest)
    = Some (filename, {| partFilename := Some filename;
                         partContent := content |}).
Proof.
  intros Hne Hquote.
  unfold parseSegment.
  rewrite includes_filenameFirstPrefix. cbv zeta.
  replace (firstAttribute nameAttribute
             (filenameFirstPrefix ++ filename ++ 34%N :: rest))
    with (Some filename).
  2:{ change filenameFirstPrefix
        with ((dispositionLine ++ lit "file") ++ nameAttribute).
      rewrite <- app_assoc.
      rewrite firstAttribute_skip by reflexivity.
      symmetry. now apply firstAttribute_here. }
  replace (firstAttribute filenameAttribute
             (filenameFirstPrefix ++ filename ++ 34%N :: rest))
    with (Some filename).
  2:{ change filenameFirstPrefix
        with (dispositionLine ++ filenameAttribute).
      rewrite <- app_assoc.
      rewrite firstAttribute_skip by reflexivity.
      symmetry. now apply firstAttribute_here. }
  eexists. reflexivity.
Qed.

Lemma parseSegment_filename_first_witness :
  exists content,
    parseSegment
      (filenameFirstPrefix ++ lit "cv.txt"
       ++ 34%N :: lit "; name=" ++ 34%N :: lit "cv" ++ 34%N :: blankLine
       ++ lit "My CV" ++ CRLF)
    = Some (lit "cv.txt", {| partFilename := Some (lit "cv.txt");
                             partContent := content |}).
Proof.
  apply parseSegment_filename_first; [discriminate | reflexivity].
Defined.

(* ------------------------------------------------------------------ *)
(** * Splitting a body at its delimiter *)

Lemma startsWith_long (y z sep : jsstring) :
  (length sep <= length y)%nat ->
  startsWith (y ++ z) sep = startsWith y sep.
Proof.
  revert y. induction sep as [|p sep IH]; intros y H; [reflexivity|].
  destruct y as [|c y]; [cbn in H; lia|].
  cbn [app startsWith]. rewrite IH by (cbn [length] in H; lia).
  reflexivity.
Qed.

Lemma length_removelast (sep : jsstring) :
  length (removelast sep) = (length sep - 1)%nat.
Proof.
  rewrite removelast_firstn_len, length_firstn. lia.
Qed.

(** An occurrence that begins inside the segment ends before the last
    code unit of the separator that follows. *)
Lemma startsWith_before_separator (c : N) (seg sep rest : jsstring) :
  sep <> [] ->
  startsWith ((c :: seg) ++ sep ++ rest) sep
  = startsWith ((c :: seg) ++ removelast sep) sep.
Proof.
  intros Hsep.
  rewrite (@app_removelast_last _ sep 0%N Hsep) at 1.
  rewrite <- (app_assoc (removelast sep)), (app_assoc (c :: seg)).
  apply startsWith_long.
  rewrite length_app, length_removelast. cbn [length].
  destruct sep; [contradiction | cbn [length]; lia].
Qed.

Lemma indexOfFrom_none (c : N) (s pat : jsstring) (i : Z) :
  (0 <= i)%Z -> indexOfFrom (c :: s) pat i = (-1)%Z ->
  startsWith (c :: s) pat = false
  /\ indexOfFrom s pat (i + 1) = (-1)%Z.
Proof.
  intros Hi H. cbn [indexOfFrom] in H.
  destruct (startsWith (c :: s) pat); [lia | now split].
Qed.

Lemma splitFrom_skip (sep a rest cur : jsstring) :
  splitFrom sep (a ++ rest) (length a) cur = splitFrom sep rest 0 cur.
Proof.
  induction a as [|c a IH]; [reflexivity|].
  cbn [app length splitFrom]. exact IH.
Qed.

Lemma splitFrom_at_separator (sep rest cur : jsstring) :
  sep <> [] ->
  splitFrom sep (sep ++ rest) 0 cur = rev cur :: splitFrom sep rest 0 [].
Proof.
  intros Hsep. destruct sep as [|p sep]; [contradiction|].
  change ((p :: sep) ++ rest) with (p :: (sep ++ rest)).
  cbn [splitFrom].
  change (p :: (sep ++ rest)) with ((p :: sep) ++ rest).
  rewrite startsWith_app.
  replace (length (p :: sep) - 1)%nat with (length sep)
    by (cbn [length]; lia).
  now rewrite splitFrom_skip.
Qed.

Lemma splitFrom_segment (sep seg rest cur : jsstring) (i : Z) :
  sep <> [] -> (0 <= i)%Z ->
  indexOfFrom (seg ++ removelast sep) sep i = (-1)%Z ->
  splitFrom sep (seg ++ sep ++ rest) 0 cur
  = (rev cur ++ seg) :: splitFrom sep rest 0 [].
Proof.
  intros Hsep. revert cur i.
  induction seg as [|c seg IH]; intros cur i Hi H.
  - cbn [app]. rewrite app_nil_r. now apply splitFrom_at_separator.
  - change ((c :: seg) ++ removelast sep)
      with (c :: (seg ++ removelast sep)) in H.
    destruct (@indexOfFrom_none _ _ _ _ Hi H) as [Hc Hseg].
    change ((c :: seg) ++ sep ++ rest) with (c :: (seg ++ sep ++ rest)).
    cbn [splitFrom].
    change (c :: (seg ++ sep ++ rest)) with ((c :: seg) ++ sep ++ rest).
    rewrite (@startsWith_before_separator c seg sep rest Hsep).
    change ((c :: seg) ++ removelast sep)
      with (c :: (seg ++ removelast sep)).
    rewrite Hc.
    rewrite (IH (c :: cur) (i + 1)%Z) by (try lia; exact Hseg).
    cbn [rev]. now rewrite <- app_assoc.
Qed.

Lemma splitFrom_last (sep s cur : jsstring) (i : Z) :
  (0 <= i)%Z -> indexOfFrom s sep i = (-1)%Z ->
  splitFrom sep s 0 cur = [rev cur ++ s].
Proof.
  revert cur i. induction s as [|c s IH]; intros cur i Hi H.
  - cbn [splitFrom]. now rewrite app_nil_r.
  - destruct (@indexOfFrom_none _ _ _ _ Hi H) as [Hc Hs].
    cbn [splitFrom]. rewrite Hc.
    rewrite (IH (c :: cur) (i + 1)%Z) by (try lia; exact Hs).
    cbn [rev]. now rewrite <- app_assoc.
Qed.

Lemma freeOf_indexOf (sep seg : jsstring) :
  freeOf sep seg = true ->
  indexOfFrom (seg ++ removelast sep) sep 0 = (-1)%Z.
Proof.
  unfold freeOf, includes, indexOf. intros H.
  apply negb_true_iff, negb_false_iff in H. now apply Z.eqb_eq.
Qed.

(** The pieces of a body: what stands before the first delimiter, the
    segments, the closing piece. *)
Lemma split_segments (sep first last : jsstring) (segments : list jsstring) :
  sep <> [] ->
  freeOf sep first = true ->
  Forall (fun segment => freeOf sep segment = true) segments ->
  includes last sep = false ->
  split
    (first ++ flat_map (fun segment => sep ++ segment) segments
     ++ sep ++ last) sep
  = first :: segments ++ [last].
Proof.
  intros Hsep Hfirst Hall Hlast. unfold split. revert first Hfirst.
  induction Hall as [|segment segments Hsegment _ IH]; intros first Hfirst.
  - cbn [flat_map app].
    rewrite (@splitFrom_segment sep first last [] 0%Z Hsep)
      by (try lia; now apply freeOf_indexOf).
    cbn [rev app]. f_equal.
    rewrite (@splitFrom_last sep last [] 0%Z); [reflexivity | lia |].
    unfold includes, indexOf in Hlast.
    apply negb_false_iff in Hlast. now apply Z.eqb_eq.
  - cbn [flat_map]. rewrite <- !app_assoc.
    rewrite (@splitFrom_segment sep first _ [] 0%Z Hsep)
      by (try lia; now apply freeOf_indexOf).
    cbn [rev app]. f_equal.
    exact (IH segment Hsegment).
Qed.

Lemma startsWith_short (s pat : jsstring) :
  (length s < length pat)%nat -> startsWith s pat = false.
Proof.
  revert s. induction pat as [|p pat IH]; intros s H; [cbn in H; lia|].
  destruct s as [|c s]; [reflexivity|].
  cbn [startsWith]. rewrite IH by (cbn [length] in H; lia).
  apply andb_false_r.
Qed.

Lemma indexOfFrom_short (s pat : jsstring) (i : Z) :
  (length s < length pat)%nat -> indexOfFrom s pat i = (-1)%Z.
Proof.
  revert i. induction s as [|c s IH]; intros i H.
  - destruct pat; [cbn in H; lia | reflexivity].
  - cbn [indexOfFrom]. rewrite (startsWith_short _ _ H).
    apply IH. cbn [length] in H. lia.
Qed.

Lemma freeOf_nil (sep : jsstring) : sep <> [] -> freeOf sep [] = true.
Proof.
  intros Hsep. unfold freeOf, includes, indexOf. cbn [app].
  rewrite indexOfFrom_short; [reflexivity|].
  rewrite length_removelast. destruct sep; [contradiction|].
  cbn [length]. lia.
Qed.

Lemma delimiter_not_nil (boundary : jsstring) : delimiter boundary <> [].
Proof. discriminate. Qed.

Lemma getOwn_app (name : jsstring) (a b : list (jsstring * Part)) :
  getOwn name (a ++ b)
  = match getOwn name a with
    | Some v => Some v
    | None => getOwn name b
    end.
Proof.
  unfold getOwn. induction a as [|[n v] a IH]; [reflexivity|].
  cbn [app find fst]. destruct (jsstring_eqb n name); [reflexivity|].
  exact IH.
Qed.

Lemma jsstring_eqb_refl (name : jsstring) : jsstring_eqb name name = true.
Proof. now apply jsstring_eqb_eq. Qed.

Lemma jsstring_eqb_neq (a b : jsstring) :
  a <> b -> jsstring_eqb a b = false.
Proof.
  intros H. destruct (jsstring_eqb a b) eqn:E; [|reflexivity].
  now apply jsstring_eqb_eq in E.
Qed.

Lemma getOwn_assignOwn_same (name : jsstring) (value : Part)
    (own : list (jsstring * Part)) :
  getOwn name (assignOwn name value own) = Some value.
Proof.
  unfold getOwn. induction own as [|[n v] own IH]; cbn [assignOwn].
  - cbn [find fst]. now rewrite jsstring_eqb_refl.
  - destruct (jsstring_eqb n name) eqn:E; cbn [find fst]; rewrite E.
    + reflexivity.
    + exact IH.
Qed.

Lemma getOwn_assignOwn_other (name other : jsstring) (value : Part)
    (own : list (jsstring * Part)) :
  other <> name ->
  getOwn name (assignOwn other value own) = getOwn name own.
Proof.
  intros Hne. unfold getOwn.
  induction own as [|[n v] own IH]; cbn [assignOwn].
  - cbn [find fst]. now rewrite (jsstring_eqb_neq Hne).
  - destruct (jsstring_eqb n other) eqn:E; cbn [find fst].
    + apply jsstring_eqb_eq in E. subst n.
      now rewrite (jsstring_eqb_neq Hne).
    + destruct (jsstring_eqb n name); [reflexivity | exact IH].
Qed.

Lemma lastNamed_cons (name segment : jsstring) (segments : list jsstring) :
  lastNamed name (segment :: segments)
  = match lastNamed name segments with
    | Some v => Some v
    | None =>
        match parseSegment segment with
        | Some (n, v) => if jsstring_eqb n name then Some v else None
        | None => None
        end
    end.
Proof.
  unfold lastNamed, parsedSegments. cbn [flat_map].
  rewrite rev_app_distr, getOwn_app.
  destruct (getOwn name _); [reflexivity|].
  destruct (parseSegment segment) as [[n v]|]; [|reflexivity].
  unfold getOwn. cbn [rev app find fst].
  now destruct (jsstring_eqb n name).
Qed.

(** The object after the loop over the segments: an own property is the
    part of the last segment that gives its name, else what was there
    before, and no segment creates a property [__proto__]; the
    prototype is the part of the last segment that gives [__proto__],
    else what it was. *)
Lemma parts_of_segments (name : jsstring) (segments : list jsstring)
    (parts : Parts) :
  let result :=
    fold_left
      (fun parts segment =>
         match parseSegment segment with
         | Some (name, value) => setPart name value parts
         | None => parts
         end)
      segments parts in
  getOwn name (ownParts result)
  = match
      (if jsstring_eqb name protoName then None
       else lastNamed name segments)
    with
    | Some v => Some v
    | None => getOwn name (ownParts parts)
    end
  /\ partsPrototype result
     = match lastNamed protoName segments with
       | Some v => Some v
       | None => partsPrototype parts
       end.
Proof.
  cbv zeta. revert parts.
  induction segments as [|segment segments IH]; intros parts.
  - cbn [fold_left]. unfold lastNamed, getOwn. cbn.
    now destruct (jsstring_eqb name protoName).
  - cbn [fold_left]. rewrite !lastNamed_cons.
    destruct (IH (match parseSegment segment with
                  | Some (name, value) => setPart name value parts
                  | None => parts
                  end)) as [Hown Hproto].
    rewrite Hown, Hproto. clear IH Hown Hproto.
    destruct (parseSegment segment) as [[n v]|].
    2:{ split.
        - destruct (jsstring_eqb name protoName); [reflexivity|].
          now destruct (lastNamed name segments).
        - now destruct (lastNamed protoName segments). }
    unfold setPart.
    destruct (jsstring_eqb n protoName) eqn:En; cbn [ownParts partsPrototype].
    + apply jsstring_eqb_eq in En. subst n. split.
      * destruct (jsstring_eqb name protoName) eqn:E; [reflexivity|].
        destruct (lastNamed name segments); [reflexivity|].
        destruct (jsstring_eqb protoName name) eqn:E'; [|reflexivity].
        apply jsstring_eqb_eq in E'. subst name.
        now rewrite jsstring_eqb_refl in E.
      * now destruct (lastNamed protoName segments).
    + split.
      * destruct (jsstring_eqb name protoName) eqn:E.
        -- apply jsstring_eqb_eq in E. subst name.
           apply getOwn_assignOwn_other. intros ->.
           now rewrite jsstring_eqb_refl in En.
        -- destruct (lastNamed name segments); [reflexivity|].
           destruct (jsstring_eqb n name) eqn:E'.
           ++ apply jsstring_eqb_eq in E'. subst n.
              apply getOwn_assignOwn_same.
           ++ apply getOwn_assignOwn_other. intros ->.
              now rewrite jsstring_eqb_refl in E'.
      * now destruct (lastNamed protoName segments).
Qed.

(** X26.  Splitting at the delimiter gives back the segments a body was
    assembled from, between an empty first piece and the closing piece,
    provided no segment followed by the delimiter shows an earlier
    occurrence of it and the closing piece shows none. *)
Theorem split_multipartBody (boundary : jsstring)
    (segments : list jsstring) :
  Forall (fun segment => freeOf (delimiter boundary) segment = true)
    segments ->
  includes closing (delimiter boundary) = false ->
  split (multipartBody boundary segments) (lit "--" ++ boundary)
  = [] :: segments ++ [closing].
Proof.
  intros Hall Hclosing.
  exact (@split_segments (delimiter boundary) [] closing segments
           (@delimiter_not_nil boundary)
           (@freeOf_nil _ (@delimiter_not_nil boundary)) Hall Hclosing).
Qed.

Lemma split_multipartBody_witness :
  split
    (multipartBody (lit "XyZ")
       [fieldSegment (lit "jobDescriptionText") (lit "Analyst wanted");
        fileSegment (lit "cv") (lit "cv.txt") (lit "text/plain")
          (lit "My CV" ++ CRLF ++ lit "line2")])
    (lit "--" ++ lit "XyZ")
  = [] :: [fieldSegment (lit "jobDescriptionText") (lit "Analyst wanted");
           fileSegment (lit "cv") (lit "cv.txt") (lit "text/plain")
             (lit "My CV" ++ CRLF ++ lit "line2")]
       ++ [closing].
Proof.
  apply split_multipartBody;
    [repeat constructor; reflexivity | reflexivity].
Defined.

Lemma lastNamed_pieces (name : jsstring) (segments : list jsstring) :
  lastNamed name (@cons jsstring [] (segments ++ [closing]))
  = lastNamed name segments.
Proof.
  unfold lastNamed, parsedSegments.
  cbn [flat_map]. rewrite flat_map_app. cbn [flat_map].
  change (parseSegment []) with (@None (jsstring * Part)).
  change (parseSegment closing) with (@None (jsstring * Part)).
  cbn [app]. now rewrite app_nil_r.
Qed.

(** Reading a property of the object returned for an assembled body,
    in one equation. *)
Lemma getPart_parseMultipart (boundary name : jsstring)
    (segments : list jsstring) :
  Forall (fun segment => freeOf (delimiter boundary) segment = true)
    segments ->
  includes closing (delimiter boundary) = false ->
  getPart name (parseMultipart (multipartBody boundary segments) boundary)
  = match
      (if jsstring_eqb name protoName then None
       else lastNamed name segments)
    with
    | Some part => PartObject part
    | None => inheritedValue name (lastNamed protoName segments)
    end.
Proof.
  intros Hall Hclosing. unfold parseMultipart, getPart. cbv zeta.
  change (split (multipartBody boundary segments) (lit "--" ++ boundary))
    with (split
            ([] ++ flat_map (fun segment => delimiter boundary ++ segment)
                     segments
             ++ delimiter boundary ++ closing) (delimiter boundary)).
  rewrite (@split_segments (delimiter boundary) [] closing segments
             (@delimiter_not_nil boundary)
             (@freeOf_nil _ (@delimiter_not_nil boundary)) Hall Hclosing).
  destruct (parts_of_segments name
              (@cons jsstring [] (segments ++ [closing])) emptyParts)
    as [Hown Hproto].
  cbv zeta in Hown, Hproto. rewrite Hown, Hproto.
  rewrite !lastNamed_pieces. cbn [emptyParts ownParts partsPrototype].
  destruct (jsstring_eqb name protoName).
  - now destruct (lastNamed protoName segments).
  - destruct (lastNamed name segments); [reflexivity|].
    now destruct (lastNamed protoName segments).
Qed.

(** X27.  Reading a property of the object returned for a body
    assembled from segments.  For a name other than [__proto__] that
    some segment gives, it is the part of the last such segment: a
    field sent twice keeps its later part, and segments giving other
    names leave it alone.  A segment that gives the name [__proto__]
    creates no property: its part becomes the prototype, [__proto__]
    reads as that part, and [filename] and [content], when no segment
    gives them, read as its file name (or [null]) and its content.
    With no segment named [__proto__], a name that no segment gives
    reads as the method of that name that plain objects inherit, if
    there is one, and as [undefined] else, and [__proto__] reads as
    [Object.prototype].  The empty first piece and the closing piece
    set nothing. *)
Theorem parseMultipart_last_segment_wins (boundary : jsstring)
    (segments : list jsstring) :
  Forall (fun segment => freeOf (delimiter boundary) segment = true)
    segments ->
  includes closing (delimiter boundary) = false ->
  let parts := parseMultipart (multipartBody boundary segments) boundary in
  (forall name part,
     name <> lit "__proto__" -> lastNamed name segments = Some part ->
     getPart name parts = PartObject part)
  /\ (forall prototype,
        lastNamed (lit "__proto__") segments = Some prototype ->
        getPart (lit "__proto__") parts = PartObject prototype
        /\ (lastNamed (lit "filename") segments = None ->
            getPart (lit "filename") parts
            = match partFilename prototype with
              | Some f => Text f
              | None => Null
              end)
        /\ (lastNamed (lit "content") segments = None ->
            getPart (lit "content") parts = Text (partContent prototype)))
  /\ (lastNamed (lit "__proto__") segments = None ->
      getPart (lit "__proto__") parts = ObjectPrototype
      /\ getPart (lit "toString") parts
         = match lastNamed (lit "toString") segments with
           | Some part => PartObject part
           | None => Builtin (lit "toString")
           end
      /\ forall name,
           name <> lit "__proto__" -> lastNamed name segments = None ->
           ~ In name objectPrototypeNames ->
           getPart name parts = Undefined).
Proof.
  intros Hall Hclosing. cbv zeta.
  pose proof (fun name =>
                @getPart_parseMultipart boundary name segments Hall Hclosing)
    as Hget.
  change (lit "__proto__") with protoName.
  split; [|split].
  - intros name part Hne Hlast. rewrite Hget.
    now rewrite (jsstring_eqb_neq Hne), Hlast.
  - intros prototype Hproto. rewrite !Hget, Hproto.
    split; [now rewrite jsstring_eqb_refl|]. split.
    + intros Hnone.
      change (jsstring_eqb (lit "filename") protoName) with false.
      cbv iota. rewrite Hnone. reflexivity.
    + intros Hnone.
      change (jsstring_eqb (lit "content") protoName) with false.
      cbv iota. rewrite Hnone. reflexivity.
  - intros Hproto. rewrite !Hget, Hproto.
    split; [now rewrite jsstring_eqb_refl|]. split.
    + change (jsstring_eqb (lit "toString") protoName) with false.
      cbv iota. now destruct (lastNamed (lit "toString") segments).
    + intros name Hne Hlast Hout. rewrite Hget.
      rewrite (jsstring_eqb_neq Hne), Hlast, Hproto.
      unfold inheritedValue, objectPrototypeValue.
      rewrite (jsstring_eqb_neq Hne).
      destruct (existsb (jsstring_eqb name) objectPrototypeNames) eqn:E;
        [|reflexivity].
      apply existsb_exists in E. destruct E as [x [Hx E]].
      apply jsstring_eqb_eq in E. subst x. contradiction.
Qed.

(** A body that sends [cv] twice, with a segment named [__proto__]
    between: [parts.cv] is the later part. *)
Lemma parseMultipart_last_segment_wins_witness :
  getPart (lit "cv")
    (parseMultipart
       (multipartBody (lit "XyZ")
          [fileSegment (lit "cv") (lit "old.txt") (lit "text/plain")
             (lit "First");
           fieldSegment (lit "__proto__") (lit "Analyst wanted");
           fileSegment (lit "cv") (lit "cv.txt") (lit "text/plain")
             (lit "My CV")])
       (lit "XyZ"))
  = PartObject {| partFilename := Some (lit "cv.txt");
                  partContent := lit "My CV" |}.
Proof.
  refine (proj1 (@parseMultipart_last_segment_wins (lit "XyZ")
                   [fileSegment (lit "cv") (lit "old.txt") (lit "text/plain")
                      (lit "First");
                    fieldSegment (lit "__proto__") (lit "Analyst wanted");
                    fileSegment (lit "cv") (lit "cv.txt") (lit "text/plain")
                      (lit "My CV")] _ _)
            (lit "cv") _ _ _).
  - repeat constructor; reflexivity.
  - reflexivity.
  - discriminate.
  - reflexivity.
Defined.
